(** * Smart study scheduler: the Express server and its companion client

    A shallow embedding of [src/public/index.js]: the session middleware
    [verifyToken], the routes [GET /], [GET /form], [GET /dashboard],
    [POST /register], [POST /login], [POST /form], [GET /logout], and the
    browser script [auth] that posts to the login and register endpoints.

    Conventions of the model.
    - JavaScript text is a byte string ([string]); text received from the
      outside is read as UTF-8.
    - A handler is a computation over a [World] (database, pool client,
      query log, response under construction) that either returns or throws;
      what was done before a throw stays done.
    - Everything the server does not own (the database engine's failures,
      the generative model, the clock, the signing secret, the column
      ordering of the schema, the EJS views) is read from an [Env].
    - The libraries are modelled by what the program observes of them:
      [JSON.parse] by a parser of the JSON grammar, a JSON Web Token by its
      claims and the key that signed it, a bcrypt hash by its cost, salt and
      key, the pg driver by the statements it is sent.
    - Left out: what [console.log] prints, the files [express.static]
      serves, fields of the form that arrive as arrays or nested objects,
      and requests served at the same time. *)

From Stdlib Require Import String Ascii List ZArith NArith Bool Arith Lia.
From Stdlib Require Import Sorting.Sorted Sorting.Permutation.
Import ListNotations.
Open Scope string_scope.
Open Scope list_scope.
Set Warnings "-register-all".

(** ** Text *)

Module Text.

Definition code (c : ascii) : N := N_of_ascii c.

(** The double-quote character, U+0022. *)
Definition dquote : ascii := ascii_of_N 34.

(** Source literals that contain double quotes are written here with
    single quotes; [q] turns every single quote into a double quote.  It is
    applied to literals of the source only, never to data. *)
Fixpoint q (s : string) : string :=
  match s with
  | EmptyString => EmptyString
  | String c r => String (if (code c =? 39)%N then dquote else c) (q r)
  end.

Fixpoint starts_with (p s : string) : bool :=
  match p, s with
  | EmptyString, _ => true
  | String a p', String b s' => Ascii.eqb a b && starts_with p' s'
  | String _ _, EmptyString => false
  end.

(** [s.replace(/pat/g, '')] for a pattern without metacharacters: every
    occurrence is removed, scanning from the left; [skip] counts the
    characters of the occurrence under the cursor still to drop. *)
Fixpoint remove_all_from (pat : string) (skip : nat) (s : string) : string :=
  match s with
  | EmptyString => EmptyString
  | String c r =>
      match skip with
      | S k => remove_all_from pat k r
      | O =>
          if starts_with pat s
          then remove_all_from pat (String.length pat - 1) r
          else String c (remove_all_from pat 0 r)
      end
  end.

Definition remove_all (pat s : string) : string :=
  match pat with
  | EmptyString => s
  | _ => remove_all_from pat 0 s
  end.

Definition bytes (l : list N) : string :=
  fold_right (fun n s => String (ascii_of_N n) s) EmptyString l.

(** The WhiteSpace and LineTerminator code points that
    [String.prototype.trim] removes, in UTF-8: U+0009 to U+000D, U+0020,
    U+00A0, U+1680, U+2000 to U+200A, U+2028, U+2029, U+202F, U+205F, U+3000
    and U+FEFF. *)
Definition white_space : list string :=
  map bytes
    [ [9]; [10]; [11]; [12]; [13]; [32]; [194; 160]; [225; 154; 128];
      [226; 128; 128]; [226; 128; 129]; [226; 128; 130]; [226; 128; 131];
      [226; 128; 132]; [226; 128; 133]; [226; 128; 134]; [226; 128; 135];
      [226; 128; 136]; [226; 128; 137]; [226; 128; 138];
      [226; 128; 168]; [226; 128; 169]; [226; 128; 175]; [226; 129; 159];
      [227; 128; 128]; [239; 187; 191] ]%N.

(** [s] without its prefix [p], when it has it. *)
Fixpoint strip_prefix (p s : string) : option string :=
  match p, s with
  | EmptyString, _ => Some s
  | String a p', String b s' => if Ascii.eqb a b then strip_prefix p' s' else None
  | String _ _, EmptyString => None
  end.

Fixpoint strip_any (ps : list string) (s : string) : option string :=
  match ps with
  | [] => None
  | p :: r =>
      match strip_prefix p s with
      | Some rest => Some rest
      | None => strip_any r s
      end
  end.

(** [s] without the longest prefix made of elements of [ps]; every
    element removed is at least a byte, so [fuel] need not exceed the
    length of [s]. *)
Fixpoint strip_all (fuel : nat) (ps : list string) (s : string) : string :=
  match fuel with
  | O => s
  | S f =>
      match strip_any ps s with
      | Some rest => strip_all f ps rest
      | None => s
      end
  end.

Fixpoint rev_onto (s acc : string) : string :=
  match s with
  | EmptyString => acc
  | String c r => rev_onto r (String c acc)
  end.

Definition rev (s : string) : string := rev_onto s EmptyString.

Definition trim_start (s : string) : string :=
  strip_all (String.length s) white_space s.

Definition trim_end (s : string) : string :=
  rev (strip_all (String.length s) (map rev white_space) (rev s)).

Definition trim (s : string) : string := trim_end (trim_start s).

(** Is [c] a UTF-8 continuation byte (10xxxxxx)? *)
Definition is_continuation (c : ascii) : bool :=
  let n := code c in ((128 <=? n) && (n <? 192))%N.

(** The length of UTF-8 text in UTF-16 code units: one for a code point
    of one to three bytes, two for one of four. *)
Fixpoint utf16_length (s : string) : N :=
  match s with
  | EmptyString => 0
  | String c r =>
      let n := code c in
      (if is_continuation c then 0 else if (240 <=? n) then 2 else 1) + utf16_length r
  end%N.

(** The code points of UTF-8 text, each as a string of its own: what
    iterating a JavaScript string yields. *)
Fixpoint chars (s : string) : list string :=
  match s with
  | EmptyString => []
  | String c r =>
      match r with
      | String c' _ =>
          if is_continuation c'
          then match chars r with
               | x :: xs => String c x :: xs
               | [] => [String c EmptyString]
               end
          else String c EmptyString :: chars r
      | EmptyString => [String c EmptyString]
      end
  end.

End Text.

(** ** JavaScript values as [JSON.parse] produces them *)

(** A number is kept as the decimal literal denotes it:
    [(-1)^neg * mant * 10^exp10]. *)
Inductive JSValue : Type :=
| JUndefined
| JNull
| JBool (b : bool)
| JNumber (neg : bool) (mant : N) (exp10 : Z)
| JString (s : string)
| JArray (elems : list JSValue)
| JObject (fields : list (string * JSValue)).

Module Json.
Import Text.

(** Insignificant white space of the JSON grammar. *)
Definition is_ws (c : ascii) : bool :=
  let n := code c in ((n =? 32) || (n =? 9) || (n =? 10) || (n =? 13))%N.

Fixpoint skip_ws (s : string) : string :=
  match s with
  | String c r => if is_ws c then skip_ws r else s
  | EmptyString => EmptyString
  end.

Definition digit_val (c : ascii) : option N :=
  let n := code c in
  if ((48 <=? n) && (n <=? 57))%N then Some (n - 48)%N else None.

Definition hex_val (c : ascii) : option N :=
  let n := code c in
  if ((48 <=? n) && (n <=? 57))%N then Some (n - 48)%N
  else if ((65 <=? n) && (n <=? 70))%N then Some (n - 55)%N
  else if ((97 <=? n) && (n <=? 102))%N then Some (n - 87)%N
  else None.

(** *** String literals *)

(** A piece of a string literal: a byte copied from the text, or the
    UTF-16 code unit of a [\uXXXX] escape. *)
Inductive StrItem : Type :=
| Raw (c : ascii)
| Unit16 (n : N).

Definition simple_escape (e : ascii) : option ascii :=
  let n := code e in
  if (n =? 34)%N then Some dquote            (* quote *)
  else if (n =? 92)%N then Some e            (* backslash *)
  else if (n =? 47)%N then Some e            (* slash *)
  else if (n =? 98)%N then Some (ascii_of_N 8)    (* b *)
  else if (n =? 102)%N then Some (ascii_of_N 12)  (* f *)
  else if (n =? 110)%N then Some (ascii_of_N 10)  (* n *)
  else if (n =? 114)%N then Some (ascii_of_N 13)  (* r *)
  else if (n =? 116)%N then Some (ascii_of_N 9)   (* t *)
  else None.

Definition hex4 (a b c d : ascii) : option N :=
  match hex_val a, hex_val b, hex_val c, hex_val d with
  | Some x, Some y, Some z, Some w => Some (((x * 16 + y) * 16 + z) * 16 + w)%N
  | _, _, _, _ => None
  end.

(** The characters of a string literal after its opening quote, up to and
    including the closing quote; the rest of the text is returned too. *)
Fixpoint str_items (s : string) : option (list StrItem * string) :=
  match s with
  | EmptyString => None
  | String c r =>
      let n := code c in
      if (n =? 34)%N then Some ([], r)
      else if (n =? 92)%N then
        match r with
        | String e r1 =>
            if (code e =? 117)%N then
              match r1 with
              | String h1 (String h2 (String h3 (String h4 r2))) =>
                  match hex4 h1 h2 h3 h4, str_items r2 with
                  | Some u, Some (items, rest) => Some (Unit16 u :: items, rest)
                  | _, _ => None
                  end
              | _ => None
              end
            else
              match simple_escape e, str_items r1 with
              | Some x, Some (items, rest) => Some (Raw x :: items, rest)
              | _, _ => None
              end
        | EmptyString => None
        end
      else if (n <? 32)%N then None
      else
        match str_items r with
        | Some (items, rest) => Some (Raw c :: items, rest)
        | None => None
        end
  end.

Definition byte (n : N) : ascii := ascii_of_N n.

(** UTF-8 of a code point (a lone surrogate is written the same way). *)
Definition utf8 (cp : N) (tail : string) : string :=
  if (cp <? 128)%N then String (byte cp) tail
  else if (cp <? 2048)%N then
    String (byte (192 + cp / 64)) (String (byte (128 + cp mod 64)) tail)
  else if (cp <? 65536)%N then
    String (byte (224 + cp / 4096))
      (String (byte (128 + (cp / 64) mod 64))
         (String (byte (128 + cp mod 64)) tail))
  else
    String (byte (240 + cp / 262144))
      (String (byte (128 + (cp / 4096) mod 64))
         (String (byte (128 + (cp / 64) mod 64))
            (String (byte (128 + cp mod 64)) tail))).

Definition is_high (u : N) : bool := ((55296 <=? u) && (u <? 56320))%N.
Definition is_low (u : N) : bool := ((56320 <=? u) && (u <? 57344))%N.

(** The text of a literal: escaped surrogate pairs are joined into one
    code point. *)
Fixpoint encode (items : list StrItem) : string :=
  match items with
  | [] => EmptyString
  | Raw c :: r => String c (encode r)
  | Unit16 hi :: r =>
      match r with
      | Unit16 lo :: r' =>
          if is_high hi && is_low lo
          then utf8 (65536 + (hi - 55296) * 1024 + (lo - 56320))%N (encode r')
          else utf8 hi (encode r)
      | _ => utf8 hi (encode r)
      end
  end.

Definition parse_string (s : string) : option (string * string) :=
  match str_items s with
  | Some (items, rest) => Some (encode items, rest)
  | None => None
  end.

(** *** Number literals *)

(** Leading decimal digits of [s] appended to [acc]; their count. *)
Fixpoint digits (s : string) (acc : N) (cnt : nat) : N * nat * string :=
  match s with
  | String c r =>
      match digit_val c with
      | Some d => digits r (acc * 10 + d)%N (S cnt)
      | None => (acc, cnt, s)
      end
  | EmptyString => (acc, cnt, s)
  end.

(** [int]: a single 0, or a non-zero digit followed by digits. *)
Definition parse_int (s : string) : option (N * string) :=
  match s with
  | String c r =>
      match digit_val c with
      | Some 0%N => Some (0%N, r)
      | Some d => let '(m, _, rest) := digits r d 0 in Some (m, rest)
      | None => None
      end
  | EmptyString => None
  end.

(** [frac]: a point and at least one digit, or nothing. *)
Definition parse_frac (m : N) (s : string) : option (N * nat * string) :=
  match s with
  | String c r =>
      if (code c =? 46)%N then
        match digits r m 0 with
        | (_, O, _) => None
        | res => Some res
        end
      else Some (m, O, s)
  | EmptyString => Some (m, O, s)
  end.

(** [exp]: e or E, an optional sign and at least one digit, or nothing. *)
Definition parse_exp (s : string) : option (Z * string) :=
  match s with
  | String c r =>
      if ((code c =? 101) || (code c =? 69))%N then
        let '(sgn, r1) :=
          match r with
          | String d r' =>
              if (code d =? 45)%N then (true, r')
              else if (code d =? 43)%N then (false, r')
              else (false, r)
          | EmptyString => (false, r)
          end in
        match digits r1 0 0 with
        | (_, O, _) => None
        | (e, _, rest) => Some (if sgn then (- Z.of_N e)%Z else Z.of_N e, rest)
        end
      else Some (0%Z, s)
  | EmptyString => Some (0%Z, s)
  end.

Definition parse_number (s : string) : option (JSValue * string) :=
  let '(neg, s1) :=
    match s with
    | String c r => if (code c =? 45)%N then (true, r) else (false, s)
    | EmptyString => (false, s)
    end in
  match parse_int s1 with
  | Some (m, s2) =>
      match parse_frac m s2 with
      | Some (m', k, s3) =>
          match parse_exp s3 with
          | Some (e, s4) => Some (JNumber neg m' (e - Z.of_nat k), s4)
          | None => None
          end
      | None => None
      end
  | None => None
  end.

Definition parse_literal (s : string) : option (JSValue * string) :=
  if starts_with "true" s then Some (JBool true, substring 4 (String.length s - 4) s)
  else if starts_with "false" s then Some (JBool false, substring 5 (String.length s - 5) s)
  else if starts_with "null" s then Some (JNull, substring 4 (String.length s - 4) s)
  else None.

(** *** Values *)

(** [parse_value] reads one value after optional white space;
    [parse_elements] reads the elements of an array after its bracket, up
    to and including the closing bracket; [parse_members] does the same
    for an object.  Every call consumes a character before it recurses,
    so the length of the text bounds the depth. *)
Fixpoint parse_value (fuel : nat) (s : string) : option (JSValue * string) :=
  match fuel with
  | O => None
  | S f =>
      match skip_ws s with
      | EmptyString => None
      | String c r as s' =>
          let n := code c in
          if (n =? 91)%N then            (* [ *)
            match skip_ws r with
            | String c' r' =>
                if (code c' =? 93)%N then Some (JArray [], r')
                else match parse_elements f r with
                     | Some (vs, rest) => Some (JArray vs, rest)
                     | None => None
                     end
            | EmptyString => None
            end
          else if (n =? 123)%N then      (* { *)
            match skip_ws r with
            | String c' r' =>
                if (code c' =? 125)%N then Some (JObject [], r')
                else match parse_members f r with
                     | Some (kvs, rest) => Some (JObject kvs, rest)
                     | None => None
                     end
            | EmptyString => None
            end
          else if (n =? 34)%N then
            match parse_string r with
            | Some (str, rest) => Some (JString str, rest)
            | None => None
            end
          else if (n =? 45)%N || (48 <=? n)%N && (n <=? 57)%N then parse_number s'
          else parse_literal s'
      end
  end
with parse_elements (fuel : nat) (s : string) : option (list JSValue * string) :=
  match fuel with
  | O => None
  | S f =>
      match parse_value f s with
      | Some (v, r) =>
          match skip_ws r with
          | String c r' =>
              if (code c =? 44)%N then
                match parse_elements f r' with
                | Some (vs, rest) => Some (v :: vs, rest)
                | None => None
                end
              else if (code c =? 93)%N then Some ([v], r')
              else None
          | EmptyString => None
          end
      | None => None
      end
  end
with parse_members (fuel : nat) (s : string) : option (list (string * JSValue) * string) :=
  match fuel with
  | O => None
  | S f =>
      match skip_ws s with
      | String c r =>
          if (code c =? 34)%N then
            match parse_string r with
            | Some (k, r1) =>
                match skip_ws r1 with
                | String c1 r2 =>
                    if (code c1 =? 58)%N then
                      match parse_value f r2 with
                      | Some (v, r3) =>
                          match skip_ws r3 with
                          | String c3 r4 =>
                              if (code c3 =? 44)%N then
                                match parse_members f r4 with
                                | Some (kvs, rest) => Some ((k, v) :: kvs, rest)
                                | None => None
                                end
                              else if (code c3 =? 125)%N then Some ([(k, v)], r4)
                              else None
                          | EmptyString => None
                          end
                      | None => None
                      end
                    else None
                | EmptyString => None
                end
            | None => None
            end
          else None
      | EmptyString => None
      end
  end.

(** [JSON.parse(text)]: [None] stands for the SyntaxError it throws. *)
Definition parse (text : string) : option JSValue :=
  match parse_value (2 * String.length text + 2) text with
  | Some (v, rest) =>
      match skip_ws rest with
      | EmptyString => Some v
      | String _ _ => None
      end
  | None => None
  end.

End Json.

Import Text.

(** ** Values at work: truthiness, property access, iteration *)

Module JS.

(** Does the literal denote a number that is zero as a double?  Either the
    digits are all zero, or the value is at most 2^-1075, half of the
    least subnormal, and rounds to zero. *)
Definition is_zero (mant : N) (exp10 : Z) : bool :=
  (mant =? 0)%N
  || ((exp10 <? 0)%Z && (Z.of_N mant * 2 ^ 1075 <=? 10 ^ (- exp10))%Z).

(** [ToBoolean]. *)
Definition truthy (v : JSValue) : bool :=
  match v with
  | JUndefined | JNull => false
  | JBool b => b
  | JNumber _ m e => negb (is_zero m e)
  | JString s => negb (String.eqb s EmptyString)
  | JArray _ | JObject _ => true
  end.

(** The own property [key] of an object literal: with a key written twice,
    the later one wins. *)
Fixpoint own_property (key : string) (fields : list (string * JSValue)) : option JSValue :=
  match fields with
  | [] => None
  | (k, v) :: r =>
      match own_property key r with
      | Some v' => Some v'
      | None => if String.eqb k key then Some v else None
      end
  end.

(** [v.key] for the keys the program reads ([dayOfWeek], [startTime],
    [endTime], [subject], [token], [message]), none of which a prototype
    defines: an own property of an object, [undefined] on any other value,
    and [None], a TypeError, on [null] and [undefined]. *)
Definition get (v : JSValue) (key : string) : option JSValue :=
  match v with
  | JUndefined | JNull => None
  | JObject fields =>
      match own_property key fields with
      | Some x => Some x
      | None => Some JUndefined
      end
  | _ => Some JUndefined
  end.

(** [v.length]: the length of an array or of a string, an own property of
    an object, a TypeError on [null] and [undefined]. *)
Definition get_length (v : JSValue) : option JSValue :=
  match v with
  | JUndefined | JNull => None
  | JArray l => Some (JNumber false (N.of_nat (List.length l)) 0)
  | JString s => Some (JNumber false (utf16_length s) 0)
  | JObject fields =>
      match own_property "length" fields with
      | Some x => Some x
      | None => Some JUndefined
      end
  | _ => Some JUndefined
  end.

(** Does [ToString(v)], as a template literal applies it, throw?  An
    object that carries an own [toString] hides the callable one of its
    prototype, and [valueOf] then returns the object itself: a TypeError.
    An array joins the strings of its elements, [null] giving the empty
    string. *)
Fixpoint to_string_throws (v : JSValue) : bool :=
  match v with
  | JObject fields =>
      match own_property "toString" fields with
      | Some _ => true
      | None => false
      end
  | JArray l => existsb to_string_throws l
  | _ => false
  end.

(** The items a [for (const item of v)] loop visits; [None] when [v] is
    not iterable (a TypeError). *)
Definition iterate (v : JSValue) : option (list JSValue) :=
  match v with
  | JArray l => Some l
  | JString s => Some (map JString (chars s))
  | _ => None
  end.

End JS.

(** ** The relational store *)

(** A query parameter or a cell.  The pg driver sends [null] and
    [undefined] as NULL; any other value is sent as it is, and a cell reads
    back as the value that was written. *)
Inductive SqlValue : Type :=
| SqlNull
| SqlVal (v : JSValue).

Definition prepareValue (v : JSValue) : SqlValue :=
  match v with
  | JUndefined | JNull => SqlNull
  | _ => SqlVal v
  end.

(** What the [password] column holds: the result of [bcrypt.hash], which
    depends on the cost, the salt and the first 72 bytes of the password and
    on nothing else, or some other text. *)
Inductive StoredPassword : Type :=
| BcryptHash (cost : nat) (salt : string) (key : string)
| OtherText (s : string).

Definition bcrypt_key (password : string) : string := substring 0 72 password.

Definition bcrypt_hash (salt : string) (password : string) (cost : nat) : StoredPassword :=
  BcryptHash cost salt (bcrypt_key password).

Definition bcrypt_compare (password : string) (h : StoredPassword) : bool :=
  match h with
  | BcryptHash _ _ key => String.eqb (bcrypt_key password) key
  | OtherText _ => false
  end.

Record User : Type := mkUser {
  id : Z;
  name : string;
  email : string;
  password : StoredPassword;
  daily_focus_hours : SqlValue
}.

Record ScheduleItem : Type := mkScheduleItem {
  day_of_week : SqlValue;
  start_time : SqlValue;
  end_time : SqlValue;
  subject : SqlValue;
  user_id : Z
}.

Record UserStreak : Type := mkUserStreak {
  streak_user_id : Z;
  streak_count : Z;
  longest_streak : Z
}.

(** The three tables, rows in insertion order, and the sequence that
    numbers new users. *)
Record Database : Type := mkDatabase {
  users : list User;
  schedule_items : list ScheduleItem;
  user_streaks : list UserStreak;
  users_id_seq : Z
}.

(** The statements the server sends, with their parameters. *)
Inductive Statement : Type :=
| BEGIN
| COMMIT
| ROLLBACK
| DELETE_schedule_items (uid : Z)
| INSERT_schedule_item (day startT endT subj : SqlValue) (uid : Z)
| UPDATE_daily_focus_hours (hours : SqlValue) (uid : Z)
| SELECT_user (uid : Z)
| SELECT_schedule_items (uid : Z)
| SELECT_user_streak (uid : Z)
| SELECT_user_by_email (mail : string)
| INSERT_user (uname mail : string) (pwd : StoredPassword).

Module Sql.

(** [DELETE FROM schedule_items WHERE user_id = $1] *)
Definition delete_schedule_items (uid : Z) (d : Database) : Database :=
  mkDatabase (users d)
    (filter (fun r => negb (user_id r =? uid)%Z) (schedule_items d))
    (user_streaks d) (users_id_seq d).

(** [INSERT INTO schedule_items (day_of_week, start_time, end_time,
    subject, user_id) VALUES ($1, $2, $3, $4, $5)] *)
Definition insert_schedule_item (r : ScheduleItem) (d : Database) : Database :=
  mkDatabase (users d) (schedule_items d ++ [r]) (user_streaks d) (users_id_seq d).

(** [UPDATE users SET daily_focus_hours = $1 WHERE id = $2] *)
Definition update_daily_focus_hours (hours : SqlValue) (uid : Z) (d : Database) : Database :=
  mkDatabase
    (map (fun u => if (id u =? uid)%Z
                   then mkUser (id u) (name u) (email u) (password u) hours
                   else u) (users d))
    (schedule_items d) (user_streaks d) (users_id_seq d).

(** [INSERT INTO users (name, email, password) VALUES ($1, $2, $3)
    RETURNING id, name]: the row gets the next number of the sequence and a
    NULL [daily_focus_hours]. *)
Definition new_user (uname mail : string) (pwd : StoredPassword) (d : Database) : User :=
  mkUser (users_id_seq d) uname mail pwd SqlNull.

Definition insert_user (uname mail : string) (pwd : StoredPassword) (d : Database) : Database :=
  mkDatabase (users d ++ [new_user uname mail pwd d])
    (schedule_items d) (user_streaks d) (users_id_seq d + 1)%Z.

(** What a statement that writes does to the rows. *)
Definition apply (st : Statement) (d : Database) : Database :=
  match st with
  | DELETE_schedule_items uid => delete_schedule_items uid d
  | INSERT_schedule_item a b c e uid => insert_schedule_item (mkScheduleItem a b c e uid) d
  | UPDATE_daily_focus_hours h uid => update_daily_focus_hours h uid d
  | INSERT_user n m p => insert_user n m p d
  | _ => d
  end.

(** [SELECT name, daily_focus_hours FROM users WHERE id = $1] *)
Definition select_user (uid : Z) (d : Database) : list User :=
  filter (fun u => (id u =? uid)%Z) (users d).

(** [SELECT * FROM users WHERE email = $1] *)
Definition select_user_by_email (mail : string) (d : Database) : list User :=
  filter (fun u => String.eqb (email u) mail) (users d).

(** [SELECT streak_count, longest_streak FROM user_streaks WHERE user_id = $1] *)
Definition select_user_streak (uid : Z) (d : Database) : list UserStreak :=
  filter (fun r => (streak_user_id r =? uid)%Z) (user_streaks d).

(** [CASE day_of_week WHEN 'Monday' THEN 1 WHEN 'Tuesday' THEN 2 WHEN
    'Wednesday' THEN 3 WHEN 'Thursday' THEN 4 WHEN 'Friday' THEN 5 WHEN
    'Saturday' THEN 6 ELSE 7 END] *)
Definition day_rank (day : SqlValue) : nat :=
  match day with
  | SqlVal (JString s) =>
      if String.eqb s "Monday" then 1
      else if String.eqb s "Tuesday" then 2
      else if String.eqb s "Wednesday" then 3
      else if String.eqb s "Thursday" then 4
      else if String.eqb s "Friday" then 5
      else if String.eqb s "Saturday" then 6
      else 7
  | _ => 7
  end.

(** [ORDER BY CASE ... END, start_time]: first the rank of the day, then
    the start time in the order [time_leb] of its column. *)
Definition schedule_leb (time_leb : SqlValue -> SqlValue -> bool) (a b : ScheduleItem) : bool :=
  (day_rank (day_of_week a) <? day_rank (day_of_week b))%nat
  || ((day_rank (day_of_week a) =? day_rank (day_of_week b))%nat
      && time_leb (start_time a) (start_time b)).

Fixpoint insert_by {A : Type} (leb : A -> A -> bool) (x : A) (l : list A) : list A :=
  match l with
  | [] => [x]
  | y :: r => if leb x y then x :: l else y :: insert_by leb x r
  end.

Fixpoint sort_by {A : Type} (leb : A -> A -> bool) (l : list A) : list A :=
  match l with
  | [] => []
  | x :: r => insert_by leb x (sort_by leb r)
  end.

(** [SELECT * FROM schedule_items WHERE user_id = $1 ORDER BY ...] *)
Definition select_schedule_items (time_leb : SqlValue -> SqlValue -> bool)
    (uid : Z) (d : Database) : list ScheduleItem :=
  sort_by (schedule_leb time_leb)
    (filter (fun r => (user_id r =? uid)%Z) (schedule_items d)).

(** Does the statement change rows? *)
Definition is_write (st : Statement) : bool :=
  match st with
  | DELETE_schedule_items _ | INSERT_schedule_item _ _ _ _ _
  | UPDATE_daily_focus_hours _ _ | INSERT_user _ _ _ => true
  | _ => false
  end.

(** The user a write of the schedule transaction is made for. *)
Definition written_for (st : Statement) : option Z :=
  match st with
  | DELETE_schedule_items uid | INSERT_schedule_item _ _ _ _ uid
  | UPDATE_daily_focus_hours _ uid => Some uid
  | _ => None
  end.

End Sql.

(** ** Session tokens *)

(** The claims [jwt.sign] puts in a token of this server. *)
Record Claims : Type := mkClaims {
  claim_id : Z;
  claim_name : string;
  iat : Z;
  exp : Z
}.

(** The value of the [token] cookie: a JSON Web Token carrying [claims]
    whose signature was made with [key], or any other text.  A signature
    verifies under the key that made it and under no other. *)
Inductive Token : Type :=
| Signed (key : string) (claims : Claims)
| Opaque (text : string).

Module Jwt.

Definition one_day : Z := 86400.

(** [jwt.sign({ id, name }, secret, { expiresIn: '1d' })] at time [now]
    (seconds); [None] when the secret is missing or empty, which throws. *)
Definition sign (uid : Z) (uname : string) (secret : option string) (now : Z) : option Token :=
  match secret with
  | Some k =>
      if String.eqb k EmptyString then None
      else Some (Signed k (mkClaims uid uname now (now + one_day)))
  | None => None
  end.

(** [jwt.verify(token, secret, callback)] at time [now]: the decoded
    claims, or [None] for the error handed to the callback (no secret,
    malformed token, wrong signature, or expired: now >= exp). *)
Definition verify (t : Token) (secret : option string) (now : Z) : option Claims :=
  match secret, t with
  | Some k, Signed k' c =>
      if String.eqb k EmptyString then None
      else if negb (String.eqb k k') then None
      else if (exp c <=? now)%Z then None
      else Some c
  | _, _ => None
  end.

End Jwt.

(** Is the cookie value a truthy string? *)
Definition token_present (t : option Token) : bool :=
  match t with
  | None => false
  | Some (Opaque s) => negb (String.eqb s EmptyString)
  | Some (Signed _ _) => true
  end.

(** ** Requests and responses *)

(** [req.cookies.token] and the fields of the urlencoded [req.body], each
    key once. *)
Record Request : Type := mkRequest {
  cookie_token : option Token;
  body : list (string * string)
}.

(** [body.key]: the text of the field, or [undefined]. *)
Fixpoint field (b : list (string * string)) (key : string) : JSValue :=
  match b with
  | [] => JUndefined
  | (k, v) :: r => if String.eqb k key then JString v else field r key
  end.

(** A value inside a template literal, for the values a form field takes. *)
Definition show (v : JSValue) : string :=
  match v with
  | JString s => s
  | _ => "undefined"
  end.

(** The [focusedTime] the dashboard shows: the stored hours followed by
    [Hours/Day], or [N/A]. *)
Inductive FocusedTime : Type :=
| HoursPerDay (hours : JSValue)
| NotAvailable.

(** The object handed to [index.ejs]. *)
Record Dashboard : Type := mkDashboard {
  dash_name : string;
  dash_scheduleItems : list ScheduleItem;
  dash_focusedTime : FocusedTime;
  dash_streak_count : Z;
  dash_longest_streak : Z;
  dash_insight : string
}.

Inductive Locals : Type :=
| NoLocals
| ErrorLocals (error : option string)
| DashboardLocals (d : Dashboard).

Record CookieOptions : Type := mkCookieOptions {
  httpOnly : bool;
  secure : bool;
  sameSite : string
}.

(** What a handler does to [res], in the order it does it. *)
Inductive ResAction : Type :=
| SetCookie (cname : string) (value : Token) (opts : CookieOptions)
| ClearCookie (cname : string)
| Redirect (url : string)
| Render (view : string) (locals : Locals)
| Status (code : nat)
| Send (text : string)
| SendJson (v : JSValue).   (* res.json(v), which no handler here calls *)

(** ** The world of a request *)

(** The state of the transaction on the pool client: none open, one open
    with its working rows, or one that a rejected statement has aborted. *)
Inductive TxState : Type :=
| NoTx
| InTx (work : Database)
| TxAborted.

Record World : Type := mkWorld {
  db : Database;                 (* the committed rows *)
  client_tx : TxState;           (* the transaction of the pool client *)
  connects : nat;                (* clients checked out so far *)
  releases : nat;                (* clients given back so far *)
  query_log : list Statement;    (* the statements sent, oldest first *)
  prompts : list string;         (* the prompts sent to the model *)
  response : list ResAction      (* the response, oldest action first *)
}.

(** What the server reads from outside. *)
Record Env : Type := mkEnv {
  JWT_SECRET : option string;            (* process.env.JWT_SECRET *)
  production : bool;                     (* process.env.NODE_ENV === 'production' *)
  now : Z;                               (* the clock, in seconds *)
  query_fails : nat -> bool;             (* is the n-th statement sent rejected? *)
  connect_fails : bool;                  (* is db.connect() rejected? *)
  generate : string -> option string;    (* the model's text for a prompt, if any *)
  bcrypt_salt : string;                  (* the salt bcrypt draws *)
  time_leb : SqlValue -> SqlValue -> bool;   (* the order of the start_time column *)
  render_view : string -> Locals -> string   (* the EJS views *)
}.

Inductive Exn : Type :=
| SyntaxError      (* JSON.parse *)
| TypeError        (* a property of null, a value that is not iterable *)
| DatabaseError    (* a rejected statement or connection *)
| GenerationError  (* the call to the model *)
| SigningError.    (* jwt.sign without a secret *)

Inductive Outcome (A : Type) : Type :=
| Ret (a : A)
| Throw (e : Exn).
Arguments Ret {A} a.
Arguments Throw {A} e.

(** A computation: it changes the world and returns or throws. *)
Definition M (A : Type) : Type := World -> Outcome A * World.

Definition ret {A : Type} (a : A) : M A := fun w => (Ret a, w).

Definition throw {A : Type} (e : Exn) : M A := fun w => (Throw e, w).

Definition bind {A B : Type} (m : M A) (k : A -> M B) : M B :=
  fun w =>
    match m w with
    | (Ret a, w') => k a w'
    | (Throw e, w') => (Throw e, w')
    end.

Declare Scope js_scope.
Delimit Scope js_scope with js.
Notation "x <- m ;; k" := (bind m (fun x => k))
  (at level 100, m at next level, right associativity) : js_scope.
Notation "m ;; k" := (bind m (fun _ => k))
  (at level 100, right associativity) : js_scope.
Open Scope js_scope.

(** [try { body } catch (e) { handler }] *)
Definition try_catch {A : Type} (body : M A) (handler : Exn -> M A) : M A :=
  fun w =>
    match body w with
    | (Ret a, w') => (Ret a, w')
    | (Throw e, w') => handler e w'
    end.

(** [try { body } finally { fin }]: [fin] runs however [body] ends, and an
    exception of [fin] replaces the outcome. *)
Definition try_finally {A : Type} (body : M A) (fin : M unit) : M A :=
  fun w =>
    match body w with
    | (o, w') =>
        match fin w' with
        | (Ret _, w'') => (o, w'')
        | (Throw e, w'') => (Throw e, w'')
        end
    end.

(** [try { body } catch (e) { handler } finally { fin }] *)
Definition try_catch_finally {A : Type} (body : M A) (handler : Exn -> M A)
    (fin : M unit) : M A :=
  try_finally (try_catch body handler) fin.

(** A JavaScript operation that yields a value or throws [e]. *)
Definition or_throw {A : Type} (e : Exn) (o : option A) : M A :=
  match o with
  | Some a => ret a
  | None => throw e
  end.

(** [for (const item of items) { step(item) }] *)
Fixpoint for_each {A : Type} (items : list A) (step : A -> M unit) : M unit :=
  match items with
  | [] => ret tt
  | x :: r => step x ;; for_each r step
  end.

(** *** The response *)

Definition respond (a : ResAction) : M unit :=
  fun w => (Ret tt, mkWorld (db w) (client_tx w) (connects w) (releases w)
                      (query_log w) (prompts w) (response w ++ [a])).

(** *** The pool and its client *)

Definition log_statement (st : Statement) (w : World) : World :=
  mkWorld (db w) (client_tx w) (connects w) (releases w)
    (query_log w ++ [st]) (prompts w) (response w).

Definition set_db (d : Database) (w : World) : World :=
  mkWorld d (client_tx w) (connects w) (releases w)
    (query_log w) (prompts w) (response w).

Definition set_tx (t : TxState) (w : World) : World :=
  mkWorld (db w) t (connects w) (releases w)
    (query_log w) (prompts w) (response w).

(** [db.query(...)]: a statement on a connection of its own, committed at
    once.  The promise it returns settles to the rows, read by [result]
    before the statement's own change, or to a rejection, [None]. *)
Definition db_query {R : Type} (env : Env) (st : Statement)
    (result : Database -> R) : M (option R) :=
  fun w =>
    let n := List.length (query_log w) in
    let w1 := log_statement st w in
    if query_fails env n then (Ret None, w1)
    else (Ret (Some (result (db w))), set_db (Sql.apply st (db w)) w1).

(** [await promise] *)
Definition await {R : Type} (p : option R) : M R := or_throw DatabaseError p.

(** [await db.connect()] *)
Definition db_connect (env : Env) : M unit :=
  fun w =>
    if connect_fails env then (Throw DatabaseError, w)
    else (Ret tt, mkWorld (db w) (client_tx w) (S (connects w)) (releases w)
                    (query_log w) (prompts w) (response w)).

(** [client.release()] *)
Definition client_release : M unit :=
  fun w => (Ret tt, mkWorld (db w) (client_tx w) (connects w) (S (releases w))
                      (query_log w) (prompts w) (response w)).

(** The transaction state after a statement the engine accepted, and the
    committed rows after it.  Outside a transaction a write is committed at
    once; inside, it changes the working rows, which COMMIT makes the
    committed ones and ROLLBACK drops.  COMMIT of an aborted transaction
    rolls it back. *)
Definition accepted (st : Statement) (committed : Database) (tx : TxState)
    : Database * TxState :=
  match st, tx with
  | BEGIN, NoTx => (committed, InTx committed)
  | BEGIN, _ => (committed, tx)
  | COMMIT, InTx work => (work, NoTx)
  | COMMIT, _ => (committed, NoTx)
  | ROLLBACK, _ => (committed, NoTx)
  | _, NoTx => (Sql.apply st committed, NoTx)
  | _, InTx work => (committed, InTx (Sql.apply st work))
  | _, TxAborted => (committed, TxAborted)
  end.

(** Inside an aborted transaction the engine rejects everything but
    COMMIT and ROLLBACK. *)
Definition refused_when_aborted (st : Statement) (tx : TxState) : bool :=
  match tx, st with
  | TxAborted, COMMIT | TxAborted, ROLLBACK => false
  | TxAborted, _ => true
  | _, _ => false
  end.

(** [await client.query(...)] for a statement whose rows are not read.  A
    rejected statement aborts the open transaction and throws. *)
Definition client_query (env : Env) (st : Statement) : M unit :=
  fun w =>
    let n := List.length (query_log w) in
    let w1 := log_statement st w in
    if query_fails env n || refused_when_aborted st (client_tx w) then
      (Throw DatabaseError,
       set_tx (match client_tx w with NoTx => NoTx | _ => TxAborted end) w1)
    else
      let '(d, t) := accepted st (db w) (client_tx w) in
      (Ret tt, set_tx t (set_db d w1)).

(** *** The generative model *)

(** [(await model.generateContent(prompt)).response.text()] *)
Definition generateContent (env : Env) (prompt : string) : M string :=
  fun w =>
    let w1 := mkWorld (db w) (client_tx w) (connects w) (releases w)
                (query_log w) (prompts w ++ [prompt]) (response w) in
    match generate env prompt with
    | Some text => (Ret text, w1)
    | None => (Throw GenerationError, w1)
    end.

(** ** The server *)

Definition render (view : string) (locals : Locals) : M unit :=
  respond (Render view locals).

Definition redirect (url : string) : M unit := respond (Redirect url).

Definition auth_error (message : string) : M unit :=
  render "auth.ejs" (ErrorLocals (Some message)).

(** [{ httpOnly: true, secure: process.env.NODE_ENV === 'production',
    sameSite: 'Strict' }] *)
Definition cookie_options (env : Env) : CookieOptions :=
  mkCookieOptions true (production env) "Strict".

(** [verifyToken]: [next] is the rest of the route, run with the decoded
    claims in [req.user]. *)
Definition verifyToken (env : Env) (req : Request) (next : Claims -> M unit) : M unit :=
  match cookie_token req with
  | Some token =>
      if negb (token_present (Some token)) then redirect "/"
      else
        match Jwt.verify token (JWT_SECRET env) (now env) with
        | None => respond (ClearCookie "token") ;; redirect "/"
        | Some decoded => next decoded
        end
  | None => redirect "/"
  end.

(** [app.get('/')] *)
Definition get_root : M unit := render "auth.ejs" (ErrorLocals None).

(** The handler of [app.get('/form')]. *)
Definition form_page (user : Claims) : M unit := render "form.ejs" NoLocals.

(** [userData.daily_focus_hours ? `${...} Hours/Day` : 'N/A'] *)
Definition focusedTimeDisplay (hours : SqlValue) : FocusedTime :=
  match hours with
  | SqlVal v => if JS.truthy v then HoursPerDay v else NotAvailable
  | SqlNull => NotAvailable
  end.

(** [streakResult.rows[0] || { streak_count: 0, longest_streak: 0 }] *)
Definition streakData (rows : list UserStreak) : Z * Z :=
  match rows with
  | r :: _ => (streak_count r, longest_streak r)
  | [] => (0, 0)%Z
  end.

(** [await Promise.all([p1, p2, p3])] *)
Definition Promise_all3 {A B C : Type} (p1 : option A) (p2 : option B) (p3 : option C)
    : M (A * B * C) :=
  match p1, p2, p3 with
  | Some a, Some b, Some c => ret (a, b, c)
  | _, _, _ => throw DatabaseError
  end.

(** The handler of [app.get('/dashboard')]. *)
Definition dashboard (env : Env) (user : Claims) : M unit :=
  try_catch
    (let userId := claim_id user in
     userPromise <- db_query env (SELECT_user userId) (Sql.select_user userId) ;;
     schedulePromise <- db_query env (SELECT_schedule_items userId)
                          (Sql.select_schedule_items (time_leb env) userId) ;;
     streakPromise <- db_query env (SELECT_user_streak userId)
                        (Sql.select_user_streak userId) ;;
     results <- Promise_all3 userPromise schedulePromise streakPromise ;;
     let '(userRows, scheduleRows, streakRows) := results in
     match userRows with
     | [] => redirect "/"
     | userData :: _ =>
         let '(count, longest) := streakData streakRows in
         render "index.ejs"
           (DashboardLocals
              (mkDashboard (name userData) scheduleRows
                 (focusedTimeDisplay (daily_focus_hours userData))
                 count longest "Planning is the first step to success!"))
     end)
    (fun error =>
       respond (Status 500) ;; respond (Send "Error loading dashboard.")).

(** [app.post('/register')] *)
Definition post_register (env : Env) (req : Request) : M unit :=
  let uname := field (body req) "name" in
  let mail := field (body req) "email" in
  let pass := field (body req) "password" in
  if negb (JS.truthy uname) || negb (JS.truthy mail) || negb (JS.truthy pass)
  then auth_error "All fields are required."
  else
    try_catch
      (p <- db_query env (SELECT_user_by_email (show mail))
              (Sql.select_user_by_email (show mail)) ;;
       check <- await p ;;
       match check with
       | _ :: _ => auth_error "User with this email already exists."
       | [] =>
           let hashedPwd := bcrypt_hash (bcrypt_salt env) (show pass) 10 in
           p' <- db_query env (INSERT_user (show uname) (show mail) hashedPwd)
                   (Sql.new_user (show uname) (show mail) hashedPwd) ;;
           newUser <- await p' ;;
           token <- or_throw SigningError
                      (Jwt.sign (id newUser) (name newUser) (JWT_SECRET env) (now env)) ;;
           respond (SetCookie "token" token (cookie_options env)) ;;
           redirect "/form"
       end)
      (fun err => auth_error "An internal server error occurred.").

(** [app.post('/login')] *)
Definition post_login (env : Env) (req : Request) : M unit :=
  let mail := field (body req) "email" in
  let pass := field (body req) "password" in
  if negb (JS.truthy mail) || negb (JS.truthy pass)
  then auth_error "Email and password are required."
  else
    try_catch
      (p <- db_query env (SELECT_user_by_email (show mail))
              (Sql.select_user_by_email (show mail)) ;;
       result <- await p ;;
       match result with
       | [] => auth_error "User not found."
       | user :: _ =>
           if negb (bcrypt_compare (show pass) (password user))
           then auth_error "Incorrect password."
           else
             token <- or_throw SigningError
                        (Jwt.sign (id user) (name user) (JWT_SECRET env) (now env)) ;;
             respond (SetCookie "token" token (cookie_options env)) ;;
             redirect "/dashboard"
       end)
      (fun err => auth_error "An internal server error occurred.").

(** The prompt of [app.post('/form')]. *)
Definition build_prompt (b : list (string * string)) : string :=
  let f := fun key => show (field b key) in
  "Based on these study preferences, create a (" ++ f "deadline"
  ++ ")days schedule. The user has provided subjects with priorities. Your job is to schedule them. Preferences: Goal("
  ++ f "goal" ++ "), Subjects(" ++ f "subjects" ++ "), Methods(" ++ f "methods"
  ++ "), Deadline(" ++ f "deadline" ++ "), Daily Time(" ++ f "dailytime"
  ++ " hours), Slots(" ++ f "slots" ++ "), Remarks(" ++ f "remarks"
  ++ q "). IMPORTANT: Respond with ONLY a valid JSON array of objects. Each object must have these keys: 'dayOfWeek', 'startTime', 'endTime', 'subject'. The 'subject' should come from user input. Example: [{'dayOfWeek': 'Monday', 'startTime': '09:00', 'endTime': '11:00', 'subject': 'Math: Calculus Chapter 3'}]".

(** [text.replace(/```json/g, '').replace(/```/g, '').trim()] *)
Definition clean (text : string) : string :=
  trim (remove_all "```" (remove_all "```json" text)).

(** The body of the loop: one INSERT per item. *)
Definition insert_item (env : Env) (uid : Z) (item : JSValue) : M unit :=
  day <- or_throw TypeError (JS.get item "dayOfWeek") ;;
  startT <- or_throw TypeError (JS.get item "startTime") ;;
  endT <- or_throw TypeError (JS.get item "endTime") ;;
  subj <- or_throw TypeError (JS.get item "subject") ;;
  client_query env
    (INSERT_schedule_item (prepareValue day) (prepareValue startT)
       (prepareValue endT) (prepareValue subj) uid).

(** The [try] block of [app.post('/form')]. *)
Definition generate_and_save (env : Env) (req : Request) (user : Claims) : M unit :=
  let dailytime := field (body req) "dailytime" in
  text <- generateContent env (build_prompt (body req)) ;;
  let jsonResponse := clean text in
  scheduleItems <- or_throw SyntaxError (Json.parse jsonResponse) ;;
  len <- or_throw TypeError (JS.get_length scheduleItems) ;;
  (if JS.to_string_throws len then throw TypeError else ret tt) ;;
  client_query env BEGIN ;;
  client_query env (DELETE_schedule_items (claim_id user)) ;;
  items <- or_throw TypeError (JS.iterate scheduleItems) ;;
  for_each items (insert_item env (claim_id user)) ;;
  client_query env (UPDATE_daily_focus_hours (prepareValue dailytime) (claim_id user)) ;;
  client_query env COMMIT ;;
  redirect "/dashboard".

(** The [catch] block of [app.post('/form')]. *)
Definition failure_message : string :=
  "An error occurred while generating the schedule.".

Definition rollback_and_report (env : Env) : M unit :=
  client_query env ROLLBACK ;;
  respond (Status 500) ;;
  respond (Send failure_message).

(** The handler of [app.post('/form')]. *)
Definition schedule_form (env : Env) (req : Request) (user : Claims) : M unit :=
  db_connect env ;;
  try_catch_finally
    (generate_and_save env req user)
    (fun error => rollback_and_report env)
    client_release.

(** [app.get('/logout')] *)
Definition get_logout : M unit :=
  respond (ClearCookie "token") ;; redirect "/".

(** The routes. *)
Definition get_form (env : Env) (req : Request) : M unit :=
  verifyToken env req form_page.

Definition get_dashboard (env : Env) (req : Request) : M unit :=
  verifyToken env req (dashboard env).

Definition post_form (env : Env) (req : Request) : M unit :=
  verifyToken env req (schedule_form env req).

Inductive Method : Type := GET | POST.

(** The routing table; [None] where no route matches. *)
Definition route (env : Env) (m : Method) (path : string) (req : Request) : option (M unit) :=
  match m with
  | GET =>
      if String.eqb path "/" then Some get_root
      else if String.eqb path "/form" then Some (get_form env req)
      else if String.eqb path "/dashboard" then Some (get_dashboard env req)
      else if String.eqb path "/logout" then Some get_logout
      else None
  | POST =>
      if String.eqb path "/register" then Some (post_register env req)
      else if String.eqb path "/login" then Some (post_login env req)
      else if String.eqb path "/form" then Some (post_form env req)
      else None
  end.

(** ** Derived notions used in the statements *)

(** The claims [verifyToken] puts in [req.user], when it calls [next]. *)
Definition session (env : Env) (req : Request) : option Claims :=
  match cookie_token req with
  | Some token =>
      if token_present (Some token)
      then Jwt.verify token (JWT_SECRET env) (now env)
      else None
  | None => None
  end.

(** A world that differs from [w] by the response only. *)
Definition responding (w : World) (actions : list ResAction) : World :=
  mkWorld (db w) (client_tx w) (connects w) (releases w)
    (query_log w) (prompts w) (response w ++ actions).

(** [item.key], with [undefined] where the access throws. *)
Definition prop (item : JSValue) (key : string) : JSValue :=
  match JS.get item key with
  | Some v => v
  | None => JUndefined
  end.

(** The row the loop inserts for a candidate entry. *)
Definition row_of (uid : Z) (item : JSValue) : ScheduleItem :=
  mkScheduleItem (prepareValue (prop item "dayOfWeek"))
    (prepareValue (prop item "startTime"))
    (prepareValue (prop item "endTime"))
    (prepareValue (prop item "subject")) uid.

(** The statement the loop sends for a candidate entry. *)
Definition insert_statement (uid : Z) (item : JSValue) : Statement :=
  INSERT_schedule_item (prepareValue (prop item "dayOfWeek"))
    (prepareValue (prop item "startTime"))
    (prepareValue (prop item "endTime"))
    (prepareValue (prop item "subject")) uid.

(** The table [schedule_items] with [rows] added at its end. *)
Definition append_rows (rows : list ScheduleItem) (d : Database) : Database :=
  mkDatabase (users d) (schedule_items d ++ rows) (user_streaks d) (users_id_seq d).

(** The rows after the schedule of [uid] was replaced by [items] and the
    daily hours were set. *)
Definition replaced (uid : Z) (items : list JSValue) (hours : SqlValue)
    (d : Database) : Database :=
  Sql.update_daily_focus_hours hours uid
    (append_rows (map (row_of uid) items) (Sql.delete_schedule_items uid d)).

(** The rows a transaction begun in [w] starts from: those of the
    transaction already open on the client, if there is one, or else the
    committed ones. *)
Definition tx_base (w : World) : Database :=
  match client_tx w with
  | InTx d => d
  | _ => db w
  end.

(** The order of the dashboard's rows: the day first, Monday to Saturday
    and then the rest, then the start time. *)
Definition schedule_order (env : Env) (a b : ScheduleItem) : Prop :=
  Sql.day_rank (day_of_week a) < Sql.day_rank (day_of_week b)
  \/ (Sql.day_rank (day_of_week a) = Sql.day_rank (day_of_week b)
      /\ time_leb env (start_time a) (start_time b) = true).

(** An action of a response made of pages and redirects: not a JSON
    body, and no text but one of the two plain error messages. *)
Definition page_or_redirect (a : ResAction) : Prop :=
  match a with
  | SendJson _ => False
  | Send text => text = failure_message \/ text = "Error loading dashboard."
  | _ => True
  end.

(** The response so far is made of pages and redirects. *)
Definition pages_only (w : World) : Prop := Forall page_or_redirect (response w).

(** The schedule rows of a user, in table order. *)
Definition schedule_of (uid : Z) (d : Database) : list ScheduleItem :=
  filter (fun r => (user_id r =? uid)%Z) (schedule_items d).

(** The schedule rows of everybody else. *)
Definition schedule_of_others (uid : Z) (d : Database) : list ScheduleItem :=
  filter (fun r => negb (user_id r =? uid)%Z) (schedule_items d).

(** The statements sent since the log was [before]. *)
Definition sent_since (before : list Statement) (w : World) : list Statement :=
  skipn (List.length before) (query_log w).

(** The three steps of the schedule transaction that write. *)
Definition is_persistence_step (st : Statement) : bool :=
  match st with
  | DELETE_schedule_items _ | INSERT_schedule_item _ _ _ _ _
  | UPDATE_daily_focus_hours _ _ => true
  | _ => false
  end.

(** ** The browser script *)

Module Client.

(** The body of the response [fetch] resolves to. *)
Inductive Body : Type :=
| TextBody (text : string)
| JsonBody (v : JSValue).

(** How [fetch] ends: with a response; with a rejection, after too many
    redirects (a path without a route, whose error page is not JSON either,
    is counted here too); or never, when the handler threw and the server
    sent nothing. *)
Inductive FetchResult : Type :=
| Resolved (b : Body)
| Rejected
| Pending.

(** The cookie the browser holds after a response. *)
Fixpoint jar_after (actions : list ResAction) (jar : option Token) : option Token :=
  match actions with
  | [] => jar
  | SetCookie _ t _ :: r => jar_after r (Some t)
  | ClearCookie _ :: r => jar_after r None
  | _ :: r => jar_after r jar
  end.

(** What ends the response: the last redirect, page or body sent. *)
Fixpoint final_action (actions : list ResAction) : option ResAction :=
  match actions with
  | [] => None
  | a :: r =>
      match final_action r with
      | Some b => Some b
      | None =>
          match a with
          | Redirect _ | Render _ _ | Send _ | SendJson _ => Some a
          | _ => None
          end
      end
  end.

Definition fresh_response (w : World) : World :=
  mkWorld (db w) (client_tx w) (connects w) (releases w)
    (query_log w) (prompts w) [].

(** [fetch(endpoint, { method, credentials: 'include', ... })]: the request
    is served, and a redirect is followed with a GET that carries the
    cookie, at most [fuel] times. *)
Fixpoint fetch (fuel : nat) (env : Env) (m : Method) (path : string)
    (req : Request) (w : World) : FetchResult * World :=
  match route env m path req with
  | None => (Rejected, w)
  | Some handler =>
      match handler (fresh_response w) with
      | (Throw _, w') => (Pending, w')
      | (Ret _, w') =>
          match final_action (response w') with
          | Some (Redirect url) =>
              match fuel with
              | O => (Rejected, w')
              | S f =>
                  fetch f env GET url
                    (mkRequest (jar_after (response w') (cookie_token req)) []) w'
              end
          | Some (Render view locals) =>
              (Resolved (TextBody (render_view env view locals)), w')
          | Some (Send text) => (Resolved (TextBody text), w')
          | Some (SendJson v) => (Resolved (JsonBody v), w')
          | _ => (Pending, w')
          end
      end
  end.

(** [res.json()]: [None] when the promise is rejected. *)
Definition res_json (b : Body) : option JSValue :=
  match b with
  | TextBody text => Json.parse text
  | JsonBody v => Some v
  end.

(** What the script does in the end. *)
Inductive Effect : Type :=
| StoreTokenAndNavigate (token : JSValue)  (* localStorage.setItem; location = './index.html' *)
| AlertMessage (message : JSValue)         (* alert(data.message || 'Authentication failed') *)
| AlertError                               (* alert('Error: ' + err) *)
| NoEffect.                                (* the promise never settles *)

(** The two [then] callbacks and the [catch] of [auth]. *)
Definition on_response (r : FetchResult) : Effect :=
  match r with
  | Pending => NoEffect
  | Rejected => AlertError
  | Resolved b =>
      match res_json b with
      | None => AlertError
      | Some data =>
          match JS.get data "token" with
          | None => AlertError
          | Some token =>
              if JS.truthy token then StoreTokenAndNavigate token
              else
                match JS.get data "message" with
                | Some message =>
                    AlertMessage (if JS.truthy message then message
                                  else JString "Authentication failed")
                | None => AlertError
                end
          end
      end
  end.

(** [auth(endpoint)]: the JSON text it posts is not urlencoded, so the
    server, which installs [express.urlencoded] only, sees an empty
    [req.body]. *)
Definition auth (env : Env) (path : string) (jar : option Token) (w : World)
    : Effect * World :=
  let '(r, w') := fetch 20 env POST path (mkRequest jar []) w in
  (on_response r, w').

End Client.

(** ** Assertions about computations *)

(** [triple P m Q E]: from a world where [P] holds, [m] returns [a] in a
    world where [Q a] holds or throws [e] in a world where [E e] holds. *)
Definition triple {A : Type} (P : World -> Prop) (m : M A)
    (Q : A -> World -> Prop) (E : Exn -> World -> Prop) : Prop :=
  forall w, P w ->
    match m w with
    | (Ret a, w') => Q a w'
    | (Throw e, w') => E e w'
    end.

(** [keeps I m]: [m] maintains [I], however it ends. *)
Definition keeps {A : Type} (I : World -> Prop) (m : M A) : Prop :=
  triple I m (fun _ => I) (fun _ => I).

(** What [m] leaves behind. *)
Definition after {A : Type} (m : M A) (w : World) : World := snd (m w).

Definition outcome {A : Type} (m : M A) (w : World) : Outcome A := fst (m w).

(** The pool counters of [w] are those of [w0]. *)
Definition pool_as (w0 w : World) : Prop :=
  connects w = connects w0 /\ releases w = releases w0.

(** The log of [w] is the log of [w0] followed by statements that all
    satisfy [P]. *)
Definition log_grows (P : Statement -> Prop) (w0 w : World) : Prop :=
  exists l, query_log w = query_log w0 ++ l /\ Forall P l.

(** A statement that writes writes for [uid]. *)
Definition writes_for (uid : Z) (st : Statement) : Prop :=
  Sql.is_write st = true -> Sql.written_for st = Some uid.

(** The user named by a token. *)
Definition token_identity (t : Token) : option Z :=
  match t with
  | Signed _ c => Some (claim_id c)
  | Opaque _ => None
  end.

(** [holds I E m]: [m] maintains [I] when it returns, and [E] holds when
    it throws. *)
Definition holds {A : Type} (I : World -> Prop) (E : Exn -> World -> Prop)
    (m : M A) : Prop :=
  triple I m (fun _ => I) E.

(** A transaction is open on the client. *)
Definition in_tx (w : World) : Prop := exists d, client_tx w = InTx d.

(** Since [w0], statements were only added to the log, and none of them
    was one the environment rejects. *)
Definition accepted_since (env : Env) (w0 w : World) : Prop :=
  List.length (query_log w0) <= List.length (query_log w)
  /\ forall n, List.length (query_log w0) <= n < List.length (query_log w) ->
               query_fails env n = false.

(** The fetch did not resolve to a body that parses as JSON. *)
Definition not_json (r : Client.FetchResult) : Prop :=
  match r with
  | Client.Resolved (Client.TextBody text) => Json.parse text = None
  | Client.Resolved (Client.JsonBody _) => False
  | _ => True
  end.

(** The order a boolean comparison decides. *)
Definition ordered_by {A : Type} (leb : A -> A -> bool) (a b : A) : Prop :=
  leb a b = true.

(** ** Concrete requests and worlds *)

Module Examples.

Definition secret : string := "top-secret".

(** Alice, user 1, signed in at time 1000. *)
Definition alice : Claims := mkClaims 1 "Alice" 1000 (1000 + Jwt.one_day).

Definition alice_token : Token := Signed secret alice.

(** An order for the [start_time] column: text in the order of its bytes,
    NULL last, anything else after text. *)
Definition text_order (a b : SqlValue) : bool :=
  match a, b with
  | _, SqlNull => true
  | SqlNull, _ => false
  | SqlVal (JString x), SqlVal (JString y) => String.leb x y
  | SqlVal (JString _), SqlVal _ => true
  | SqlVal _, SqlVal (JString _) => false
  | SqlVal _, SqlVal _ => true
  end.

(** Views that produce an HTML page. *)
Definition html_views (view : string) (locals : Locals) : string :=
  "<!DOCTYPE html><html><body>" ++ view ++ "</body></html>".

(** An environment in which the model answers [reply] to every prompt and
    the statements [fails] selects are rejected; the time is 2000. *)
Definition env_of (reply : option string) (fails : nat -> bool) : Env :=
  mkEnv (Some secret) false 2000 fails false (fun _ => reply)
    "salt" text_order html_views.

Definition never : nat -> bool := fun _ => false.

Definition txt (s : string) : SqlValue := SqlVal (JString s).

(** Alice and Bob; Alice has two schedule rows and Bob one. *)
Definition old_rows : list ScheduleItem :=
  [ mkScheduleItem (txt "Friday") (txt "10:00") (txt "11:00") (txt "History") 1;
    mkScheduleItem (txt "Monday") (txt "08:00") (txt "09:00") (txt "Chess") 2;
    mkScheduleItem (txt "Monday") (txt "14:00") (txt "15:00") (txt "Art") 1 ]%Z.

Definition old_db : Database :=
  mkDatabase
    [ mkUser 1 "Alice" "alice@example.org" (bcrypt_hash "salt" "wonderland" 10) SqlNull;
      mkUser 2 "Bob" "bob@example.org" (bcrypt_hash "salt" "builder" 10) SqlNull ]%Z
    old_rows [] 3.

Definition world0 : World := mkWorld old_db NoTx 0 0 [] [] [].

(** The form of the scenario: goal, subjects, a deadline of 7 days and 2
    hours a day; the body also carries a [user_id] of its own. *)
Definition form_body : list (string * string) :=
  [ ("goal", "pass exam"); ("subjects", "Math,Physics"); ("deadline", "7");
    ("dailytime", "2"); ("user_id", "2") ].

Definition form_request : Request := mkRequest (Some alice_token) form_body.

(** The answer of the scenario, inside a code fence. *)
Definition monday_math : string :=
  q "```json
[{'dayOfWeek':'Monday','startTime':'09:00','endTime':'11:00','subject':'Math'}]
```".

(** The same environment one day after Alice signed in. *)
Definition env_next_day : Env :=
  mkEnv (Some secret) false (1000 + Jwt.one_day) never false (fun _ => None)
    "salt" text_order html_views.

(** A request whose cookie is not a token at all. *)
Definition garbage_request : Request := mkRequest (Some (Opaque "garbage")) form_body.

(** Registration forms: a new user, one without a name, and one with
    Alice's address. *)
Definition carol_form : Request :=
  mkRequest None [("name", "Carol"); ("email", "carol@example.org"); ("password", "pw")].

Definition nameless_form : Request :=
  mkRequest None [("email", "carol@example.org"); ("password", "pw")].

Definition alice_again_form : Request :=
  mkRequest None [("name", "Alice"); ("email", "alice@example.org"); ("password", "pw")].

(** A request with a valid session for user 9, who has no row in [users]. *)
Definition zed_request : Request :=
  mkRequest (Some (Signed secret (mkClaims 9 "Zed" 1000 (1000 + Jwt.one_day)))) [].

(** Another form, with another [user_id] of its own. *)
Definition other_body : list (string * string) :=
  [ ("user_id", "7"); ("dailytime", "5") ].

(** An environment in which every statement is rejected. *)
Definition always : nat -> bool := fun _ => true.

End Examples.


(** ** Further vocabulary *)

(** Nothing but the response and the log differs between [w0] and [w]. *)
Definition store_as (w0 w : World) : Prop :=
  db w = db w0 /\ client_tx w = client_tx w0 /\ connects w = connects w0
  /\ releases w = releases w0 /\ prompts w = prompts w0.

(** A cookie as this server sets it: named [token], HTTP-only, SameSite
    Strict, secure in production only, holding a token signed now with the
    configured secret and expiring in a day. *)
Definition session_cookie (env : Env) (a : ResAction) : Prop :=
  match a with
  | SetCookie cname value opts =>
      cname = "token"
      /\ opts = mkCookieOptions true (production env) "Strict"
      /\ exists k uid uname,
           JWT_SECRET env = Some k /\ k <> EmptyString
           /\ value = Signed k (mkClaims uid uname (now env) (now env + Jwt.one_day))
  | _ => True
  end.

Definition cookies_ok (env : Env) (w : World) : Prop :=
  Forall (session_cookie env) (response w).

(** [u'] is [u] but for the daily hours, which may differ if the id is
    [uid]. *)
Definition same_user_but_hours (uid : Z) (u u' : User) : Prop :=
  id u' = id u /\ name u' = name u /\ email u' = email u
  /\ password u' = password u
  /\ (id u <> uid -> daily_focus_hours u' = daily_focus_hours u).

(** [d'] differs from [d] at most in the schedule rows of [uid] and in the
    daily hours of [uid]. *)
Definition touches_only (uid : Z) (d d' : Database) : Prop :=
  schedule_of_others uid d' = schedule_of_others uid d
  /\ user_streaks d' = user_streaks d
  /\ users_id_seq d' = users_id_seq d
  /\ Forall2 (same_user_but_hours uid) (users d) (users d').

(** No two users share an address or an id, and the sequence is ahead of
    every id. *)
Definition users_wellformed (d : Database) : Prop :=
  NoDup (map email (users d))
  /\ NoDup (map id (users d))
  /\ forall u, In u (users d) -> (id u < users_id_seq d)%Z.

(** The statements of one schedule transaction: nothing; a lone ROLLBACK;
    or BEGIN, then persistence steps, then COMMIT, ROLLBACK, or a COMMIT
    followed by ROLLBACK. *)
Definition transaction_shape (sent : list Statement) : Prop :=
  sent = [] \/ sent = [ROLLBACK]
  \/ exists ws tail,
       sent = BEGIN :: ws ++ tail
       /\ Forall (fun st => is_persistence_step st = true) ws
       /\ (tail = [COMMIT] \/ tail = [ROLLBACK] \/ tail = [COMMIT; ROLLBACK]).

(** How far the [try] block of POST /form got with its statements since
    the log was [l0]: nowhere, past BEGIN, or past COMMIT. *)
Definition sent_none (l0 : list Statement) (w : World) : Prop :=
  query_log w = l0.

Definition sent_steps (l0 : list Statement) (w : World) : Prop :=
  exists ws, query_log w = l0 ++ BEGIN :: ws
             /\ Forall (fun st => is_persistence_step st = true) ws.

Definition sent_commit (l0 : list Statement) (w : World) : Prop :=
  exists ws, query_log w = l0 ++ BEGIN :: ws ++ [COMMIT]
             /\ Forall (fun st => is_persistence_step st = true) ws.

(** The committed rows are [d0] and the open transaction has touched only
    what belongs to [uid]. *)
Definition working_for (uid : Z) (d0 : Database) (w : World) : Prop :=
  db w = d0 /\ exists d, client_tx w = InTx d /\ touches_only uid d0 d.

(** Where the [try] block of POST /form may be when it throws. *)
Definition sent_somewhere (l0 : list Statement) (w : World) : Prop :=
  sent_none l0 w \/ sent_steps l0 w \/ sent_commit l0 w.



(** Has the text no backtick? *)
Fixpoint no_backtick (s : string) : bool :=
  match s with
  | EmptyString => true
  | String c r => negb (Text.code c =? 96)%N && no_backtick r
  end.

(** The row of a candidate entry that has none of the four keys. *)
Definition null_row (uid : Z) : ScheduleItem :=
  mkScheduleItem SqlNull SqlNull SqlNull SqlNull uid.

(** More requests. *)
Module Cases.
Import Examples.

Definition login_form (mail pass : string) : Request :=
  mkRequest None [("email", mail); ("password", pass)].

Definition alice_login : Request := login_form "alice@example.org" "wonderland".

Definition alice_wrong_login : Request := login_form "alice@example.org" "looking-glass".

(** An environment without a signing secret. *)
Definition env_without_secret : Env :=
  mkEnv None false 2000 never false (fun _ => None) "salt" text_order html_views.

(** An answer made of a three-letter JSON string. *)
Definition abc_answer : string := q "'abc'".

End Cases.

(** * Properties *)

Import Examples.
Import Cases.

(** ** Reasoning about computations *)

Section Rules.

Context {A B : Type}.

Lemma triple_weaken (P P' : World -> Prop) (m : M A) Q Q' E E' :
  triple P m Q E ->
  (forall w, P' w -> P w) ->
  (forall a w, Q a w -> Q' a w) ->
  (forall e w, E e w -> E' e w) ->
  triple P' m Q' E'.
Proof.
  intros H HP HQ HE w Hw. specialize (H w (HP w Hw)).
  destruct (m w) as [[a|e] w']; auto.
Qed.

Lemma triple_ret (P : World -> Prop) (a : A) Q E :
  (forall w, P w -> Q a w) -> triple P (ret a) Q E.
Proof. intros H w Hw. simpl. auto. Qed.

Lemma triple_throw (P : World -> Prop) (e : Exn) (Q : A -> World -> Prop) E :
  (forall w, P w -> E e w) -> triple P (throw e) Q E.
Proof. intros H w Hw. simpl. auto. Qed.

Lemma triple_or_throw (P : World -> Prop) (e : Exn) (o : option A) Q E :
  (forall w a, P w -> o = Some a -> Q a w) ->
  (forall w, P w -> o = None -> E e w) ->
  triple P (or_throw e o) Q E.
Proof. intros H1 H2 w Hw. destruct o; simpl; auto. Qed.

Lemma triple_bind (P : World -> Prop) (m : M A) Q E (k : A -> M B) R :
  triple P m Q E ->
  (forall a, triple (Q a) (k a) R E) ->
  triple P (bind m k) R E.
Proof.
  intros Hm Hk w Hw. unfold bind. specialize (Hm w Hw).
  destruct (m w) as [[a|e] w']; auto. apply Hk; auto.
Qed.

Lemma triple_try_catch (P : World -> Prop) (body : M A) Q E1 handler E :
  triple P body Q E1 ->
  (forall e, triple (E1 e) (handler e) Q E) ->
  triple P (try_catch body handler) Q E.
Proof.
  intros Hb Hh w Hw. unfold try_catch. specialize (Hb w Hw).
  destruct (body w) as [[a|e] w']; auto. apply Hh; auto.
Qed.

Lemma triple_try_finally (P : World -> Prop) (body : M A) Q1 E1 fin Q E :
  triple P body Q1 E1 ->
  (forall a, triple (Q1 a) fin (fun _ => Q a) E) ->
  (forall e, triple (E1 e) fin (fun _ => E e) E) ->
  triple P (try_finally body fin) Q E.
Proof.
  intros Hb Hq He w Hw. unfold try_finally. specialize (Hb w Hw).
  destruct (body w) as [[a|e] w'].
  - specialize (Hq a w' Hb). destruct (fin w') as [[[]|e'] w'']; auto.
  - specialize (He e w' Hb). destruct (fin w') as [[[]|e'] w'']; auto.
Qed.

End Rules.

Lemma triple_for_each {A : Type} (I : World -> Prop) (items : list A) step E :
  (forall x, In x items -> triple I (step x) (fun _ => I) E) ->
  triple I (for_each items step) (fun _ => I) E.
Proof.
  induction items as [|x r IH]; intros H; simpl.
  - apply triple_ret; auto.
  - eapply triple_bind.
    + apply H; left; reflexivity.
    + intros u. apply IH. intros y Hy. apply H; right; exact Hy.
Qed.

(** The rules again, for an invariant. *)

Lemma keeps_ret {A : Type} I (a : A) : keeps I (ret a).
Proof. apply triple_ret; auto. Qed.

Lemma keeps_throw {A : Type} I e : keeps I (@throw A e).
Proof. apply triple_throw; auto. Qed.

Lemma keeps_or_throw {A : Type} I e (o : option A) : keeps I (or_throw e o).
Proof. apply triple_or_throw; auto. Qed.

Lemma keeps_bind {A B : Type} I (m : M A) (k : A -> M B) :
  keeps I m -> (forall a, keeps I (k a)) -> keeps I (bind m k).
Proof. intros Hm Hk. eapply triple_bind; [exact Hm | exact Hk]. Qed.

Lemma keeps_try_catch {A : Type} I (body : M A) handler :
  keeps I body -> (forall e, keeps I (handler e)) -> keeps I (try_catch body handler).
Proof. intros Hb Hh. eapply triple_try_catch; [exact Hb | exact Hh]. Qed.

Lemma keeps_try_finally {A : Type} I (body : M A) fin :
  keeps I body -> keeps I fin -> keeps I (try_finally body fin).
Proof.
  intros Hb Hf. eapply triple_try_finally; [exact Hb | |]; intros; exact Hf.
Qed.

Lemma keeps_for_each {A : Type} I (items : list A) step :
  (forall x, keeps I (step x)) -> keeps I (for_each items step).
Proof. intros H. apply triple_for_each. intros x _. apply H. Qed.

Lemma keeps_await {R : Type} I (p : option R) : keeps I (await p).
Proof. apply keeps_or_throw. Qed.

Lemma keeps_Promise_all3 {A B C : Type} I (p1 : option A) (p2 : option B) (p3 : option C) :
  keeps I (Promise_all3 p1 p2 p3).
Proof.
  destruct p1, p2, p3; simpl; first [apply keeps_ret | apply keeps_throw].
Qed.

Lemma keeps_after {A : Type} I (m : M A) w : keeps I m -> I w -> I (after m w).
Proof.
  intros H Hw. specialize (H w Hw). unfold after.
  destruct (m w) as [[a|e] w']; exact H.
Qed.

(** ** What the primitives touch *)

Lemma respond_eq (a : ResAction) (w : World) :
  respond a w = (Ret tt, responding w [a]).
Proof. reflexivity. Qed.

Lemma responding_app (w : World) (l1 l2 : list ResAction) :
  responding (responding w l1) l2 = responding w (l1 ++ l2).
Proof. unfold responding; simpl. rewrite <- app_assoc. reflexivity. Qed.

Lemma verifyToken_session env req next w :
  verifyToken env req next w =
  match session env req with
  | Some c => next c w
  | None =>
      if token_present (cookie_token req)
      then (Ret tt, responding w [ClearCookie "token"; Redirect "/"])
      else (Ret tt, responding w [Redirect "/"])
  end.
Proof.
  unfold verifyToken, session.
  destruct (cookie_token req) as [t|]; [|reflexivity].
  destruct (token_present (Some t)); simpl; [|reflexivity].
  destruct (Jwt.verify t (JWT_SECRET env) (now env)); [reflexivity|].
  unfold bind, redirect. rewrite !respond_eq. rewrite responding_app. reflexivity.
Qed.

(** A token of this server is rejected from one day after it was signed. *)
Lemma expired_token_rejected uid uname secret t0 t' tok :
  Jwt.sign uid uname secret t0 = Some tok ->
  (t0 + Jwt.one_day <= t')%Z ->
  Jwt.verify tok secret t' = None.
Proof.
  unfold Jwt.sign, Jwt.verify. intros Hs Ht.
  destruct secret as [k|]; [|discriminate].
  destruct (String.eqb k EmptyString) eqn:Hk; [discriminate|].
  inversion Hs; subst tok; clear Hs. simpl. rewrite String.eqb_refl. simpl.
  destruct (Z.leb_spec (t0 + Jwt.one_day) t'); [reflexivity | lia].
Qed.

Ltac prim :=
  unfold keeps, triple, respond, render, redirect, auth_error, db_query,
    client_query, generateContent, log_statement, set_db, set_tx;
  let w := fresh "w" in
  let H := fresh "H" in
  intros w H; simpl;
  repeat match goal with
         | |- context [if ?c then _ else _] => destruct c; simpl
         | |- context [match generate ?e ?p with _ => _ end] =>
             destruct (generate e p); simpl
         | |- context [accepted ?s ?d ?t] => destruct (accepted s d t); simpl
         end.

Ltac walk leaf :=
  repeat first
    [ apply keeps_ret | apply keeps_throw | apply keeps_or_throw
    | apply keeps_await | apply keeps_Promise_all3
    | apply keeps_bind; [| intros ?]
    | apply keeps_try_catch; [| intros ?]
    | apply keeps_try_finally
    | apply keeps_for_each; intros ?
    | match goal with
      | |- keeps _ (if ?c then _ else _) => destruct c
      | |- keeps _ (match ?x with _ => _ end) => destruct x
      | |- keeps _ (let '(_, _) := ?x in _) => destruct x
      end
    | leaf ].

Lemma pool_respond w0 a : keeps (pool_as w0) (respond a).
Proof. prim; exact H. Qed.

Lemma pool_client_query w0 env st : keeps (pool_as w0) (client_query env st).
Proof. prim; exact H. Qed.

Lemma pool_generateContent w0 env p : keeps (pool_as w0) (generateContent env p).
Proof. prim; exact H. Qed.

Lemma pool_generate_and_save w0 env req user :
  keeps (pool_as w0) (generate_and_save env req user).
Proof.
  unfold generate_and_save, insert_item, redirect.
  walk ltac:(first [apply pool_respond | apply pool_client_query
                   | apply pool_generateContent]).
Qed.

Lemma bind_run {A B : Type} (m : M A) (k : A -> M B) (w : World) :
  bind m k w =
  match m w with
  | (Ret a, w') => k a w'
  | (Throw e, w') => (Throw e, w')
  end.
Proof. reflexivity. Qed.

Lemma pool_schedule_form env req user w :
  let w' := after (schedule_form env req user) w in
  if connect_fails env
  then connects w' = connects w /\ releases w' = releases w
  else connects w' = S (connects w) /\ releases w' = S (releases w).
Proof.
  unfold after, schedule_form. rewrite bind_run. unfold db_connect.
  destruct (connect_fails env); simpl; [split; reflexivity|].
  set (w1 := mkWorld (db w) (client_tx w) (S (connects w)) (releases w)
               (query_log w) (prompts w) (response w)).
  assert (K : keeps (pool_as w1)
                (try_catch (generate_and_save env req user)
                   (fun _ => rollback_and_report env))).
  { apply keeps_try_catch; [apply pool_generate_and_save|].
    intros e. unfold rollback_and_report.
    walk ltac:(first [apply pool_respond | apply pool_client_query]). }
  specialize (K w1 (conj eq_refl eq_refl)).
  unfold try_catch_finally, try_finally, client_release.
  destruct (try_catch _ _ w1) as [[[]|e] w2]; simpl; destruct K as [K1 K2];
    rewrite K1, K2; split; reflexivity.
Qed.

(** ** The session gate *)

(** Without a session a protected route answers with the redirect alone,
    after clearing the cookie if there was one, and does nothing else. *)
Lemma gate_closed env req w h :
  In h [get_form env req; get_dashboard env req; post_form env req] ->
  session env req = None ->
  h w = (Ret tt, responding w (if token_present (cookie_token req)
                               then [ClearCookie "token"; Redirect "/"]
                               else [Redirect "/"])).
Proof.
  intros Hh Hs.
  assert (G : forall next, verifyToken env req next w =
                (Ret tt, responding w (if token_present (cookie_token req)
                                       then [ClearCookie "token"; Redirect "/"]
                                       else [Redirect "/"]))).
  { intros next. rewrite verifyToken_session, Hs.
    destruct (token_present (cookie_token req)); reflexivity. }
  simpl in Hh. destruct Hh as [<-|[<-|[<-|[]]]]; apply G.
Qed.

Lemma no_session_cases env req :
  token_present (cookie_token req) = false
  \/ (exists t, cookie_token req = Some t
               /\ Jwt.verify t (JWT_SECRET env) (now env) = None)
  \/ (exists t uid uname t0, cookie_token req = Some t
               /\ Jwt.sign uid uname (JWT_SECRET env) t0 = Some t
               /\ (t0 + Jwt.one_day <= now env)%Z) ->
  session env req = None.
Proof.
  unfold session. intros [H|[(t & Ht & Hv)|(t & uid & uname & t0 & Ht & Hs & Hle)]].
  - destruct (cookie_token req); [rewrite H|]; reflexivity.
  - rewrite Ht, Hv. destruct (token_present (Some t)); reflexivity.
  - rewrite Ht, (expired_token_rejected _ _ _ _ _ _ Hs Hle).
    destruct (token_present (Some t)); reflexivity.
Qed.

(** C5. On GET /form, GET /dashboard and POST /form, a session token that
    is missing, that does not verify, or that this server signed a day or
    more ago is rejected: the response is the redirect to [/] (after the
    cookie is cleared, when one was sent), and nothing else happens: no
    page is rendered, no statement is sent, no client is checked out and the
    model is not called. *)
Theorem rejected_session_redirects_to_login env req w h :
  In h [get_form env req; get_dashboard env req; post_form env req] ->
  token_present (cookie_token req) = false
  \/ (exists t, cookie_token req = Some t
               /\ Jwt.verify t (JWT_SECRET env) (now env) = None)
  \/ (exists t uid uname t0, cookie_token req = Some t
               /\ Jwt.sign uid uname (JWT_SECRET env) t0 = Some t
               /\ (t0 + Jwt.one_day <= now env)%Z) ->
  session env req = None
  /\ exists actions,
       h w = (Ret tt, responding w actions)
       /\ (actions = [Redirect "/"] \/ actions = [ClearCookie "token"; Redirect "/"]).
Proof.
  intros Hh Hc. pose proof (no_session_cases env req Hc) as Hs.
  split; [exact Hs|].
  rewrite (gate_closed env req w h Hh Hs).
  destruct (token_present (cookie_token req)); eexists; split; eauto.
Qed.

(** Alice's token, signed at time 1000, is rejected one day later. *)
Lemma rejected_session_redirects_to_login_witness :
  session env_next_day form_request = None
  /\ exists actions,
       post_form env_next_day form_request world0 = (Ret tt, responding world0 actions)
       /\ (actions = [Redirect "/"] \/ actions = [ClearCookie "token"; Redirect "/"]).
Proof.
  apply (rejected_session_redirects_to_login env_next_day form_request world0
           (post_form env_next_day form_request)).
  - simpl. right. right. left. reflexivity.
  - right. right. exists alice_token, 1%Z, "Alice", 1000%Z.
    split; [reflexivity | split; [reflexivity | vm_compute; discriminate]].
Defined.

(** C10. When a token is present and its verification fails, the handler
    clears the [token] cookie and then redirects to [/]; when no token is
    present it only redirects. *)
Theorem failed_verification_clears_cookie env req w h :
  In h [get_form env req; get_dashboard env req; post_form env req] ->
  session env req = None ->
  response (after h w) =
  response w ++ (if token_present (cookie_token req)
                 then [ClearCookie "token"; Redirect "/"]
                 else [Redirect "/"]).
Proof.
  intros Hh Hs. unfold after. rewrite (gate_closed env req w h Hh Hs). reflexivity.
Qed.

Lemma failed_verification_clears_cookie_witness :
  response (after (get_dashboard (env_of None never) garbage_request) world0) =
  [ClearCookie "token"; Redirect "/"].
Proof.
  apply (failed_verification_clears_cookie (env_of None never) garbage_request world0
           (get_dashboard (env_of None never) garbage_request)).
  - simpl. right. left. reflexivity.
  - reflexivity.
Defined.

(** ** The pool client *)

(** C4. POST /form gives the client it checked out back to the pool exactly
    once, however the handler ends (commit, rollback, or an exception that
    escapes, the one of a rejected ROLLBACK included); without a session, or
    when [db.connect] is rejected, no client is checked out and none is
    released. *)
Theorem client_released_on_every_path env req w :
  let w' := after (post_form env req) w in
  let n := match session env req with
           | Some _ => if connect_fails env then 0 else 1
           | None => 0
           end in
  connects w' = connects w + n /\ releases w' = releases w + n.
Proof.
  simpl. unfold after, post_form. rewrite verifyToken_session.
  destruct (session env req) as [c|].
  - pose proof (pool_schedule_form env req c w) as H. unfold after in H.
    destruct (connect_fails env); destruct H as [H1 H2]; rewrite H1, H2; lia.
  - destruct (token_present (cookie_token req)); simpl; lia.
Qed.

(** A run in which every statement is rejected: the ROLLBACK throws too,
    the exception escapes the handler, and the client is released. *)
Example released_after_failed_rollback :
  let env := env_of (Some monday_math) always in
  outcome (post_form env form_request) world0 = Throw DatabaseError
  /\ connects (after (post_form env form_request) world0) = 1
  /\ releases (after (post_form env form_request) world0) = 1
  /\ response (after (post_form env form_request) world0) = [].
Proof. vm_compute. repeat split. Qed.

(** ** The statements a handler sends *)

Lemma log_grows_refl P w : log_grows P w w.
Proof. exists []. rewrite app_nil_r. split; [reflexivity | constructor]. Qed.

Lemma log_grows_snoc P w0 w st :
  log_grows P w0 w -> P st -> exists l, query_log w ++ [st] = query_log w0 ++ l /\ Forall P l.
Proof.
  intros (l & Hl & HP) Hst. exists (l ++ [st]). split.
  - rewrite Hl, app_assoc. reflexivity.
  - apply Forall_app. split; [exact HP | constructor; [exact Hst | constructor]].
Qed.

Lemma sent_since_grows P w0 w :
  log_grows P w0 w -> Forall P (sent_since (query_log w0) w).
Proof.
  intros (l & Hl & HP). unfold sent_since. rewrite Hl.
  rewrite skipn_app, skipn_all, Nat.sub_diag. simpl. exact HP.
Qed.

Lemma log_respond P w0 a : keeps (log_grows P w0) (respond a).
Proof. prim; exact H. Qed.

Lemma log_generateContent P w0 env p : keeps (log_grows P w0) (generateContent env p).
Proof. prim; exact H. Qed.

Lemma log_db_connect P w0 env : keeps (log_grows P w0) (db_connect env).
Proof. unfold db_connect. prim; exact H. Qed.

Lemma log_client_release P w0 : keeps (log_grows P w0) client_release.
Proof. unfold client_release. prim; exact H. Qed.

Lemma log_client_query (P : Statement -> Prop) w0 env st :
  P st -> keeps (log_grows P w0) (client_query env st).
Proof. intros Hst. prim; apply log_grows_snoc; assumption. Qed.

Lemma log_db_query {R : Type} (P : Statement -> Prop) w0 env st (result : Database -> R) :
  P st -> keeps (log_grows P w0) (db_query env st result).
Proof. intros Hst. prim; apply log_grows_snoc; assumption. Qed.

Lemma schedule_form_writes_for env req user w0 :
  keeps (log_grows (writes_for (claim_id user)) w0) (schedule_form env req user).
Proof.
  unfold schedule_form, try_catch_finally, rollback_and_report, generate_and_save,
    insert_item, redirect.
  walk ltac:(first [ apply log_respond | apply log_generateContent
                   | apply log_db_connect | apply log_client_release
                   | apply log_client_query; unfold writes_for; simpl;
                     first [reflexivity | discriminate] ]).
Qed.

Lemma session_identity env req c :
  session env req = Some c ->
  exists t, cookie_token req = Some t /\ token_identity t = Some (claim_id c).
Proof.
  unfold session. destruct (cookie_token req) as [t|]; [|discriminate].
  destruct (token_present (Some t)); [|discriminate].
  unfold Jwt.verify. destruct (JWT_SECRET env) as [k|]; [|discriminate].
  destruct t as [k' c'|s]; [|discriminate].
  destruct (String.eqb k EmptyString); [discriminate|].
  destruct (negb (String.eqb k k')); [discriminate|].
  destruct (exp c' <=? now env)%Z; [discriminate|].
  intros H; inversion H; subst. exists (Signed k' c). split; reflexivity.
Qed.

(** Every write POST /form sends is made for the user the cookie names,
    whatever the body says. *)
Lemma post_form_writes env t b w st :
  In st (sent_since (query_log w) (after (post_form env (mkRequest (Some t) b)) w)) ->
  Sql.is_write st = true ->
  exists uid, token_identity t = Some uid /\ Sql.written_for st = Some uid.
Proof.
  intros Hin Hw. unfold after, post_form in Hin. rewrite verifyToken_session in Hin.
  destruct (session env (mkRequest (Some t) b)) as [c|] eqn:Hs.
  - destruct (session_identity _ _ _ Hs) as (t' & Ht' & Hid). simpl in Ht'.
    inversion Ht'; subst t'. exists (claim_id c). split; [exact Hid|].
    pose proof (keeps_after _ _ w (schedule_form_writes_for env (mkRequest (Some t) b) c w)
                  (log_grows_refl _ w)) as G.
    apply sent_since_grows in G. rewrite Forall_forall in G.
    exact (G st Hin Hw).
  - exfalso. unfold sent_since in Hin.
    destruct (token_present (cookie_token (mkRequest (Some t) b))); simpl in Hin;
      rewrite skipn_all in Hin; exact Hin.
Qed.

(** C8. The user id of every write POST /form sends (the DELETE, each
    INSERT, the UPDATE) is the id in the claims of the session token: two
    requests with the same token and any two bodies, in any two
    environments and worlds, write for the same user. *)
Theorem writes_use_the_session_identity env1 env2 t b1 b2 w1 w2 st1 st2 :
  In st1 (sent_since (query_log w1) (after (post_form env1 (mkRequest (Some t) b1)) w1)) ->
  Sql.is_write st1 = true ->
  In st2 (sent_since (query_log w2) (after (post_form env2 (mkRequest (Some t) b2)) w2)) ->
  Sql.is_write st2 = true ->
  exists uid,
    token_identity t = Some uid
    /\ Sql.written_for st1 = Some uid
    /\ Sql.written_for st2 = Some uid.
Proof.
  intros H1 W1 H2 W2.
  destruct (post_form_writes env1 t b1 w1 st1 H1 W1) as (u1 & T1 & E1).
  destruct (post_form_writes env2 t b2 w2 st2 H2 W2) as (u2 & T2 & E2).
  exists u1. rewrite T1 in T2. inversion T2; subst u2. auto.
Qed.

Lemma writes_use_the_session_identity_witness :
  exists uid,
    token_identity alice_token = Some uid
    /\ Sql.written_for (DELETE_schedule_items 1) = Some uid
    /\ Sql.written_for (UPDATE_daily_focus_hours (txt "5") 1) = Some uid.
Proof.
  apply (writes_use_the_session_identity
           (env_of (Some monday_math) never) (env_of (Some "[]") never)
           alice_token form_body other_body world0 world0).
  - vm_compute. right. left. reflexivity.
  - reflexivity.
  - vm_compute. right. right. left. reflexivity.
  - reflexivity.
Defined.

(** ** The schedule transaction *)

Lemma holds_ret {A : Type} I E (a : A) : holds I E (ret a).
Proof. apply triple_ret; auto. Qed.

Lemma holds_or_throw {A : Type} (I : World -> Prop) E e (o : option A) :
  (forall w, I w -> E e w) -> holds I E (or_throw e o).
Proof. intros H. apply triple_or_throw; auto. Qed.

Lemma holds_unless (I : World -> Prop) E e (c : bool) :
  (forall w, I w -> E e w) -> holds I E (if c then throw e else ret tt).
Proof. intros H. destruct c; [apply triple_throw | apply triple_ret]; auto. Qed.

Lemma holds_bind {A B : Type} I E (m : M A) (k : A -> M B) :
  holds I E m -> (forall a, holds I E (k a)) -> holds I E (bind m k).
Proof. intros Hm Hk. eapply triple_bind; [exact Hm | exact Hk]. Qed.

Lemma holds_for_each {A : Type} I E (items : list A) step :
  (forall x, holds I E (step x)) -> holds I E (for_each items step).
Proof. intros H. apply triple_for_each. intros x _. apply H. Qed.

(** Follow a chain of binds, proving each link with [leaf]; the last
    computation of the chain is left as a goal. *)
Ltac chain leaf := repeat (eapply triple_bind; [ solve [leaf] | intros ? ]).

(** *** The committed rows *)

Lemma begin_opens env d0 :
  triple (fun w => db w = d0) (client_query env BEGIN)
    (fun _ w => db w = d0 /\ in_tx w) (fun _ w => db w = d0).
Proof.
  intros w H. unfold client_query.
  destruct (client_tx w) as [|d|] eqn:T; simpl;
    destruct (query_fails env (List.length (query_log w))); simpl; auto;
    split; auto; eexists; reflexivity.
Qed.

Lemma step_in_tx env d0 st :
  is_persistence_step st = true ->
  holds (fun w => db w = d0 /\ in_tx w) (fun _ w => db w = d0) (client_query env st).
Proof.
  intros Hst w [H (d & T)]. unfold client_query. rewrite T.
  destruct st; try discriminate; simpl;
    destruct (query_fails env (List.length (query_log w))); simpl; auto;
    split; auto; eexists; reflexivity.
Qed.

Lemma commit_or_keep env d0 :
  triple (fun w => db w = d0 /\ in_tx w) (client_query env COMMIT)
    (fun _ _ => True) (fun _ w => db w = d0).
Proof.
  intros w [H (d & T)]. unfold client_query. rewrite T. simpl.
  destruct (query_fails env (List.length (query_log w))); simpl; auto.
Qed.

Lemma rollback_keeps_db env d0 :
  keeps (fun w => db w = d0) (client_query env ROLLBACK).
Proof.
  intros w H. unfold client_query.
  destruct (client_tx w); simpl;
    destruct (query_fails env (List.length (query_log w))); simpl; auto.
Qed.

Lemma db_respond d0 a : keeps (fun w => db w = d0) (respond a).
Proof. prim; exact H. Qed.

Lemma db_generateContent d0 env p : keeps (fun w => db w = d0) (generateContent env p).
Proof. prim; exact H. Qed.

Lemma insert_item_in_tx env d0 uid item :
  holds (fun w => db w = d0 /\ in_tx w) (fun _ w => db w = d0) (insert_item env uid item).
Proof.
  unfold insert_item, holds.
  chain ltac:(apply holds_or_throw; intros ? [? ?]; assumption).
  apply step_in_tx. reflexivity.
Qed.

(** When the [try] block throws, the committed rows are those it started
    from. *)
Lemma generate_and_save_throw_keeps_db env req user d0 :
  triple (fun w => db w = d0) (generate_and_save env req user)
    (fun _ _ => True) (fun _ w => db w = d0).
Proof.
  unfold generate_and_save.
  chain ltac:(first
    [ apply db_generateContent
    | apply begin_opens
    | apply step_in_tx; reflexivity
    | apply commit_or_keep
    | apply holds_for_each; intros ?; apply insert_item_in_tx
    | apply holds_or_throw; first [ intros ? [? ?]; assumption | intros ? ?; assumption ]
    | apply holds_unless; intros ? ?; assumption ]).
  intros w _. exact I.
Qed.

(** *** The statements the engine accepted *)

Lemma accepted_since_refl env w : accepted_since env w w.
Proof. split; [lia | intros n Hn; lia]. Qed.

Lemma accepted_client_query env w0 st :
  holds (accepted_since env w0) (fun _ _ => True) (client_query env st).
Proof.
  intros w [Hle H]. unfold client_query.
  destruct (query_fails env (List.length (query_log w))) eqn:F; simpl; [exact I|].
  destruct (refused_when_aborted st (client_tx w)); simpl; [exact I|].
  destruct (accepted st (db w) (client_tx w)) as [d t]; simpl.
  unfold accepted_since; simpl. rewrite length_app; simpl. split; [lia|].
  intros n Hn. destruct (Nat.eq_dec n (List.length (query_log w))) as [->|Hne];
    [exact F | apply H; lia].
Qed.

Lemma accepted_respond env w0 a :
  holds (accepted_since env w0) (fun _ _ => True) (respond a).
Proof. intros w H. exact H. Qed.

Lemma accepted_generateContent env w0 p :
  holds (accepted_since env w0) (fun _ _ => True) (generateContent env p).
Proof. intros w H. unfold generateContent. destruct (generate env p); simpl; auto. Qed.

(** When the [try] block returns, the engine accepted all it sent. *)
Lemma generate_and_save_return_accepted env req user w0 :
  holds (accepted_since env w0) (fun _ _ => True) (generate_and_save env req user).
Proof.
  unfold generate_and_save, redirect.
  repeat first
    [ apply holds_bind; [| intros ?]
    | apply accepted_generateContent | apply accepted_client_query
    | apply accepted_respond
    | apply holds_or_throw; intros; exact I
    | apply holds_unless; intros; exact I
    | apply holds_for_each; intros ?; unfold insert_item ].
Qed.

(** *** The response *)

Lemma response_client_query env r0 st :
  keeps (fun w => response w = r0) (client_query env st).
Proof. prim; exact H. Qed.

Lemma response_generateContent env r0 p :
  keeps (fun w => response w = r0) (generateContent env p).
Proof. prim; exact H. Qed.

(** When the [try] block throws, it has not touched the response. *)
Lemma generate_and_save_throw_keeps_response env req user r0 :
  triple (fun w => response w = r0) (generate_and_save env req user)
    (fun _ _ => True) (fun _ w => response w = r0).
Proof.
  unfold generate_and_save.
  chain ltac:(first
    [ apply response_generateContent
    | apply response_client_query
    | apply keeps_or_throw
    | apply (holds_unless (fun w => response w = r0)); intros ? ?; assumption
    | apply keeps_for_each; intros ?; unfold insert_item;
      repeat first [ apply keeps_bind; [| intros ?] | apply keeps_or_throw
                   | apply response_client_query ] ]).
  intros w _. exact I.
Qed.

(** *** The [catch] and [finally] blocks *)

Lemma rollback_and_report_run env w :
  let w' := after (rollback_and_report env) w in
  query_log w' = query_log w ++ [ROLLBACK]
  /\ db w' = db w
  /\ connects w' = connects w
  /\ releases w' = releases w
  /\ (if query_fails env (List.length (query_log w))
      then outcome (rollback_and_report env) w = Throw DatabaseError
           /\ response w' = response w
      else outcome (rollback_and_report env) w = Ret tt
           /\ client_tx w' = NoTx
           /\ response w' = response w ++ [Status 500; Send failure_message]).
Proof.
  unfold after, outcome, rollback_and_report. rewrite bind_run. unfold client_query.
  destruct (query_fails env (List.length (query_log w))); simpl.
  - repeat split; reflexivity.
  - assert (R : refused_when_aborted ROLLBACK (client_tx w) = false)
      by (destruct (client_tx w); reflexivity).
    rewrite R. simpl. repeat split; try reflexivity.
    rewrite <- app_assoc. reflexivity.
Qed.

Lemma schedule_form_unfold env req user w :
  schedule_form env req user w =
  if connect_fails env then (Throw DatabaseError, w)
  else
    let w1 := mkWorld (db w) (client_tx w) (S (connects w)) (releases w)
                (query_log w) (prompts w) (response w) in
    match generate_and_save env req user w1 with
    | (Ret a, w2) => client_release w2
    | (Throw e, w2) =>
        match rollback_and_report env w2 with
        | (Ret a, w3) => client_release w3
        | (Throw e', w3) => (Throw e', snd (client_release w3))
        end
    end.
Proof.
  unfold schedule_form. rewrite bind_run. unfold db_connect.
  destruct (connect_fails env); [reflexivity|]. simpl.
  unfold try_catch_finally, try_finally, try_catch.
  destruct (generate_and_save env req user _) as [[[]|e] w2]; [reflexivity|].
  destruct (rollback_and_report env w2) as [[[]|e'] w3]; reflexivity.
Qed.

Lemma schedule_form_failed_step env req user w :
  let w' := after (schedule_form env req user) w in
  (exists n st,
      nth_error (query_log w') n = Some st
      /\ List.length (query_log w) <= n
      /\ is_persistence_step st = true
      /\ query_fails env n = true) ->
  db w' = db w
  /\ last (query_log w') BEGIN = ROLLBACK
  /\ (query_fails env (pred (List.length (query_log w'))) = false ->
      client_tx w' = NoTx
      /\ response w' = response w ++ [Status 500; Send failure_message]).
Proof.
  unfold after. rewrite schedule_form_unfold.
  destruct (connect_fails env).
  - simpl. intros (n & st & Hn & Hle & _).
    assert (n < List.length (query_log w)) by (apply nth_error_Some; congruence). lia.
  - set (w1 := mkWorld (db w) (client_tx w) (S (connects w)) (releases w)
                 (query_log w) (prompts w) (response w)).
    pose proof (generate_and_save_throw_keeps_db env req user (db w) w1 eq_refl) as A.
    pose proof (generate_and_save_return_accepted env req user w1 w1
                  (accepted_since_refl env w1)) as B.
    pose proof (generate_and_save_throw_keeps_response env req user (response w) w1 eq_refl) as C.
    simpl. destruct (generate_and_save env req user w1) as [[[]|e] w2].
    + simpl. intros (n & st & Hn & Hle & _ & Hf). exfalso.
      assert (n < List.length (query_log w2)) by (apply nth_error_Some; congruence).
      destruct B as [_ B]. rewrite (B n) in Hf; [discriminate | simpl; lia].
    + intros _.
      pose proof (rollback_and_report_run env w2) as R. unfold after, outcome in R.
      destruct (rollback_and_report env w2) as [o w3]. simpl in R.
      destruct R as (RL & RD & _ & _ & RR).
      assert (G : db w3 = db w /\ last (query_log w3) BEGIN = ROLLBACK
                  /\ (query_fails env (pred (List.length (query_log w3))) = false ->
                      client_tx w3 = NoTx
                      /\ response w3 = response w ++ [Status 500; Send failure_message])).
      { split; [congruence|]. split; [rewrite RL; apply last_last|].
        rewrite RL, length_app. simpl. rewrite Nat.add_1_r. simpl. intros F.
        rewrite F in RR. destruct RR as (_ & T & Rs). rewrite Rs, C. auto. }
      destruct o as [[]|e']; simpl; exact G.
Qed.

(** C2. When the engine rejects a persistence step of POST /form (the
    DELETE, one of the INSERTs or the UPDATE), the committed rows after the
    call are those before it: nothing of the new batch is stored and no
    earlier row is gone.  The last statement sent is ROLLBACK, and when the
    engine accepts it the transaction is closed and the response is the 500
    with its message. *)
Theorem failed_persistence_step_rolls_back env req w :
  let w' := after (post_form env req) w in
  (exists n st,
      nth_error (query_log w') n = Some st
      /\ List.length (query_log w) <= n
      /\ is_persistence_step st = true
      /\ query_fails env n = true) ->
  db w' = db w
  /\ last (query_log w') BEGIN = ROLLBACK
  /\ (query_fails env (pred (List.length (query_log w'))) = false ->
      client_tx w' = NoTx
      /\ response w' = response w ++ [Status 500; Send failure_message]).
Proof.
  unfold after, post_form. rewrite verifyToken_session.
  destruct (session env req) as [c|].
  - apply (schedule_form_failed_step env req c w).
  - intros (n & st & Hn & Hle & _). exfalso.
    assert (n < List.length (query_log w)).
    { apply nth_error_Some.
      destruct (token_present (cookie_token req)); simpl in Hn; congruence. }
    lia.
Qed.

(** The scenario's answer arrives, but the engine rejects the INSERT (the
    third statement): Alice keeps her two old rows. *)
Lemma failed_persistence_step_rolls_back_witness :
  let env := env_of (Some monday_math) (fun n => Nat.eqb n 2) in
  let w' := after (post_form env form_request) world0 in
  db w' = old_db
  /\ last (query_log w') BEGIN = ROLLBACK
  /\ (query_fails env (pred (List.length (query_log w'))) = false ->
      client_tx w' = NoTx
      /\ response w' = [Status 500; Send failure_message]).
Proof.
  apply (failed_persistence_step_rolls_back
           (env_of (Some monday_math) (fun n => Nat.eqb n 2)) form_request world0).
  exists 2, (INSERT_schedule_item (txt "Monday") (txt "09:00") (txt "11:00") (txt "Math") 1).
  vm_compute. repeat split; reflexivity || lia.
Defined.

(** ** A successful generation *)

(** [JSON.parse] never yields [undefined]. *)
Lemma parse_number_defined s v r :
  Json.parse_number s = Some (v, r) -> v <> JUndefined.
Proof.
  unfold Json.parse_number.
  repeat match goal with
         | |- context [let '(_, _) := ?x in _] => destruct x
         | |- context [match ?x with _ => _ end] => destruct x
         end;
    try discriminate; intros H; inversion H; discriminate.
Qed.

Lemma parse_literal_defined s v r :
  Json.parse_literal s = Some (v, r) -> v <> JUndefined.
Proof.
  unfold Json.parse_literal.
  repeat match goal with
         | |- context [if ?b then _ else _] => destruct b
         end;
    try discriminate; intros H; inversion H; discriminate.
Qed.

Lemma parse_value_defined fuel s v r :
  Json.parse_value fuel s = Some (v, r) -> v <> JUndefined.
Proof.
  destruct fuel as [|f]; simpl; [discriminate|].
  destruct (Json.skip_ws s) as [|c s']; [discriminate|].
  repeat match goal with
         | |- context [if ?b then _ else _] => destruct b
         | |- context [match ?x with _ => _ end] => destruct x eqn:?
         end;
    try discriminate;
    try (intros H; inversion H; discriminate);
    first [apply parse_number_defined | apply parse_literal_defined].
Qed.

Lemma parse_elements_defined fuel s vs r :
  Json.parse_elements fuel s = Some (vs, r) -> Forall (fun v => v <> JUndefined) vs.
Proof.
  revert s vs r. induction fuel as [|f IH]; intros s vs r; simpl; [discriminate|].
  destruct (Json.parse_value f s) as [[v r1]|] eqn:V; [|discriminate].
  apply parse_value_defined in V.
  destruct (Json.skip_ws r1) as [|c r2]; [discriminate|].
  destruct (Text.code c =? 44)%N.
  - destruct (Json.parse_elements f r2) as [[vs' r3]|] eqn:Es; [|discriminate].
    intros H; inversion H; subst. constructor; [exact V | eapply IH; exact Es].
  - destruct (Text.code c =? 93)%N; [|discriminate].
    intros H; inversion H; subst. constructor; [exact V | constructor].
Qed.

Lemma parse_array_defined text items :
  Json.parse text = Some (JArray items) -> Forall (fun v => v <> JUndefined) items.
Proof.
  unfold Json.parse.
  destruct (Json.parse_value _ text) as [[v r]|] eqn:V; [|discriminate].
  destruct (Json.skip_ws r); [|discriminate].
  intros H; inversion H; subst v; clear H.
  destruct (2 * String.length text + 2) as [|f]; simpl in V; [discriminate|].
  destruct (Json.skip_ws text) as [|c s']; [discriminate|].
  repeat match type of V with
         | context [if ?b then _ else _] => destruct b
         | context [match ?x with _ => _ end] => destruct x eqn:?
         end;
    try discriminate;
    try (inversion V; subst; first [constructor | eapply parse_elements_defined; eassumption]).
  - apply parse_number_defined in V as V'. unfold Json.parse_number in V.
    repeat match type of V with
           | context [let '(_, _) := ?x in _] => destruct x
           | context [match ?x with _ => _ end] => destruct x
           end; discriminate.
  - unfold Json.parse_literal in V.
    repeat match type of V with
           | context [if ?b then _ else _] => destruct b
           end; discriminate.
Qed.

Lemma get_defined item key :
  item <> JNull -> item <> JUndefined -> JS.get item key = Some (prop item key).
Proof.
  intros H1 H2. unfold prop. destruct item; try congruence; simpl; try reflexivity.
  destruct (JS.own_property key fields); reflexivity.
Qed.

Lemma insert_item_run env uid item w d :
  query_fails env (List.length (query_log w)) = false ->
  client_tx w = InTx d ->
  item <> JNull -> item <> JUndefined ->
  insert_item env uid item w =
  (Ret tt, mkWorld (db w) (InTx (Sql.insert_schedule_item (row_of uid item) d))
             (connects w) (releases w)
             (query_log w ++ [insert_statement uid item]) (prompts w) (response w)).
Proof.
  intros F T H1 H2. unfold insert_item.
  rewrite !(get_defined item _ H1 H2). unfold bind, or_throw, ret.
  unfold client_query. rewrite F, T. reflexivity.
Qed.

Lemma append_rows_nil d : append_rows [] d = d.
Proof. destruct d. unfold append_rows; simpl. rewrite app_nil_r. reflexivity. Qed.

Lemma append_rows_cons r rows d :
  append_rows rows (Sql.insert_schedule_item r d) = append_rows (r :: rows) d.
Proof. unfold append_rows, Sql.insert_schedule_item; simpl. rewrite <- app_assoc. reflexivity. Qed.

Lemma insert_loop_run env uid items :
  (forall n, query_fails env n = false) ->
  Forall (fun v => v <> JNull /\ v <> JUndefined) items ->
  forall w d,
    client_tx w = InTx d ->
    for_each items (insert_item env uid) w =
    (Ret tt, mkWorld (db w) (InTx (append_rows (map (row_of uid) items) d))
               (connects w) (releases w)
               (query_log w ++ map (insert_statement uid) items)
               (prompts w) (response w)).
Proof.
  intros F. induction 1 as [|x r [Hx1 Hx2] Hr IH]; intros w d T; simpl.
  - rewrite append_rows_nil, app_nil_r. destruct w; simpl in *. subst. reflexivity.
  - rewrite bind_run, (insert_item_run env uid x w d (F _) T Hx1 Hx2).
    erewrite IH; [| reflexivity]. simpl.
    rewrite append_rows_cons, <- app_assoc. reflexivity.
Qed.

Lemma client_query_run env st w :
  query_fails env (List.length (query_log w)) = false ->
  refused_when_aborted st (client_tx w) = false ->
  client_query env st w =
  (Ret tt, set_tx (snd (accepted st (db w) (client_tx w)))
             (set_db (fst (accepted st (db w) (client_tx w))) (log_statement st w))).
Proof.
  intros F R. unfold client_query. rewrite F, R. simpl.
  destruct (accepted st (db w) (client_tx w)); reflexivity.
Qed.

(** The whole run when the model answers with an array without [null]
    entries and the engine accepts everything. *)
Lemma schedule_form_success env req user w text items :
  connect_fails env = false ->
  (forall n, query_fails env n = false) ->
  client_tx w <> TxAborted ->
  generate env (build_prompt (body req)) = Some text ->
  Json.parse (clean text) = Some (JArray items) ->
  Forall (fun v => v <> JNull) items ->
  let uid := claim_id user in
  let hours := prepareValue (field (body req) "dailytime") in
  schedule_form env req user w =
  (Ret tt,
   mkWorld (replaced uid items hours (tx_base w)) NoTx
     (S (connects w)) (S (releases w))
     (query_log w ++ [BEGIN; DELETE_schedule_items uid]
        ++ map (insert_statement uid) items
        ++ [UPDATE_daily_focus_hours hours uid; COMMIT])
     (prompts w ++ [build_prompt (body req)])
     (response w ++ [Redirect "/dashboard"])).
Proof.
  intros Hc F T G P N uid hours.
  assert (N' : Forall (fun v => v <> JNull /\ v <> JUndefined) items).
  { pose proof (parse_array_defined _ _ P) as D. rewrite Forall_forall in *.
    intros v Hv. split; [apply N | apply D]; exact Hv. }
  assert (B : refused_when_aborted BEGIN (client_tx w) = false
              /\ accepted BEGIN (db w) (client_tx w) = (db w, InTx (tx_base w))).
  { unfold tx_base. destruct (client_tx w); [split; reflexivity.. | congruence]. }
  destruct B as [B1 B2].
  rewrite schedule_form_unfold, Hc. cbv zeta.
  unfold generate_and_save.
  rewrite bind_run. unfold generateContent. rewrite G.
  rewrite bind_run, P. cbn [or_throw ret].
  rewrite bind_run. cbn [or_throw ret JS.get_length].
  rewrite bind_run. cbn [JS.to_string_throws ret].
  rewrite bind_run, client_query_run; [| apply F | exact B1].
  cbn [client_tx db]. rewrite B2. cbn [fst snd].
  rewrite bind_run, client_query_run; [| apply F | reflexivity].
  cbn [accepted fst snd set_tx set_db log_statement client_tx db Sql.apply].
  rewrite bind_run. cbn [or_throw ret JS.iterate].
  rewrite bind_run. erewrite (insert_loop_run env uid items F N'); [| reflexivity].
  rewrite bind_run, client_query_run; [| apply F | reflexivity].
  cbn [accepted fst snd set_tx set_db log_statement client_tx db Sql.apply].
  rewrite bind_run, client_query_run; [| apply F | reflexivity].
  simpl. unfold replaced. rewrite <- !app_assoc. reflexivity.
Qed.

Lemma filter_twice_none {A : Type} (f : A -> bool) (l : list A) :
  filter f (filter (fun x => negb (f x)) l) = [].
Proof.
  induction l as [|x r IH]; simpl; [reflexivity|].
  destruct (f x) eqn:E; simpl; [exact IH | rewrite E; exact IH].
Qed.

Lemma filter_twice_same {A : Type} (f : A -> bool) (l : list A) :
  filter f (filter f l) = filter f l.
Proof.
  induction l as [|x r IH]; simpl; [reflexivity|].
  destruct (f x) eqn:E; simpl; [rewrite E, IH; reflexivity | exact IH].
Qed.

Lemma schedule_of_replaced uid items hours d :
  schedule_of uid (replaced uid items hours d) = map (row_of uid) items.
Proof.
  unfold schedule_of, replaced; simpl. rewrite filter_app.
  rewrite (filter_twice_none (fun r => (user_id r =? uid)%Z)). simpl.
  induction items as [|x r IH]; simpl; [reflexivity|].
  rewrite Z.eqb_refl, IH. reflexivity.
Qed.

Lemma schedule_of_others_replaced uid items hours d :
  schedule_of_others uid (replaced uid items hours d) = schedule_of_others uid d.
Proof.
  unfold schedule_of_others, replaced; simpl. rewrite filter_app.
  rewrite (filter_twice_same (fun r => negb (user_id r =? uid)%Z)).
  assert (E : filter (fun r => negb (user_id r =? uid)%Z) (map (row_of uid) items) = []).
  { induction items as [|x r IH]; simpl; [reflexivity|]. rewrite Z.eqb_refl. exact IH. }
  rewrite E, app_nil_r. reflexivity.
Qed.

Lemma hours_of_replaced uid items hours d u :
  In u (users (replaced uid items hours d)) -> id u = uid -> daily_focus_hours u = hours.
Proof.
  unfold replaced; simpl. intros Hu Hid. apply in_map_iff in Hu.
  destruct Hu as (u0 & Hu0 & _). destruct (id u0 =? uid)%Z eqn:E.
  - subst u. reflexivity.
  - subst u. apply Z.eqb_neq in E. contradiction.
Qed.

(** C1 (as amended). For an authenticated POST /form whose cleaned answer
    parses as an array of N entries none of which is [null], with every
    database step accepted (the connection, each statement, and no aborted
    transaction left on the client): the committed schedule of the user is
    exactly the rows of the N entries, in array order, nothing of the old
    schedule remains, the rows of other users are those the transaction
    started from, every row of the user in [users] holds the submitted
    [dailytime], and the response is the redirect to the dashboard. *)
Theorem accepted_array_replaces_schedule env req w c text items :
  session env req = Some c ->
  connect_fails env = false ->
  (forall n, query_fails env n = false) ->
  client_tx w <> TxAborted ->
  generate env (build_prompt (body req)) = Some text ->
  Json.parse (clean text) = Some (JArray items) ->
  Forall (fun v => v <> JNull) items ->
  let w' := after (post_form env req) w in
  let uid := claim_id c in
  schedule_of uid (db w') = map (row_of uid) items
  /\ List.length (schedule_of uid (db w')) = List.length items
  /\ schedule_of_others uid (db w') = schedule_of_others uid (tx_base w)
  /\ (forall u, In u (users (db w')) -> id u = uid ->
                daily_focus_hours u = prepareValue (field (body req) "dailytime"))
  /\ response w' = response w ++ [Redirect "/dashboard"].
Proof.
  intros Hs Hc F T G P N. unfold after, post_form.
  rewrite verifyToken_session, Hs.
  rewrite (schedule_form_success env req c w text items Hc F T G P N). simpl.
  rewrite schedule_of_replaced, length_map, schedule_of_others_replaced.
  split; [reflexivity|]. split; [reflexivity|]. split; [reflexivity|].
  split; [|reflexivity].
  intros u Hu Hid. exact (hours_of_replaced (claim_id c) items _ (tx_base w) u Hu Hid).
Qed.

(** The scenario of the specification: one entry, Monday 09:00 to 11:00,
    Math, and two hours a day. *)
Lemma accepted_array_replaces_schedule_witness :
  let w' := after (post_form (env_of (Some monday_math) never) form_request) world0 in
  schedule_of 1 (db w') =
    [mkScheduleItem (txt "Monday") (txt "09:00") (txt "11:00") (txt "Math") 1]
  /\ List.length (schedule_of 1 (db w')) = 1
  /\ schedule_of_others 1 (db w') = schedule_of_others 1 old_db
  /\ (forall u, In u (users (db w')) -> id u = 1%Z -> daily_focus_hours u = txt "2")
  /\ response w' = [Redirect "/dashboard"].
Proof.
  apply (accepted_array_replaces_schedule (env_of (Some monday_math) never)
           form_request world0 alice monday_math
           [JObject [("dayOfWeek", JString "Monday"); ("startTime", JString "09:00");
                     ("endTime", JString "11:00"); ("subject", JString "Math")]]).
  - reflexivity.
  - reflexivity.
  - intros n. reflexivity.
  - discriminate.
  - reflexivity.
  - vm_compute. reflexivity.
  - repeat constructor; discriminate.
Defined.

(** C1 (as stated) fails when an entry is [null]: the answer [[null]] is
    an array of one entry and the engine accepts every statement, yet
    reading [item.dayOfWeek] throws, the transaction is rolled back, and
    Alice has her two old rows and no daily hours. *)
Lemma null_entry_is_not_stored :
  let env := env_of (Some "[null]") never in
  let w' := after (post_form env form_request) world0 in
  session env form_request = Some alice
  /\ generate env (build_prompt (body form_request)) = Some "[null]"
  /\ Json.parse (clean "[null]") = Some (JArray [JNull])
  /\ connect_fails env = false
  /\ (forall n, query_fails env n = false)
  /\ client_tx world0 = NoTx
  /\ List.length (schedule_of 1 (db w')) <> 1
  /\ schedule_of 1 (db w') = schedule_of 1 old_db
  /\ (exists u, In u (users (db w')) /\ id u = 1%Z /\ daily_focus_hours u <> txt "2")
  /\ query_log w' = [BEGIN; DELETE_schedule_items 1; ROLLBACK]
  /\ response w' = [Status 500; Send failure_message].
Proof.
  vm_compute. repeat split; try discriminate.
  eexists. split; [left; reflexivity | split; [reflexivity | discriminate]].
Qed.

(** ** An answer that cannot be used *)

Lemma client_query_throws env st w e w' :
  client_query env st w = (Throw e, w') -> e = DatabaseError.
Proof.
  unfold client_query.
  destruct (query_fails env (List.length (query_log w)) ||
            refused_when_aborted st (client_tx w)).
  - intros H. inversion H. reflexivity.
  - destruct (accepted st (db w) (client_tx w)); discriminate.
Qed.

(** With an answer that is not JSON, or is JSON that cannot be iterated
    ([null], a boolean, a number, an object), the [try] block throws: a
    SyntaxError when the text is not JSON; otherwise a TypeError, or the
    error of the database when it rejects BEGIN or DELETE, which are sent
    before the loop is reached. *)
Lemma generate_and_save_throws env req user w text :
  generate env (build_prompt (body req)) = Some text ->
  Json.parse (clean text) = None
  \/ (exists v, Json.parse (clean text) = Some v /\ JS.iterate v = None) ->
  exists e,
    outcome (generate_and_save env req user) w = Throw e
    /\ (Json.parse (clean text) = None -> e = SyntaxError)
    /\ (Json.parse (clean text) <> None -> e = TypeError \/ e = DatabaseError)
    /\ (Json.parse (clean text) <> None ->
        query_fails env (List.length (query_log w)) = false ->
        query_fails env (S (List.length (query_log w))) = false ->
        client_tx w <> TxAborted ->
        e = TypeError).
Proof.
  intros G U. unfold outcome, generate_and_save.
  rewrite bind_run. unfold generateContent. rewrite G.
  rewrite bind_run. destruct U as [P|(v & P & It)]; rewrite P; cbn [or_throw ret throw].
  - exists SyntaxError. split; [reflexivity|]. split; [reflexivity|].
    split; intros N; destruct (N eq_refl).
  - assert (Ty : forall P1 P2 : Prop,
               (Some v = None -> TypeError = SyntaxError)
               /\ (Some v <> None -> TypeError = TypeError \/ TypeError = DatabaseError)
               /\ (Some v <> None -> P1 -> P2 -> client_tx w <> TxAborted ->
                   TypeError = TypeError)).
    { intros P1 P2. split; [discriminate|]. split; auto. }
    rewrite bind_run. destruct (JS.get_length v) as [len|]; cbn [or_throw ret throw];
      [| exists TypeError; split; [reflexivity | apply Ty] ].
    rewrite bind_run. destruct (JS.to_string_throws len); cbn [ret throw];
      [exists TypeError; split; [reflexivity | apply Ty] |].
    rewrite bind_run.
    match goal with |- context [client_query env BEGIN ?x] => set (w0 := x) end.
    assert (B1 : client_tx w <> TxAborted ->
                 refused_when_aborted BEGIN (client_tx w0) = false)
      by (intros T; unfold w0; simpl; destruct (client_tx w);
          [reflexivity | reflexivity | congruence]).
    destruct (client_query env BEGIN w0) as [[[]|e] w2] eqn:B.
    + rewrite bind_run.
      destruct (client_query env (DELETE_schedule_items (claim_id user)) w2)
        as [[[]|e] w3] eqn:D.
      * rewrite bind_run, It. cbn [or_throw throw].
        exists TypeError. split; [reflexivity | apply Ty].
      * exists e. split; [reflexivity|]. split; [discriminate|].
        pose proof (client_query_throws _ _ _ _ _ D) as ->.
        split; [auto|]. intros _ F0 F1 T. exfalso.
        rewrite client_query_run in B; [| exact F0 | exact (B1 T)].
        injection B as <-.
        rewrite client_query_run in D; [discriminate | |].
        -- unfold w0. simpl. rewrite length_app. simpl.
           replace (List.length (query_log w) + 1) with (S (List.length (query_log w)))
             by lia.
           exact F1.
        -- unfold w0. simpl. destruct (client_tx w); [reflexivity.. | congruence].
    + exists e. split; [reflexivity|]. split; [discriminate|].
      pose proof (client_query_throws _ _ _ _ _ B) as ->.
      split; [auto|]. intros _ F0 F1 T. exfalso.
      rewrite client_query_run in B; [discriminate | exact F0 | exact (B1 T)].
Qed.

(** C3 (as amended). When the cleaned answer of the model is not valid
    JSON, or is JSON that is neither an array nor a string ([null], a
    boolean, a number, an object), the generation step throws: a
    SyntaxError when the text is not JSON; otherwise a TypeError, or the
    database error when the engine rejects BEGIN or DELETE, which are sent
    before the loop (a TypeError for certain when both are accepted and
    the client was not left in an aborted transaction).  Nothing is
    committed and the committed rows are those before the call; the client
    is released, the last statement sent is ROLLBACK, and when the engine
    accepts it the response is the 500 with its message (when it rejects
    it, nothing is sent). *)
Theorem unusable_answer_changes_nothing env req w c text :
  session env req = Some c ->
  connect_fails env = false ->
  generate env (build_prompt (body req)) = Some text ->
  Json.parse (clean text) = None
  \/ (exists v, Json.parse (clean text) = Some v /\ JS.iterate v = None) ->
  let w' := after (post_form env req) w in
  (exists e,
     outcome (generate_and_save env req c) (after (db_connect env) w) = Throw e
     /\ (Json.parse (clean text) = None -> e = SyntaxError)
     /\ (Json.parse (clean text) <> None -> e = TypeError \/ e = DatabaseError)
     /\ (Json.parse (clean text) <> None ->
         query_fails env (List.length (query_log w)) = false ->
         query_fails env (S (List.length (query_log w))) = false ->
         client_tx w <> TxAborted ->
         e = TypeError))
  /\ db w' = db w
  /\ releases w' = S (releases w)
  /\ last (query_log w') BEGIN = ROLLBACK
  /\ (if query_fails env (pred (List.length (query_log w')))
      then response w' = response w
      else outcome (post_form env req) w = Ret tt
           /\ client_tx w' = NoTx
           /\ response w' = response w ++ [Status 500; Send failure_message]).
Proof.
  intros Hs Hc G U. cbv zeta. split.
  { unfold after, db_connect. rewrite Hc. cbn [snd].
    exact (generate_and_save_throws env req c _ text G U). }
  unfold after, outcome, post_form.
  rewrite verifyToken_session, Hs, schedule_form_unfold, Hc. cbv zeta.
  set (w1 := mkWorld (db w) (client_tx w) (S (connects w)) (releases w)
               (query_log w) (prompts w) (response w)).
  pose proof (generate_and_save_throw_keeps_db env req c (db w) w1 eq_refl) as A.
  pose proof (generate_and_save_throw_keeps_response env req c (response w) w1 eq_refl) as C.
  pose proof (pool_generate_and_save w1 env req c w1 (conj eq_refl eq_refl)) as Pl.
  destruct (generate_and_save_throws env req c w1 text G U) as (e & Th & _).
  unfold outcome in Th.
  destruct (generate_and_save env req c w1) as [o w2]. simpl in Th. subst o.
  destruct Pl as [_ Pl].
  pose proof (rollback_and_report_run env w2) as R. unfold after, outcome in R.
  destruct (rollback_and_report env w2) as [o w3]. simpl in R.
  destruct R as (RL & RD & _ & RR & RO).
  assert (L : pred (List.length (query_log w3)) = List.length (query_log w2)).
  { rewrite RL, length_app. simpl. lia. }
  assert (K : db w3 = db w /\ S (releases w3) = S (releases w)
              /\ last (query_log w3) BEGIN = ROLLBACK).
  { split; [congruence|]. split; [rewrite RR, Pl; reflexivity|].
    rewrite RL. apply last_last. }
  destruct K as (K1 & K2 & K3).
  destruct o as [[]|e']; simpl; rewrite L;
    (split; [exact K1|]); (split; [exact K2|]); (split; [exact K3|]);
    destruct (query_fails env (List.length (query_log w2)));
    destruct RO as [RO1 RO2]; try discriminate.
  - destruct RO2 as [T Rs]. rewrite Rs, C. auto.
  - rewrite RO2. exact C.
Qed.

(** The model answers with the number 5: DELETE is sent inside the
    transaction, the loop throws a TypeError, and the rollback restores
    Alice's rows.  When the engine rejects BEGIN, the error thrown is the
    one of the database. *)
Lemma unusable_answer_changes_nothing_witness :
  let env := env_of (Some "5") never in
  let w' := after (post_form env form_request) world0 in
  outcome (generate_and_save env form_request alice) (after (db_connect env) world0)
    = Throw TypeError
  /\ db w' = old_db
  /\ releases w' = 1
  /\ last (query_log w') BEGIN = ROLLBACK
  /\ (if query_fails env (pred (List.length (query_log w')))
      then response w' = []
      else outcome (post_form env form_request) world0 = Ret tt
           /\ client_tx w' = NoTx
           /\ response w' = [Status 500; Send failure_message]).
Proof.
  assert (P : Json.parse (clean "5") = Some (JNumber false 5 0))
    by (vm_compute; reflexivity).
  destruct (unusable_answer_changes_nothing (env_of (Some "5") never) form_request
              world0 alice "5" eq_refl eq_refl eq_refl
              (or_intror (ex_intro _ (JNumber false 5 0) (conj P eq_refl))))
    as ((e & Th & _ & _ & E) & Rest).
  split; [| exact Rest].
  rewrite Th. f_equal. apply E; [rewrite P; discriminate | reflexivity | reflexivity
                                | discriminate].
Defined.

(** The same answer when the engine rejects BEGIN: the error thrown is
    the one of the database, before the loop is reached; the rows are still
    Alice's old ones and the accepted ROLLBACK gives the 500. *)
Example rejected_begin_throws_database_error :
  let env := env_of (Some "5") (fun n => Nat.eqb n 0) in
  let w' := after (post_form env form_request) world0 in
  outcome (generate_and_save env form_request alice) (after (db_connect env) world0)
    = Throw DatabaseError
  /\ query_log w' = [BEGIN; ROLLBACK]
  /\ db w' = old_db
  /\ response w' = [Status 500; Send failure_message].
Proof. vm_compute. repeat split. Qed.

(** C3 (as stated) fails for an answer that is a JSON string, which is
    valid JSON and not an array: the empty string literal parses, the loop
    runs over its no characters, and the transaction commits: Alice's
    schedule is wiped, her daily hours are set, and the response is the
    redirect to the dashboard, not an error. *)
Lemma string_answer_is_committed :
  let answer := q "''" in
  let env := env_of (Some answer) never in
  let w' := after (post_form env form_request) world0 in
  session env form_request = Some alice
  /\ generate env (build_prompt (body form_request)) = Some answer
  /\ Json.parse (clean answer) = Some (JString "")
  /\ outcome (post_form env form_request) world0 = Ret tt
  /\ schedule_of 1 old_db <> []
  /\ schedule_of 1 (db w') = []
  /\ db w' <> old_db
  /\ query_log w' = [BEGIN; DELETE_schedule_items 1;
                     UPDATE_daily_focus_hours (txt "2") 1; COMMIT]
  /\ response w' = [Redirect "/dashboard"].
Proof. vm_compute. repeat split; discriminate. Qed.

(** ** Registration *)

Lemma select_user_by_email_found u d :
  In u (users d) -> Sql.select_user_by_email (email u) d <> [].
Proof.
  unfold Sql.select_user_by_email. intros Hu E.
  assert (Hin : In u (filter (fun x => String.eqb (email x) (email u)) (users d))).
  { apply filter_In. split; [exact Hu | apply String.eqb_refl]. }
  rewrite E in Hin. exact Hin.
Qed.

Lemma select_user_by_email_none mail d :
  (forall u, In u (users d) -> email u <> mail) ->
  Sql.select_user_by_email mail d = [].
Proof.
  unfold Sql.select_user_by_email. intros H.
  induction (users d) as [|x r IH]; simpl; [reflexivity|].
  destruct (String.eqb (email x) mail) eqn:E.
  - apply String.eqb_eq in E. exfalso. apply (H x); [left; reflexivity | exact E].
  - apply IH. intros u Hu. apply H. right. exact Hu.
Qed.

Lemma truthy_text s : s <> EmptyString -> JS.truthy (JString s) = true.
Proof.
  intros H. simpl. destruct (String.eqb s EmptyString) eqn:E; [|reflexivity].
  apply String.eqb_eq in E. contradiction.
Qed.

(** With an address that is taken, registration answers with the form
    and an error, and stores nothing. *)
Lemma register_taken env req w u :
  In u (users (db w)) ->
  field (body req) "email" = JString (email u) ->
  let w' := after (post_register env req) w in
  db w' = db w
  /\ exists message,
       response w' = response w ++ [Render "auth.ejs" (ErrorLocals (Some message))]
       /\ (JS.truthy (field (body req) "name") = true ->
           JS.truthy (field (body req) "password") = true ->
           email u <> EmptyString ->
           query_fails env (List.length (query_log w)) = false ->
           message = "User with this email already exists.").
Proof.
  intros Hu Hm. unfold after, post_register. rewrite Hm.
  destruct (JS.truthy (field (body req) "name")) eqn:Tn; simpl;
    [| split; [reflexivity | eexists; split; [reflexivity | discriminate]]].
  destruct (String.eqb (email u) EmptyString) eqn:Te; simpl.
  { split; [reflexivity|]. eexists; split; [reflexivity|].
    intros _ _ Hne. apply String.eqb_eq in Te. contradiction. }
  destruct (JS.truthy (field (body req) "password")) eqn:Tp; simpl;
    [| split; [reflexivity | eexists; split; [reflexivity | discriminate]]].
  unfold try_catch. rewrite bind_run. unfold db_query.
  destruct (query_fails env (List.length (query_log w))) eqn:F; simpl.
  - split; [reflexivity|]. eexists; split; [reflexivity | discriminate].
  - destruct (Sql.select_user_by_email (email u) (db w)) as [|x r] eqn:S.
    + exfalso. exact (select_user_by_email_found u (db w) Hu S).
    + simpl. split; [reflexivity|]. eexists; split; reflexivity.
Qed.

(** With three fields that are not empty, an address that is free, both
    statements accepted and a signing secret, registration stores the user
    with the bcrypt hash of the password and sets the session cookie. *)
Lemma register_fresh env req w uname mail pass k :
  field (body req) "name" = JString uname -> uname <> EmptyString ->
  field (body req) "email" = JString mail -> mail <> EmptyString ->
  field (body req) "password" = JString pass -> pass <> EmptyString ->
  (forall u, In u (users (db w)) -> email u <> mail) ->
  (forall n, query_fails env n = false) ->
  JWT_SECRET env = Some k -> k <> EmptyString ->
  let w' := after (post_register env req) w in
  let row := mkUser (users_id_seq (db w)) uname mail
               (bcrypt_hash (bcrypt_salt env) pass 10) SqlNull in
  users (db w') = users (db w) ++ [row]
  /\ password row <> OtherText pass
  /\ response w' =
     response w ++
       [SetCookie "token"
          (Signed k (mkClaims (id row) uname (now env) (now env + Jwt.one_day)))
          (cookie_options env);
        Redirect "/form"].
Proof.
  intros Hn Nn Hm Nm Hp Np Free F Hk Nk. unfold after, post_register.
  rewrite Hn, Hm, Hp, !truthy_text by assumption. cbn [negb orb show].
  unfold try_catch. rewrite bind_run. unfold db_query. rewrite F. rewrite (select_user_by_email_none mail (db w) Free).
  rewrite bind_run. cbn [await or_throw ret].
  rewrite bind_run, F. rewrite bind_run. cbn [await or_throw ret].
  rewrite bind_run. unfold Jwt.sign. rewrite Hk.
  destruct (String.eqb k EmptyString) eqn:Ek;
    [apply String.eqb_eq in Ek; contradiction|].
  cbn [or_throw ret]. simpl.
  split; [reflexivity|]. split; [discriminate|].
  rewrite <- app_assoc. reflexivity.
Qed.

(** C6 (as amended). POST /register with an address that is already in
    [users] answers with the form and an error message (the one about the
    existing user when name and password are given and the lookup is
    accepted), sets no cookie and stores no row.  With an address that is
    free, when name, address and password are all given and not empty,
    both statements are accepted and a signing secret is configured, it
    stores one new row whose password is the salted bcrypt hash, not the
    text, and sets a session cookie for the new user that expires in a
    day. *)
Theorem register_stores_hash_or_rejects_duplicate env req w :
  let w' := after (post_register env req) w in
  (forall u,
      In u (users (db w)) ->
      field (body req) "email" = JString (email u) ->
      db w' = db w
      /\ exists message,
           response w' = response w ++ [Render "auth.ejs" (ErrorLocals (Some message))]
           /\ (JS.truthy (field (body req) "name") = true ->
               JS.truthy (field (body req) "password") = true ->
               email u <> EmptyString ->
               query_fails env (List.length (query_log w)) = false ->
               message = "User with this email already exists."))
  /\ (forall uname mail pass k,
        field (body req) "name" = JString uname -> uname <> EmptyString ->
        field (body req) "email" = JString mail -> mail <> EmptyString ->
        field (body req) "password" = JString pass -> pass <> EmptyString ->
        (forall u, In u (users (db w)) -> email u <> mail) ->
        (forall n, query_fails env n = false) ->
        JWT_SECRET env = Some k -> k <> EmptyString ->
        let row := mkUser (users_id_seq (db w)) uname mail
                     (bcrypt_hash (bcrypt_salt env) pass 10) SqlNull in
        users (db w') = users (db w) ++ [row]
        /\ password row <> OtherText pass
        /\ response w' =
           response w ++
             [SetCookie "token"
                (Signed k (mkClaims (id row) uname (now env) (now env + Jwt.one_day)))
                (cookie_options env);
              Redirect "/form"]).
Proof.
  split.
  - intros u Hu Hm. exact (register_taken env req w u Hu Hm).
  - intros uname mail pass k. apply register_fresh.
Qed.

(** Alice's address again, and Carol's new one. *)
Lemma register_stores_hash_or_rejects_duplicate_witness :
  (db (after (post_register (env_of None never) alice_again_form) world0) = old_db
   /\ exists message,
        response (after (post_register (env_of None never) alice_again_form) world0) =
          [Render "auth.ejs" (ErrorLocals (Some message))]
        /\ (true = true -> true = true -> "alice@example.org" <> EmptyString ->
            false = false -> message = "User with this email already exists."))
  /\ (users (db (after (post_register (env_of None never) carol_form) world0)) =
        users old_db ++
          [mkUser 3 "Carol" "carol@example.org" (BcryptHash 10 "salt" "pw") SqlNull]
      /\ BcryptHash 10 "salt" "pw" <> OtherText "pw"
      /\ response (after (post_register (env_of None never) carol_form) world0) =
           [SetCookie "token" (Signed secret (mkClaims 3 "Carol" 2000 (2000 + Jwt.one_day)))
              (mkCookieOptions true false "Strict");
            Redirect "/form"]).
Proof.
  split.
  - apply (proj1 (register_stores_hash_or_rejects_duplicate
                    (env_of None never) alice_again_form world0)
             (mkUser 1 "Alice" "alice@example.org" (bcrypt_hash "salt" "wonderland" 10) SqlNull)).
    + left. reflexivity.
    + reflexivity.
  - apply (proj2 (register_stores_hash_or_rejects_duplicate
                    (env_of None never) carol_form world0)
             "Carol" "carol@example.org" "pw" secret);
      try reflexivity; try discriminate.
    intros u [<-|[<-|[]]]; discriminate.
Defined.

(** C6 (as stated) fails for a request without a name: the address is
    free, yet no row is stored and no cookie is set. *)
Lemma register_without_name_stores_nothing :
  let w' := after (post_register (env_of None never) nameless_form) world0 in
  (forall u, In u (users (db world0)) -> JString (email u) <> field (body nameless_form) "email")
  /\ users (db w') = users (db world0)
  /\ response w' = [Render "auth.ejs" (ErrorLocals (Some "All fields are required."))].
Proof.
  vm_compute. repeat split. intros u [<-|[<-|[]]]; discriminate.
Qed.

(** ** The dashboard *)

Section Sorting.

Context {A : Type} (leb : A -> A -> bool).
Hypothesis leb_total : forall a b, leb a b = true \/ leb b a = true.

Lemma insert_by_perm x l : Permutation (Sql.insert_by leb x l) (x :: l).
Proof.
  induction l as [|y r IH]; simpl; [apply Permutation_refl|].
  destruct (leb x y); [apply Permutation_refl|].
  apply perm_trans with (y :: x :: r); [apply perm_skip; exact IH | apply perm_swap].
Qed.

Lemma sort_by_perm l : Permutation (Sql.sort_by leb l) l.
Proof.
  induction l as [|x r IH]; simpl; [apply perm_nil|].
  apply perm_trans with (x :: Sql.sort_by leb r);
    [apply insert_by_perm | apply perm_skip; exact IH].
Qed.

Lemma insert_by_hd x y l :
  ordered_by leb y x -> HdRel (ordered_by leb) y l ->
  HdRel (ordered_by leb) y (Sql.insert_by leb x l).
Proof.
  intros Hyx H. destruct l as [|z r]; simpl.
  - constructor. exact Hyx.
  - destruct (leb x z); constructor; [exact Hyx | inversion H; assumption].
Qed.

Lemma insert_by_sorted x l :
  Sorted (ordered_by leb) l -> Sorted (ordered_by leb) (Sql.insert_by leb x l).
Proof.
  induction 1 as [|y r Hr IH Hy]; simpl.
  - repeat constructor.
  - destruct (leb x y) eqn:E.
    + constructor; [constructor; assumption | constructor; exact E].
    + constructor; [exact IH|].
      apply insert_by_hd; [|exact Hy].
      destruct (leb_total x y) as [H|H]; [congruence | exact H].
Qed.

Lemma sort_by_sorted l : Sorted (ordered_by leb) (Sql.sort_by leb l).
Proof.
  induction l as [|x r IH]; simpl; [constructor | apply insert_by_sorted; exact IH].
Qed.

End Sorting.

Lemma schedule_leb_order env a b :
  Sql.schedule_leb (time_leb env) a b = true <-> schedule_order env a b.
Proof.
  unfold Sql.schedule_leb, schedule_order.
  rewrite orb_true_iff, andb_true_iff, Nat.ltb_lt, Nat.eqb_eq. reflexivity.
Qed.

Lemma schedule_leb_total env :
  (forall a b, time_leb env a b = true \/ time_leb env b a = true) ->
  forall a b, Sql.schedule_leb (time_leb env) a b = true
              \/ Sql.schedule_leb (time_leb env) b a = true.
Proof.
  intros T a b. rewrite !schedule_leb_order. unfold schedule_order.
  destruct (Nat.lt_total (Sql.day_rank (day_of_week a)) (Sql.day_rank (day_of_week b)))
    as [H|[H|H]]; [left; left; exact H | | right; left; exact H].
  destruct (T (start_time a) (start_time b)) as [H'|H'].
  - left. right. split; assumption.
  - right. right. split; [symmetry; exact H | exact H'].
Qed.

Lemma select_schedule_items_sorted env uid d :
  (forall a b, time_leb env a b = true \/ time_leb env b a = true) ->
  Sorted (schedule_order env) (Sql.select_schedule_items (time_leb env) uid d)
  /\ Permutation (Sql.select_schedule_items (time_leb env) uid d) (schedule_of uid d).
Proof.
  intros T. unfold Sql.select_schedule_items, schedule_of. split.
  - pose proof (sort_by_sorted (Sql.schedule_leb (time_leb env)) (schedule_leb_total env T)
                  (filter (fun r => (user_id r =? uid)%Z) (schedule_items d))) as S.
    induction S as [|x l Hl IH Hx]; constructor; [exact IH|].
    destruct Hx; constructor. apply schedule_leb_order. assumption.
  - apply sort_by_perm.
Qed.

Lemma select_user_none uid d :
  (forall u, In u (users d) -> id u <> uid) -> Sql.select_user uid d = [].
Proof.
  unfold Sql.select_user. intros H.
  induction (users d) as [|x r IH]; simpl; [reflexivity|].
  destruct (id x =? uid)%Z eqn:E.
  - apply Z.eqb_eq in E. exfalso. apply (H x); [left; reflexivity | exact E].
  - apply IH. intros u Hu. apply H. right. exact Hu.
Qed.

Lemma select_user_some uid d u :
  In u (users d) -> id u = uid ->
  exists x r, Sql.select_user uid d = x :: r /\ In x (users d) /\ id x = uid.
Proof.
  unfold Sql.select_user. intros Hu Hid.
  destruct (filter (fun u0 => (id u0 =? uid)%Z) (users d)) as [|x r] eqn:E.
  - exfalso. assert (Hin : In u (filter (fun u0 => (id u0 =? uid)%Z) (users d))).
    { apply filter_In. split; [exact Hu | apply Z.eqb_eq; exact Hid]. }
    rewrite E in Hin. exact Hin.
  - exists x, r. split; [reflexivity|].
    assert (Hin : In x (filter (fun u0 => (id u0 =? uid)%Z) (users d)))
      by (rewrite E; left; reflexivity).
    apply filter_In in Hin. destruct Hin as [H1 H2]. apply Z.eqb_eq in H2. auto.
Qed.

(** The run of the dashboard handler when its three queries are accepted. *)
Lemma dashboard_run env c w :
  (forall n, List.length (query_log w) <= n < List.length (query_log w) + 3 ->
             query_fails env n = false) ->
  let uid := claim_id c in
  dashboard env c w =
  (Ret tt,
   mkWorld (db w) (client_tx w) (connects w) (releases w)
     (query_log w ++ [SELECT_user uid; SELECT_schedule_items uid; SELECT_user_streak uid])
     (prompts w)
     (response w ++
        [match Sql.select_user uid (db w) with
         | [] => Redirect "/"
         | userData :: _ =>
             Render "index.ejs"
               (DashboardLocals
                  (mkDashboard (name userData)
                     (Sql.select_schedule_items (time_leb env) uid (db w))
                     (focusedTimeDisplay (daily_focus_hours userData))
                     (fst (streakData (Sql.select_user_streak uid (db w))))
                     (snd (streakData (Sql.select_user_streak uid (db w))))
                     "Planning is the first step to success!"))
         end])).
Proof.
  intros F uid. subst uid. unfold dashboard, try_catch.
  rewrite bind_run. unfold db_query at 1. rewrite F by lia.
  rewrite bind_run. unfold db_query at 1. cbn [query_log log_statement set_db].
  rewrite length_app, F by (simpl; lia).
  rewrite bind_run. unfold db_query at 1. cbn [query_log log_statement set_db].
  rewrite !length_app, F by (simpl; lia).
  rewrite bind_run. cbn [Promise_all3 ret]. cbn [Sql.apply db set_db log_statement].
  destruct (Sql.select_user (claim_id c) (db w)) as [|userData r]; simpl;
    [| destruct (streakData _)]; simpl; rewrite <- !app_assoc; reflexivity.
Qed.

Lemma select_user_streak_none uid d :
  (forall r, In r (user_streaks d) -> streak_user_id r <> uid) ->
  Sql.select_user_streak uid d = [].
Proof.
  unfold Sql.select_user_streak. intros H.
  induction (user_streaks d) as [|x r IH]; simpl; [reflexivity|].
  destruct (streak_user_id x =? uid)%Z eqn:E.
  - apply Z.eqb_eq in E. exfalso. apply (H x); [left; reflexivity | exact E].
  - apply IH. intros u Hu. apply H. right. exact Hu.
Qed.

(** Whatever the engine rejects, the dashboard of a user without a row in
    [users] is never rendered: the answer is the redirect or the 500. *)
Lemma no_user_no_page env c w :
  (forall u, In u (users (db w)) -> id u <> claim_id c) ->
  exists actions,
    response (after (dashboard env c) w) = response w ++ actions
    /\ (actions = [Redirect "/"]
        \/ actions = [Status 500; Send "Error loading dashboard."]).
Proof.
  intros H. unfold after, dashboard, try_catch.
  rewrite bind_run. unfold db_query at 1.
  destruct (query_fails env (List.length (query_log w)));
    rewrite bind_run; unfold db_query at 1; cbn [query_log log_statement set_db];
    destruct (query_fails env _);
    rewrite bind_run; unfold db_query at 1; cbn [query_log log_statement set_db];
    destruct (query_fails env _);
    rewrite bind_run; cbn [Promise_all3 ret throw];
    cbn [Sql.apply db set_db log_statement];
    try rewrite (select_user_none _ _ H); simpl;
    rewrite <- ?app_assoc; eexists; split; try reflexivity; auto.
Qed.

Lemma text_order_total a b : text_order a b = true \/ text_order b a = true.
Proof.
  destruct a as [|[]], b as [|[]]; simpl; auto. apply String.leb_total.
Qed.

Lemma db_query_read_keeps_db {R : Type} d0 env st (result : Database -> R) :
  Sql.is_write st = false ->
  keeps (fun w => db w = d0) (db_query env st result).
Proof.
  intros Hst w H. unfold db_query.
  destruct (query_fails env (List.length (query_log w))); simpl; [exact H|].
  destruct st; try discriminate; exact H.
Qed.

Lemma dashboard_keeps_db d0 env c : keeps (fun w => db w = d0) (dashboard env c).
Proof.
  unfold dashboard, render, redirect.
  walk ltac:(first [ apply db_query_read_keeps_db; reflexivity | apply db_respond ]).
Qed.

(** C7 (as amended). GET /dashboard with a session, for any total order on the
    [start_time] column: the stored rows are untouched.  When no row of
    [users] has the id of the session, no page is rendered: the response is
    the redirect to [/], or the 500 when a query is rejected.  When the
    three queries are accepted and there is such a row, the page
    [index.ejs] is rendered for a user with that id, with that user's
    schedule rows (a permutation of them) sorted by the rank of the day,
    Monday 1 to Saturday 6 and 7 for any other value, and then by start
    time; without a row in [user_streaks] both streak counters are 0, and
    with one they are those of the first row. *)
Theorem dashboard_read_model env req w c :
  session env req = Some c ->
  (forall a b, time_leb env a b = true \/ time_leb env b a = true) ->
  let w' := after (get_dashboard env req) w in
  let uid := claim_id c in
  let accepted :=
    forall n, List.length (query_log w) <= n < List.length (query_log w) + 3 ->
              query_fails env n = false in
  db w' = db w
  /\ map Sql.day_rank
       (map (fun s => SqlVal (JString s))
          ["Monday"; "Tuesday"; "Wednesday"; "Thursday"; "Friday"; "Saturday"; "Sunday"])
     = [1; 2; 3; 4; 5; 6; 7]
  /\ ((forall u, In u (users (db w)) -> id u <> uid) ->
      exists actions,
        response w' = response w ++ actions
        /\ (actions = [Redirect "/"]
            \/ actions = [Status 500; Send "Error loading dashboard."])
        /\ (accepted -> actions = [Redirect "/"]))
  /\ (accepted ->
      (exists u, In u (users (db w)) /\ id u = uid) ->
      exists d u,
        response w' = response w ++ [Render "index.ejs" (DashboardLocals d)]
        /\ In u (users (db w)) /\ id u = uid /\ dash_name d = name u
        /\ Permutation (dash_scheduleItems d) (schedule_of uid (db w))
        /\ Sorted (schedule_order env) (dash_scheduleItems d)
        /\ ((forall r, In r (user_streaks (db w)) -> streak_user_id r <> uid) ->
            dash_streak_count d = 0%Z /\ dash_longest_streak d = 0%Z)
        /\ (forall r rest, Sql.select_user_streak uid (db w) = r :: rest ->
            dash_streak_count d = streak_count r
            /\ dash_longest_streak d = longest_streak r)).
Proof.
  intros Hs T. unfold after, get_dashboard.
  rewrite verifyToken_session, Hs. cbv zeta.
  split; [exact (keeps_after _ _ w (dashboard_keeps_db (db w) env c) eq_refl)|].
  split; [reflexivity|]. split.
  - intros H. destruct (no_user_no_page env c w H) as (actions & R & S).
    exists actions. split; [exact R|]. split; [exact S|].
    intros F. unfold after in R. rewrite (dashboard_run env c w F) in R. simpl in R.
    rewrite (select_user_none _ _ H) in R. apply app_inv_head in R. symmetry. exact R.
  - intros F (u & Hu & Hid). rewrite (dashboard_run env c w F). simpl.
    destruct (select_user_some _ _ u Hu Hid) as (x & r & E & Hx & Hxid).
    rewrite E. eexists. exists x. split; [reflexivity|]. simpl.
    destruct (select_schedule_items_sorted env (claim_id c) (db w) T) as [S P].
    repeat (split; [assumption || reflexivity |]). split.
    + intros H. rewrite (select_user_streak_none _ _ H). split; reflexivity.
    + intros r0 rest E0. rewrite E0. split; reflexivity.
Qed.

(** Alice's dashboard: her Monday row comes before her Friday row. *)
Lemma dashboard_read_model_witness :
  let env := env_of None never in
  let w' := after (get_dashboard env form_request) world0 in
  let accepted := forall n, 0 <= n < 3 -> query_fails env n = false in
  db w' = old_db
  /\ map Sql.day_rank
       (map (fun s => SqlVal (JString s))
          ["Monday"; "Tuesday"; "Wednesday"; "Thursday"; "Friday"; "Saturday"; "Sunday"])
     = [1; 2; 3; 4; 5; 6; 7]
  /\ ((forall u, In u (users old_db) -> id u <> 1%Z) ->
      exists actions,
        response w' = actions
        /\ (actions = [Redirect "/"]
            \/ actions = [Status 500; Send "Error loading dashboard."])
        /\ (accepted -> actions = [Redirect "/"]))
  /\ (accepted ->
      (exists u, In u (users old_db) /\ id u = 1%Z) ->
      exists d u,
        response w' = [Render "index.ejs" (DashboardLocals d)]
        /\ In u (users old_db) /\ id u = 1%Z /\ dash_name d = name u
        /\ Permutation (dash_scheduleItems d) (schedule_of 1 old_db)
        /\ Sorted (schedule_order env) (dash_scheduleItems d)
        /\ ((forall r, In r (user_streaks old_db) -> streak_user_id r <> 1%Z) ->
            dash_streak_count d = 0%Z /\ dash_longest_streak d = 0%Z)
        /\ (forall r rest, Sql.select_user_streak 1 old_db = r :: rest ->
            dash_streak_count d = streak_count r
            /\ dash_longest_streak d = longest_streak r)).
Proof.
  apply (dashboard_read_model (env_of None never) form_request world0 alice).
  - reflexivity.
  - exact text_order_total.
Defined.

(** C7 (as stated) fails when a query is rejected: user 9 has a valid
    session and no row in [users]; the lookup in [users] is accepted and
    finds nothing, but the query on [user_streaks] is rejected, and the
    response is the 500, not a redirect. *)
Lemma rejected_query_is_not_redirected :
  let env := env_of None (fun n => Nat.eqb n 2) in
  let w' := after (get_dashboard env zed_request) world0 in
  session env zed_request = Some (mkClaims 9 "Zed" 1000 (1000 + Jwt.one_day))
  /\ (forall u, In u (users (db world0)) -> id u <> 9%Z)
  /\ query_fails env 0 = false
  /\ query_log w' = [SELECT_user 9; SELECT_schedule_items 9; SELECT_user_streak 9]
  /\ response w' = [Status 500; Send "Error loading dashboard."]
  /\ ~ In (Redirect "/") (response w').
Proof.
  vm_compute. repeat split; try discriminate.
  - intros u [<-|[<-|[]]]; discriminate.
  - intros [H|[H|[]]]; discriminate.
Qed.

(** The rows Alice sees, in the order she sees them. *)
Example alice_dashboard :
  response (after (get_dashboard (env_of None never) form_request) world0) =
  [Render "index.ejs"
     (DashboardLocals
        (mkDashboard "Alice"
           [ mkScheduleItem (txt "Monday") (txt "14:00") (txt "15:00") (txt "Art") 1;
             mkScheduleItem (txt "Friday") (txt "10:00") (txt "11:00") (txt "History") 1 ]
           NotAvailable 0 0 "Planning is the first step to success!"))].
Proof. vm_compute. reflexivity. Qed.

(** ** What the server answers, and what the browser script makes of it *)

Lemma pages_respond a : page_or_redirect a -> keeps pages_only (respond a).
Proof.
  intros Ha w H. simpl. unfold pages_only; simpl.
  apply Forall_app. split; [exact H | constructor; [exact Ha | constructor]].
Qed.

Lemma pages_db_query {R : Type} env st (result : Database -> R) :
  keeps pages_only (db_query env st result).
Proof. prim; exact H. Qed.

Lemma pages_client_query env st : keeps pages_only (client_query env st).
Proof. prim; exact H. Qed.

Lemma pages_generateContent env p : keeps pages_only (generateContent env p).
Proof. prim; exact H. Qed.

Lemma pages_db_connect env : keeps pages_only (db_connect env).
Proof. unfold db_connect. prim; exact H. Qed.

Lemma pages_client_release : keeps pages_only client_release.
Proof. unfold client_release. prim; exact H. Qed.

Ltac pages_leaf :=
  first [ apply pages_db_query | apply pages_client_query | apply pages_generateContent
        | apply pages_db_connect | apply pages_client_release
        | apply pages_respond; simpl; auto ].

Lemma pages_verifyToken env req next :
  (forall c, keeps pages_only (next c)) -> keeps pages_only (verifyToken env req next).
Proof.
  intros H. unfold verifyToken, redirect. walk ltac:(first [apply H | pages_leaf]).
Qed.

(** Every route answers with pages and redirects only. *)
Lemma pages_route env m path req h :
  route env m path req = Some h -> keeps pages_only h.
Proof.
  unfold route. destruct m;
    repeat match goal with
           | |- context [if ?c then _ else _] => destruct c
           end;
    intros E; inversion E; subst h; clear E;
    unfold get_root, get_form, get_dashboard, get_logout, post_form,
      post_register, post_login;
    try (apply pages_verifyToken; intros c);
    unfold form_page, dashboard, schedule_form, try_catch_finally,
      rollback_and_report, generate_and_save, insert_item, auth_error, render, redirect;
    walk pages_leaf.
Qed.

Lemma final_action_in l a : Client.final_action l = Some a -> In a l.
Proof.
  induction l as [|x r IH]; simpl; [discriminate|].
  destruct (Client.final_action r) as [b|].
  - intros E; inversion E; subst. right. apply IH. reflexivity.
  - destruct x; intros E; inversion E; subst; left; reflexivity.
Qed.

Lemma fetch_not_json env :
  (forall view locals, Json.parse (render_view env view locals) = None) ->
  forall fuel m path req w, not_json (fst (Client.fetch fuel env m path req w)).
Proof.
  intros Hv. induction fuel as [|f IH]; intros m path req w; simpl;
    destruct (route env m path req) as [h|] eqn:R; simpl; auto;
    pose proof (pages_route env m path req h R (Client.fresh_response w)
                  (Forall_nil _)) as P;
    destruct (h (Client.fresh_response w)) as [[[]|e] w']; simpl; auto;
    destruct (Client.final_action (response w')) as [a|] eqn:Fa; simpl; auto;
    apply final_action_in in Fa; unfold pages_only in P;
    rewrite Forall_forall in P; specialize (P a Fa);
    destruct a; simpl in *; auto;
    try (destruct P as [->| ->]; vm_compute; reflexivity).
Qed.

Lemma not_json_effect r :
  not_json r -> Client.on_response r = Client.AlertError \/ Client.on_response r = Client.NoEffect.
Proof.
  destruct r as [[text|v]| |]; simpl; auto; [| intros []].
  intros H. rewrite H. auto.
Qed.

(** The answers of POST /login and POST /register: the form with an error,
    or the session cookie and a redirect; the handler never throws. *)
Lemma login_register_answer env req w h :
  In h [post_login env req; post_register env req] ->
  outcome h w = Ret tt
  /\ exists actions,
       response (after h w) = response w ++ actions
       /\ ((exists message, actions = [Render "auth.ejs" (ErrorLocals (Some message))])
           \/ (exists token url,
                actions = [SetCookie "token" token (cookie_options env); Redirect url]
                /\ (url = "/form" \/ url = "/dashboard"))).
Proof.
  intros Hh. simpl in Hh. destruct Hh as [<-|[<-|[]]];
    unfold outcome, after, post_login, post_register, try_catch, auth_error,
      render, redirect;
    repeat first
      [ rewrite bind_run
      | progress unfold db_query, await
      | progress cbn [or_throw ret throw fst snd respond response log_statement set_db]
      | match goal with
        | |- context [if ?c then _ else _] => destruct c
        | |- context [match Sql.select_user_by_email ?m ?d with _ => _ end] =>
            destruct (Sql.select_user_by_email m d)
        | |- context [or_throw _ (Jwt.sign ?a ?b ?c ?d)] =>
            destruct (Jwt.sign a b c d)
        end ];
    (split; [reflexivity|]);
    eexists; (split; [rewrite <- ?app_assoc; reflexivity|]);
    first [ left; eexists; reflexivity
          | right; do 2 eexists; split; [reflexivity | auto] ].
Qed.

(** C9. Whatever POST /login and POST /register are sent and however they
    end, the handler returns and its response is the page [auth.ejs] with
    an error message, or the session cookie followed by a redirect to
    [/form] or [/dashboard]: never a JSON body, with or without a [token].
    So, the views rendering pages that are not JSON, the script [auth]
    never takes its success branch against these routes: it stores no
    token and does not navigate. *)
Theorem login_and_register_answer_with_pages env req w h jar path :
  (forall view locals, Json.parse (render_view env view locals) = None) ->
  In h [post_login env req; post_register env req] ->
  In path ["/login"; "/register"] ->
  (outcome h w = Ret tt
   /\ exists actions,
        response (after h w) = response w ++ actions
        /\ Forall (fun a => forall v, a <> SendJson v) actions
        /\ ((exists message, actions = [Render "auth.ejs" (ErrorLocals (Some message))])
            \/ (exists token url,
                 actions = [SetCookie "token" token (cookie_options env); Redirect url]
                 /\ (url = "/form" \/ url = "/dashboard"))))
  /\ (forall token,
        fst (Client.auth env path jar w) <> Client.StoreTokenAndNavigate token).
Proof.
  intros Hv Hh Hp. split.
  - destruct (login_register_answer env req w h Hh) as (O & actions & R & S).
    split; [exact O|]. exists actions. split; [exact R|]. split; [|exact S].
    destruct S as [(m & ->)|(t & u & -> & _)]; repeat constructor; discriminate.
  - intros token. unfold Client.auth.
    pose proof (fetch_not_json env Hv 20 POST path (mkRequest jar []) w) as N.
    destruct (Client.fetch 20 env POST path (mkRequest jar []) w) as [r w'].
    simpl in *. destruct (not_json_effect r N) as [E|E]; rewrite E; discriminate.
Qed.

Lemma html_views_not_json view locals : Json.parse (html_views view locals) = None.
Proof. reflexivity. Qed.

(** Alice logs in with the right password: the cookie is set and she is
    redirected; the script, which posts JSON, is shown the form again and
    alerts. *)
Lemma login_and_register_answer_with_pages_witness :
  let env := env_of None never in
  let req := mkRequest None [("email", "alice@example.org"); ("password", "wonderland")] in
  (outcome (post_login env req) world0 = Ret tt
   /\ exists actions,
        response (after (post_login env req) world0) = response world0 ++ actions
        /\ Forall (fun a => forall v, a <> SendJson v) actions
        /\ ((exists message, actions = [Render "auth.ejs" (ErrorLocals (Some message))])
            \/ (exists token url,
                 actions = [SetCookie "token" token (cookie_options env); Redirect url]
                 /\ (url = "/form" \/ url = "/dashboard"))))
  /\ (forall token,
        fst (Client.auth env "/login" None world0) <> Client.StoreTokenAndNavigate token).
Proof.
  apply (login_and_register_answer_with_pages (env_of None never)
           (mkRequest None [("email", "alice@example.org"); ("password", "wonderland")])
           world0).
  - exact html_views_not_json.
  - left. reflexivity.
  - left. reflexivity.
Defined.

Example script_is_shown_the_form :
  fst (Client.auth (env_of None never) "/login" None world0) = Client.AlertError
  /\ response (snd (Client.auth (env_of None never) "/login" None world0)) =
     [Render "auth.ejs" (ErrorLocals (Some "Email and password are required."))].
Proof. vm_compute. split; reflexivity. Qed.

(** * Further properties of the server *)

(** ** Signing in *)

(** The run of POST /login once both fields are given and the lookup is
    accepted. *)
Lemma post_login_run env req w mail pass :
  field (body req) "email" = JString mail -> mail <> EmptyString ->
  field (body req) "password" = JString pass -> pass <> EmptyString ->
  query_fails env (List.length (query_log w)) = false ->
  post_login env req w =
  (Ret tt,
   mkWorld (db w) (client_tx w) (connects w) (releases w)
     (query_log w ++ [SELECT_user_by_email mail]) (prompts w)
     (response w ++
        match Sql.select_user_by_email mail (db w) with
        | [] => [Render "auth.ejs" (ErrorLocals (Some "User not found."))]
        | user :: _ =>
            if bcrypt_compare pass (password user)
            then
              match Jwt.sign (id user) (name user) (JWT_SECRET env) (now env) with
              | Some token =>
                  [SetCookie "token" token (cookie_options env); Redirect "/dashboard"]
              | None =>
                  [Render "auth.ejs"
                     (ErrorLocals (Some "An internal server error occurred."))]
              end
            else [Render "auth.ejs" (ErrorLocals (Some "Incorrect password."))]
        end)).
Proof.
  intros Hm Nm Hp Np F. unfold post_login.
  rewrite Hm, Hp, !truthy_text by assumption. cbn [negb orb show].
  unfold try_catch. rewrite bind_run. unfold db_query. rewrite F.
  rewrite bind_run. cbn [await or_throw ret].
  cbn [Sql.apply set_db log_statement db client_tx connects releases query_log
         prompts response].
  destruct (Sql.select_user_by_email mail (db w)) as [|user rest]; [reflexivity|].
  destruct (bcrypt_compare pass (password user)); cbn [negb]; [|reflexivity].
  rewrite bind_run.
  destruct (Jwt.sign (id user) (name user) (JWT_SECRET env) (now env)) as [token|];
    cbn [or_throw ret throw]; [|reflexivity].
  simpl. rewrite <- app_assoc. reflexivity.
Qed.

(** X1. POST /login with the address of a stored user and a password whose
    bcrypt key is the stored one: the response sets the cookie [token] to a
    token with the id and name of that user, signed now and expiring in a
    day, then redirects to [/dashboard]; the stored rows are untouched. *)
Theorem login_sets_session_cookie env req w mail pass k user rest :
  field (body req) "email" = JString mail -> mail <> EmptyString ->
  field (body req) "password" = JString pass -> pass <> EmptyString ->
  query_fails env (List.length (query_log w)) = false ->
  Sql.select_user_by_email mail (db w) = user :: rest ->
  bcrypt_compare pass (password user) = true ->
  JWT_SECRET env = Some k -> k <> EmptyString ->
  let w' := after (post_login env req) w in
  db w' = db w
  /\ response w' =
     response w ++
       [SetCookie "token"
          (Signed k (mkClaims (id user) (name user) (now env) (now env + Jwt.one_day)))
          (mkCookieOptions true (production env) "Strict");
        Redirect "/dashboard"].
Proof.
  intros Hm Nm Hp Np F S C Hk Nk. unfold after.
  rewrite (post_login_run env req w mail pass Hm Nm Hp Np F), S, C. simpl.
  unfold Jwt.sign. rewrite Hk.
  destruct (String.eqb k EmptyString) eqn:E;
    [apply String.eqb_eq in E; contradiction|].
  split; reflexivity.
Qed.

Lemma login_sets_session_cookie_witness :
  let w' := after (post_login (env_of None never) alice_login) world0 in
  db w' = db world0
  /\ response w' =
     response world0 ++
       [SetCookie "token"
          (Signed secret (mkClaims 1 "Alice" 2000 (2000 + Jwt.one_day)))
          (mkCookieOptions true false "Strict");
        Redirect "/dashboard"].
Proof.
  apply (login_sets_session_cookie (env_of None never) alice_login world0
           "alice@example.org" "wonderland" secret
           (mkUser 1 "Alice" "alice@example.org" (bcrypt_hash "salt" "wonderland" 10) SqlNull)
           []);
    try reflexivity; discriminate.
Defined.

(** X2. POST /login, both fields given and the lookup accepted: without a
    user of that address the form comes back with [User not found.], with
    one whose password does not match with [Incorrect password.]; in both
    cases no cookie is set and the stored rows are untouched. *)
Theorem login_refuses_bad_credentials env req w mail pass :
  field (body req) "email" = JString mail -> mail <> EmptyString ->
  field (body req) "password" = JString pass -> pass <> EmptyString ->
  query_fails env (List.length (query_log w)) = false ->
  let w' := after (post_login env req) w in
  db w' = db w
  /\ ((forall u, In u (users (db w)) -> email u <> mail) ->
      response w' =
      response w ++ [Render "auth.ejs" (ErrorLocals (Some "User not found."))])
  /\ (forall user rest,
        Sql.select_user_by_email mail (db w) = user :: rest ->
        bcrypt_compare pass (password user) = false ->
        response w' =
        response w ++ [Render "auth.ejs" (ErrorLocals (Some "Incorrect password."))]).
Proof.
  intros Hm Nm Hp Np F. unfold after.
  rewrite (post_login_run env req w mail pass Hm Nm Hp Np F). simpl.
  split; [reflexivity|]. split.
  - intros H. rewrite (select_user_by_email_none mail (db w) H). reflexivity.
  - intros user rest S C. rewrite S, C. reflexivity.
Qed.

Lemma login_refuses_bad_credentials_witness :
  response (after (post_login (env_of None never) alice_wrong_login) world0)
    = response world0 ++ [Render "auth.ejs" (ErrorLocals (Some "Incorrect password."))]
  /\ response (after (post_login (env_of None never)
                        (login_form "zed@example.org" "wonderland")) world0)
     = response world0 ++ [Render "auth.ejs" (ErrorLocals (Some "User not found."))].
Proof.
  split.
  - refine (proj2 (proj2 (login_refuses_bad_credentials (env_of None never)
                            alice_wrong_login world0 "alice@example.org" "looking-glass"
                            eq_refl _ eq_refl _ eq_refl)) _ _ eq_refl eq_refl);
      discriminate.
  - refine (proj1 (proj2 (login_refuses_bad_credentials (env_of None never)
                            (login_form "zed@example.org" "wonderland") world0
                            "zed@example.org" "wonderland"
                            eq_refl _ eq_refl _ eq_refl)) _); try discriminate.
    intros u [<-|[<-|[]]]; discriminate.
Defined.

(** ** Routes that only read *)

Lemma store_as_refl w : store_as w w.
Proof. repeat split. Qed.

Lemma store_respond w0 a : keeps (store_as w0) (respond a).
Proof. prim; exact H. Qed.

Lemma store_db_query_read {R : Type} w0 env st (result : Database -> R) :
  Sql.is_write st = false -> keeps (store_as w0) (db_query env st result).
Proof.
  intros Hst w H. unfold db_query.
  destruct (query_fails env (List.length (query_log w))); simpl; [exact H|].
  destruct st; try discriminate; exact H.
Qed.

Ltac store_leaf :=
  first [ apply store_respond | apply store_db_query_read; reflexivity ].

(** X3. GET /, GET /form, GET /dashboard, GET /logout and POST /login only
    read: whatever the request and whatever the engine rejects, they leave
    the stored rows as they were, open no transaction, check out no client
    and do not call the model. *)
Theorem reading_routes_change_nothing env req w :
  Forall (fun h => store_as w (after h w))
    [get_root; get_form env req; get_dashboard env req; get_logout;
     post_login env req].
Proof.
  repeat constructor; apply (keeps_after (store_as w)); try apply store_as_refl;
    unfold get_root, get_form, get_dashboard, get_logout, post_login,
      verifyToken, form_page, dashboard, auth_error, render, redirect;
    walk store_leaf.
Qed.

(** ** The cookies the server sets *)

Lemma cookies_respond env a : session_cookie env a -> keeps (cookies_ok env) (respond a).
Proof.
  intros Ha w H. simpl. unfold cookies_ok; simpl.
  apply Forall_app. split; [exact H | constructor; [exact Ha | constructor]].
Qed.

Lemma cookies_db_query {R : Type} env st (result : Database -> R) :
  keeps (cookies_ok env) (db_query env st result).
Proof. prim; exact H. Qed.

Lemma cookies_client_query env st : keeps (cookies_ok env) (client_query env st).
Proof. prim; exact H. Qed.

Lemma cookies_generateContent env p : keeps (cookies_ok env) (generateContent env p).
Proof. prim; exact H. Qed.

Lemma cookies_db_connect env : keeps (cookies_ok env) (db_connect env).
Proof. unfold db_connect. prim; exact H. Qed.

Lemma cookies_client_release env : keeps (cookies_ok env) client_release.
Proof. unfold client_release. prim; exact H. Qed.

Lemma sign_shape env uid uname token :
  Jwt.sign uid uname (JWT_SECRET env) (now env) = Some token ->
  session_cookie env (SetCookie "token" token (cookie_options env)).
Proof.
  unfold Jwt.sign. destruct (JWT_SECRET env) as [k|] eqn:K; [|discriminate].
  destruct (String.eqb k EmptyString) eqn:E; [discriminate|].
  intros H; inversion H; subst token; clear H. simpl.
  split; [reflexivity|]. split; [reflexivity|].
  exists k, uid, uname.
  split; [first [reflexivity | exact K]|]. split; [intros ->; discriminate | reflexivity].
Qed.

(** Signing and setting the cookie, as both handlers end. *)
Lemma cookies_sign_and_set env uid uname url :
  keeps (cookies_ok env)
    (token <- or_throw SigningError (Jwt.sign uid uname (JWT_SECRET env) (now env)) ;;
     respond (SetCookie "token" token (cookie_options env)) ;;
     redirect url).
Proof.
  destruct (Jwt.sign uid uname (JWT_SECRET env) (now env)) as [token|] eqn:S.
  - intros w H. rewrite bind_run. cbn [or_throw ret].
    rewrite bind_run, respond_eq. unfold redirect. rewrite respond_eq. simpl.
    unfold cookies_ok in *; simpl. rewrite <- app_assoc.
    apply Forall_app. split; [exact H|].
    constructor; [exact (sign_shape env uid uname token S)|].
    constructor; [exact I | constructor].
  - intros w H. rewrite bind_run. cbn [or_throw throw]. exact H.
Qed.

Ltac cookies_walk :=
  repeat first
    [ apply cookies_sign_and_set
    | apply keeps_ret | apply keeps_throw | apply keeps_or_throw
    | apply keeps_await | apply keeps_Promise_all3
    | apply keeps_bind; [| intros ?]
    | apply keeps_try_catch; [| intros ?]
    | apply keeps_try_finally
    | apply keeps_for_each; intros ?
    | match goal with
      | |- keeps _ (if ?c then _ else _) => destruct c
      | |- keeps _ (match ?x with _ => _ end) => destruct x
      | |- keeps _ (let '(_, _) := ?x in _) => destruct x
      end
    | apply cookies_db_query | apply cookies_client_query
    | apply cookies_generateContent | apply cookies_db_connect
    | apply cookies_client_release
    | apply cookies_respond; exact I ].

Lemma cookies_route env m path req h :
  route env m path req = Some h -> keeps (cookies_ok env) h.
Proof.
  unfold route. destruct m;
    repeat match goal with
           | |- context [if ?c then _ else _] => destruct c
           end;
    intros E; inversion E; subst h; clear E;
    unfold get_root, get_form, get_dashboard, get_logout, post_form,
      post_register, post_login, verifyToken, form_page, dashboard, schedule_form,
      try_catch_finally, rollback_and_report, generate_and_save, insert_item,
      auth_error, render;
    cookies_walk.
Qed.

(** X4. Every cookie any route sets is the session cookie: it is named
    [token], HTTP-only and SameSite Strict, secure exactly in production,
    and holds a token signed at the time of the request with the configured,
    non-empty secret, expiring 86400 seconds later. *)
Theorem every_cookie_is_a_session_cookie env m path req h w cname value opts :
  route env m path req = Some h ->
  In (SetCookie cname value opts) (response (after h (Client.fresh_response w))) ->
  cname = "token"
  /\ opts = mkCookieOptions true (production env) "Strict"
  /\ exists k uid uname,
       JWT_SECRET env = Some k /\ k <> EmptyString
       /\ value = Signed k (mkClaims uid uname (now env) (now env + Jwt.one_day)).
Proof.
  intros R Hin.
  pose proof (keeps_after (cookies_ok env) h (Client.fresh_response w)
                (cookies_route env m path req h R) (Forall_nil _)) as K.
  unfold cookies_ok in K. rewrite Forall_forall in K.
  exact (K _ Hin).
Qed.

Lemma every_cookie_is_a_session_cookie_witness :
  "token" = "token"
  /\ cookie_options (env_of None never) = mkCookieOptions true false "Strict"
  /\ exists k uid uname,
       JWT_SECRET (env_of None never) = Some k /\ k <> EmptyString
       /\ Signed secret (mkClaims 1 "Alice" 2000 (2000 + Jwt.one_day)) =
          Signed k (mkClaims uid uname 2000 (2000 + Jwt.one_day)).
Proof.
  apply (every_cookie_is_a_session_cookie (env_of None never) POST "/login"
           alice_login (post_login (env_of None never) alice_login) world0).
  - reflexivity.
  - vm_compute. left. reflexivity.
Defined.

(** ** From the cookie to the session *)

(** X5. A token signed for a user at time [t0] under the key [k] gets a
    request through [verifyToken] exactly when the server's secret is [k]
    and its clock is before [t0 + 86400]: then [req.user] holds the id and
    name that were signed (and GET /form renders the form); otherwise there
    is no session. *)
Theorem signed_token_opens_the_gate_for_a_day env k uid uname t0 tok b w :
  Jwt.sign uid uname (Some k) t0 = Some tok ->
  let req := mkRequest (Some tok) b in
  (JWT_SECRET env = Some k /\ (now env < t0 + Jwt.one_day)%Z ->
   session env req = Some (mkClaims uid uname t0 (t0 + Jwt.one_day))
   /\ get_form env req w = (Ret tt, responding w [Render "form.ejs" NoLocals]))
  /\ (JWT_SECRET env <> Some k \/ (t0 + Jwt.one_day <= now env)%Z ->
      session env req = None).
Proof.
  unfold Jwt.sign. destruct (String.eqb k EmptyString) eqn:Ek; [discriminate|].
  intros H; inversion H; subst tok; clear H. cbv zeta.
  assert (S : session env (mkRequest (Some (Signed k (mkClaims uid uname t0 (t0 + Jwt.one_day)))) b)
              = match JWT_SECRET env with
                | Some k' =>
                    if String.eqb k' EmptyString then None
                    else if negb (String.eqb k' k) then None
                    else if (t0 + Jwt.one_day <=? now env)%Z then None
                    else Some (mkClaims uid uname t0 (t0 + Jwt.one_day))
                | None => None
                end).
  { unfold session, Jwt.verify; simpl. destruct (JWT_SECRET env); reflexivity. }
  split.
  - intros [K Hlt].
    assert (S' : session env (mkRequest (Some (Signed k (mkClaims uid uname t0 (t0 + Jwt.one_day)))) b)
                 = Some (mkClaims uid uname t0 (t0 + Jwt.one_day))).
    { rewrite S, K, Ek, String.eqb_refl. simpl.
      destruct (Z.leb_spec (t0 + Jwt.one_day) (now env)); [lia | reflexivity]. }
    split; [exact S'|].
    unfold get_form. rewrite verifyToken_session, S'. reflexivity.
  - intros [K|Hle]; rewrite S.
    + destruct (JWT_SECRET env) as [k'|]; [|reflexivity].
      destruct (String.eqb k' EmptyString); [reflexivity|].
      destruct (String.eqb k' k) eqn:E; [|reflexivity].
      apply String.eqb_eq in E. subst k'. contradiction.
    + destruct (JWT_SECRET env) as [k'|]; [|reflexivity].
      destruct (String.eqb k' EmptyString); [reflexivity|].
      destruct (negb (String.eqb k' k)); [reflexivity|].
      destruct (Z.leb_spec (t0 + Jwt.one_day) (now env)); [reflexivity | lia].
Qed.

Lemma signed_token_opens_the_gate_for_a_day_witness :
  (session (env_of None never) form_request = Some alice
   /\ get_form (env_of None never) form_request world0 =
      (Ret tt, responding world0 [Render "form.ejs" NoLocals]))
  /\ session env_next_day form_request = None.
Proof.
  split.
  - apply (proj1 (signed_token_opens_the_gate_for_a_day (env_of None never) secret 1
                    "Alice" 1000 alice_token form_body world0 eq_refl)).
    split; reflexivity.
  - apply (proj2 (signed_token_opens_the_gate_for_a_day env_next_day secret 1
                    "Alice" 1000 alice_token form_body world0 eq_refl)).
    right. simpl. lia.
Defined.

(** X6. GET /logout does not look at the token: whatever cookie the
    browser sends, the response clears it and redirects, the browser is
    left without a cookie, and following the redirect it is shown the
    sign-in page; nothing is read from or written to the database. *)
Theorem logout_ends_on_the_sign_in_page env req w fuel :
  let r := Client.fetch (S fuel) env GET "/logout" req w in
  response (after get_logout w) = response w ++ [ClearCookie "token"; Redirect "/"]
  /\ Client.jar_after (response (after get_logout (Client.fresh_response w)))
       (cookie_token req) = None
  /\ fst r = Client.Resolved
               (Client.TextBody (render_view env "auth.ejs" (ErrorLocals None)))
  /\ store_as w (snd r)
  /\ query_log (snd r) = query_log w.
Proof.
  cbv zeta. split; [simpl; rewrite <- app_assoc; reflexivity|].
  split; [reflexivity|].
  destruct fuel; simpl; repeat split; reflexivity.
Qed.

(** ** Registering *)

(** The run of POST /register for a free address, the three fields given
    and both statements accepted. *)
Lemma post_register_run env req w uname mail pass :
  field (body req) "name" = JString uname -> uname <> EmptyString ->
  field (body req) "email" = JString mail -> mail <> EmptyString ->
  field (body req) "password" = JString pass -> pass <> EmptyString ->
  (forall u, In u (users (db w)) -> email u <> mail) ->
  query_fails env (List.length (query_log w)) = false ->
  query_fails env (S (List.length (query_log w))) = false ->
  let hashedPwd := bcrypt_hash (bcrypt_salt env) pass 10 in
  post_register env req w =
  (Ret tt,
   mkWorld (Sql.insert_user uname mail hashedPwd (db w))
     (client_tx w) (connects w) (releases w)
     (query_log w ++ [SELECT_user_by_email mail; INSERT_user uname mail hashedPwd])
     (prompts w)
     (response w ++
        match Jwt.sign (users_id_seq (db w)) uname (JWT_SECRET env) (now env) with
        | Some token => [SetCookie "token" token (cookie_options env); Redirect "/form"]
        | None =>
            [Render "auth.ejs" (ErrorLocals (Some "An internal server error occurred."))]
        end)).
Proof.
  intros Hn Nn Hm Nm Hp Np Free F1 F2. cbv zeta. unfold post_register.
  rewrite Hn, Hm, Hp, !truthy_text by assumption. cbn [negb orb show].
  unfold try_catch. rewrite bind_run. unfold db_query at 1. rewrite F1.
  rewrite (select_user_by_email_none mail (db w) Free).
  rewrite bind_run. cbn [await or_throw ret].
  rewrite bind_run. unfold db_query.
  cbn [query_log log_statement set_db db Sql.apply].
  rewrite length_app. simpl List.length. rewrite Nat.add_1_r, F2.
  rewrite bind_run. cbn [await or_throw ret].
  rewrite bind_run. cbn [Sql.new_user id name].
  destruct (Jwt.sign (users_id_seq (db w)) uname (JWT_SECRET env) (now env)) as [token|];
    cbn [or_throw ret throw];
    unfold auth_error, render, redirect, respond, set_db, log_statement; simpl;
    rewrite <- ?app_assoc; reflexivity.
Qed.

(** What POST /register can do to the stored rows: nothing, or add one
    user whose address the lookup did not find. *)
Lemma post_register_db_cases env req w :
  exists d',
    db (after (post_register env req) w) = d'
    /\ (d' = db w
        \/ exists uname mail pwd,
             Sql.select_user_by_email mail (db w) = []
             /\ d' = Sql.insert_user uname mail pwd (db w)).
Proof.
  unfold after, post_register, try_catch, auth_error, render, redirect.
  destruct (negb (JS.truthy (field (body req) "name"))
            || negb (JS.truthy (field (body req) "email"))
            || negb (JS.truthy (field (body req) "password")));
    [eexists; split; [reflexivity | left; reflexivity]|].
  rewrite bind_run. unfold db_query at 1.
  destruct (query_fails env (List.length (query_log w)));
    [eexists; split; [reflexivity | left; reflexivity]|].
  rewrite bind_run. cbn [await or_throw ret].
  destruct (Sql.select_user_by_email (show (field (body req) "email")) (db w))
    as [|x r] eqn:S; [|eexists; split; [reflexivity | left; reflexivity]].
  rewrite bind_run. unfold db_query.
  cbn [query_log log_statement set_db db Sql.apply].
  destruct (query_fails env _); [eexists; split; [reflexivity | left; reflexivity]|].
  rewrite bind_run. cbn [await or_throw ret]. rewrite bind_run.
  match goal with |- context [or_throw SigningError ?o] => destruct o end;
    cbn [or_throw ret throw];
    (eexists; split; [reflexivity | right; do 3 eexists; split; [exact S | reflexivity]]).
Qed.

Lemma post_register_db env req w :
  db (after (post_register env req) w) = db w
  \/ exists uname mail pwd,
       Sql.select_user_by_email mail (db w) = []
       /\ db (after (post_register env req) w) = Sql.insert_user uname mail pwd (db w).
Proof.
  destruct (post_register_db_cases env req w) as (d' & E & [->|(n & m & p & S & ->)]).
  - left. exact E.
  - right. exists n, m, p. split; [exact S | exact E].
Qed.

Lemma select_user_by_email_empty mail d :
  Sql.select_user_by_email mail d = [] -> ~ In mail (map email (users d)).
Proof.
  unfold Sql.select_user_by_email. intros E Hin.
  apply in_map_iff in Hin. destruct Hin as (u & Hu & Hin).
  assert (H : In u (filter (fun x => String.eqb (email x) mail) (users d))).
  { apply filter_In. split; [exact Hin | apply String.eqb_eq; exact Hu]. }
  rewrite E in H. exact H.
Qed.

Lemma NoDup_snoc {A : Type} (l : list A) (x : A) :
  NoDup l -> ~ In x l -> NoDup (l ++ [x]).
Proof.
  intros Hl Hx. induction Hl as [|y r Hy Hr IH]; simpl.
  - constructor; [intros [] | constructor].
  - constructor.
    + intros Hin. apply in_app_or in Hin. destruct Hin as [Hin|[->|[]]].
      * exact (Hy Hin).
      * apply Hx. left. reflexivity.
    + apply IH. intros Hin. apply Hx. right. exact Hin.
Qed.

(** X7. POST /register never rewrites what is stored: whatever the request
    and whatever the engine rejects, the users already there stay in place
    and unchanged, at most one user is added after them, and the schedule
    and streak tables are untouched. *)
Theorem registration_only_appends env req w :
  let w' := after (post_register env req) w in
  exists added,
    users (db w') = users (db w) ++ added
    /\ List.length added <= 1
    /\ schedule_items (db w') = schedule_items (db w)
    /\ user_streaks (db w') = user_streaks (db w).
Proof.
  cbv zeta. destruct (post_register_db env req w) as [E|(n & m & p & _ & E)]; rewrite E.
  - exists []. rewrite app_nil_r. repeat split. simpl. lia.
  - eexists. simpl. repeat split. simpl. lia.
Qed.

(** X8. POST /register keeps the users table well formed: if no two users
    share an address or an id and the sequence is ahead of every id, the
    same holds afterwards, whatever the request and whatever the engine
    rejects. *)
Theorem registration_keeps_users_distinct env req w :
  users_wellformed (db w) ->
  users_wellformed (db (after (post_register env req) w)).
Proof.
  intros (He & Hi & Hs).
  destruct (post_register_db env req w) as [E|(n & m & p & S & E)]; rewrite E.
  - repeat split; assumption.
  - unfold users_wellformed, Sql.insert_user, Sql.new_user; simpl.
    rewrite !map_app. simpl. split; [|split].
    + apply NoDup_snoc; [exact He | exact (select_user_by_email_empty m (db w) S)].
    + apply NoDup_snoc; [exact Hi|].
      intros Hin. apply in_map_iff in Hin. destruct Hin as (u & Hu & Hin).
      specialize (Hs u Hin). lia.
    + intros u Hin. apply in_app_or in Hin. destruct Hin as [Hin|[<-|[]]].
      * specialize (Hs u Hin). lia.
      * simpl. lia.
Qed.

Lemma old_db_wellformed : users_wellformed old_db.
Proof.
  unfold users_wellformed; simpl. split; [|split].
  - repeat constructor; simpl; intuition discriminate.
  - repeat constructor; simpl; intuition discriminate.
  - intros u [<-|[<-|[]]]; reflexivity.
Qed.

Lemma registration_keeps_users_distinct_witness :
  users_wellformed (db (after (post_register (env_of None never) carol_form) world0)).
Proof.
  apply (registration_keeps_users_distinct (env_of None never) carol_form world0).
  exact old_db_wellformed.
Defined.

Lemma select_new_user uname mail pwd d :
  (forall u, In u (users d) -> email u <> mail) ->
  Sql.select_user_by_email mail (Sql.insert_user uname mail pwd d)
  = [Sql.new_user uname mail pwd d].
Proof.
  intros Free. unfold Sql.select_user_by_email, Sql.insert_user; simpl.
  rewrite filter_app. fold (Sql.select_user_by_email mail d).
  rewrite (select_user_by_email_none mail d Free). simpl.
  rewrite String.eqb_refl. reflexivity.
Qed.

(** X9. POST /register stores the user before it signs the token: with
    the three fields given, a free address and both statements accepted,
    but no signing secret (missing or empty), the user is stored with the
    hash, and yet the response is the form with the internal-error message
    and no cookie; sending the same form again is then answered with the
    message about the existing user. *)
Theorem registration_without_secret_still_stores env env2 req w uname mail pass :
  field (body req) "name" = JString uname -> uname <> EmptyString ->
  field (body req) "email" = JString mail -> mail <> EmptyString ->
  field (body req) "password" = JString pass -> pass <> EmptyString ->
  (forall u, In u (users (db w)) -> email u <> mail) ->
  query_fails env (List.length (query_log w)) = false ->
  query_fails env (S (List.length (query_log w))) = false ->
  JWT_SECRET env = None \/ JWT_SECRET env = Some EmptyString ->
  query_fails env2 (List.length (query_log w) + 2) = false ->
  let w1 := after (post_register env req) w in
  let w2 := after (post_register env2 req) w1 in
  users (db w1) =
    users (db w) ++ [mkUser (users_id_seq (db w)) uname mail
                       (bcrypt_hash (bcrypt_salt env) pass 10) SqlNull]
  /\ response w1 =
     response w ++
       [Render "auth.ejs" (ErrorLocals (Some "An internal server error occurred."))]
  /\ db w2 = db w1
  /\ response w2 =
     response w1 ++
       [Render "auth.ejs" (ErrorLocals (Some "User with this email already exists."))].
Proof.
  intros Hn Nn Hm Nm Hp Np Free F1 F2 K F. cbv zeta.
  assert (S : Jwt.sign (users_id_seq (db w)) uname (JWT_SECRET env) (now env) = None).
  { destruct K as [-> | ->]; reflexivity. }
  unfold after.
  rewrite (post_register_run env req w uname mail pass Hn Nn Hm Nm Hp Np Free F1 F2), S.
  cbn [snd db users response Sql.insert_user query_log].
  split; [reflexivity|]. split; [reflexivity|].
  match goal with |- context [post_register env2 req ?x] => set (w1 := x) end.
  pose proof (register_taken env2 req w1
                (mkUser (users_id_seq (db w)) uname mail
                   (bcrypt_hash (bcrypt_salt env) pass 10) SqlNull)) as T.
  cbv zeta in T. unfold after in T. destruct T as (D & message & R & M).
  - subst w1. simpl. apply in_or_app. right. left. reflexivity.
  - exact Hm.
  - split; [exact D|]. rewrite R, M; auto.
    + rewrite Hn. apply truthy_text. exact Nn.
    + rewrite Hp. apply truthy_text. exact Np.
    + subst w1. simpl. rewrite length_app. exact F.
Qed.

Lemma registration_without_secret_still_stores_witness :
  let w1 := after (post_register env_without_secret carol_form) world0 in
  let w2 := after (post_register (env_of None never) carol_form) w1 in
  users (db w1) =
    users (db world0) ++ [mkUser 3 "Carol" "carol@example.org"
                            (bcrypt_hash "salt" "pw" 10) SqlNull]
  /\ response w1 =
     response world0 ++
       [Render "auth.ejs" (ErrorLocals (Some "An internal server error occurred."))]
  /\ db w2 = db w1
  /\ response w2 =
     response w1 ++
       [Render "auth.ejs" (ErrorLocals (Some "User with this email already exists."))].
Proof.
  apply (registration_without_secret_still_stores env_without_secret
           (env_of None never) carol_form world0 "Carol" "carol@example.org" "pw");
    try reflexivity; try discriminate.
  - intros u [<-|[<-|[]]]; discriminate.
  - left. reflexivity.
Defined.

(** X10. Registering and then signing in: after a successful POST
    /register, POST /login with the same address and a password with the
    same bcrypt key (the same first 72 bytes) sets a session cookie for the
    id and name that were registered, and with any other key it answers
    [Incorrect password.] and sets none. *)
Theorem registered_user_can_sign_in env env2 req req2 w uname mail pass pass2 k :
  field (body req) "name" = JString uname -> uname <> EmptyString ->
  field (body req) "email" = JString mail -> mail <> EmptyString ->
  field (body req) "password" = JString pass -> pass <> EmptyString ->
  (forall u, In u (users (db w)) -> email u <> mail) ->
  query_fails env (List.length (query_log w)) = false ->
  query_fails env (S (List.length (query_log w))) = false ->
  field (body req2) "email" = JString mail ->
  field (body req2) "password" = JString pass2 -> pass2 <> EmptyString ->
  JWT_SECRET env2 = Some k -> k <> EmptyString ->
  query_fails env2 (List.length (query_log w) + 2) = false ->
  let w1 := after (post_register env req) w in
  let w2 := after (post_login env2 req2) w1 in
  response w2 =
  response w1 ++
    if String.eqb (bcrypt_key pass2) (bcrypt_key pass)
    then [SetCookie "token"
            (Signed k (mkClaims (users_id_seq (db w)) uname (now env2)
                         (now env2 + Jwt.one_day)))
            (cookie_options env2);
          Redirect "/dashboard"]
    else [Render "auth.ejs" (ErrorLocals (Some "Incorrect password."))].
Proof.
  intros Hn Nn Hm Nm Hp Np Free F1 F2 Hm2 Hp2 Np2 K Nk F0. cbv zeta.
  assert (F : query_fails env2
                (List.length (query_log (after (post_register env req) w))) = false).
  { unfold after.
    rewrite (post_register_run env req w uname mail pass Hn Nn Hm Nm Hp Np Free F1 F2).
    simpl. rewrite length_app. exact F0. }
  unfold after at 1.
  rewrite (post_login_run env2 req2 _ mail pass2 Hm2 Nm Hp2 Np2 F).
  cbn [snd response]. f_equal.
  unfold after.
  rewrite (post_register_run env req w uname mail pass Hn Nn Hm Nm Hp Np Free F1 F2).
  cbn [snd db]. rewrite (select_new_user uname mail _ (db w) Free).
  cbn [Sql.new_user password id name bcrypt_hash bcrypt_compare].
  destruct (String.eqb (bcrypt_key pass2) (bcrypt_key pass)); [|reflexivity].
  unfold Jwt.sign. rewrite K.
  destruct (String.eqb k EmptyString) eqn:E;
    [apply String.eqb_eq in E; contradiction | reflexivity].
Qed.

Lemma registered_user_can_sign_in_witness :
  let env := env_of None never in
  let w1 := after (post_register env carol_form) world0 in
  let w2 := after (post_login env (login_form "carol@example.org" "pw")) w1 in
  response w2 =
  response w1 ++
    [SetCookie "token"
       (Signed secret (mkClaims 3 "Carol" 2000 (2000 + Jwt.one_day)))
       (cookie_options env);
     Redirect "/dashboard"].
Proof.
  apply (registered_user_can_sign_in (env_of None never) (env_of None never)
           carol_form (login_form "carol@example.org" "pw") world0
           "Carol" "carol@example.org" "pw" "pw" secret);
    try reflexivity; try discriminate.
  intros u [<-|[<-|[]]]; discriminate.
Defined.

(** ** More on POST /form *)

Lemma prompts_respond p0 a : keeps (fun w => prompts w = p0) (respond a).
Proof. prim; exact H. Qed.

Lemma prompts_client_query p0 env st : keeps (fun w => prompts w = p0) (client_query env st).
Proof. prim; exact H. Qed.

Lemma prompts_generateContent p0 env pr :
  triple (fun w => prompts w = p0) (generateContent env pr)
    (fun _ w => prompts w = p0 ++ [pr]) (fun _ w => prompts w = p0 ++ [pr]).
Proof.
  intros w H. unfold generateContent.
  destruct (generate env pr); simpl; rewrite H; reflexivity.
Qed.

Lemma generate_and_save_prompts env req user p0 :
  triple (fun w => prompts w = p0) (generate_and_save env req user)
    (fun _ w => prompts w = p0 ++ [build_prompt (body req)])
    (fun _ w => prompts w = p0 ++ [build_prompt (body req)]).
Proof.
  unfold generate_and_save. eapply triple_bind; [apply prompts_generateContent|].
  intros text. unfold insert_item, redirect.
  change (keeps (fun w => prompts w = p0 ++ [build_prompt (body req)])
            (scheduleItems <- or_throw SyntaxError (Json.parse (clean text)) ;;
             len <- or_throw TypeError (JS.get_length scheduleItems) ;;
             (if JS.to_string_throws len then throw TypeError else ret tt) ;;
             client_query env BEGIN ;;
             client_query env (DELETE_schedule_items (claim_id user)) ;;
             items <- or_throw TypeError (JS.iterate scheduleItems) ;;
             for_each items
               (fun item =>
                  day <- or_throw TypeError (JS.get item "dayOfWeek") ;;
                  startT <- or_throw TypeError (JS.get item "startTime") ;;
                  endT <- or_throw TypeError (JS.get item "endTime") ;;
                  subj <- or_throw TypeError (JS.get item "subject") ;;
                  client_query env
                    (INSERT_schedule_item (prepareValue day) (prepareValue startT)
                       (prepareValue endT) (prepareValue subj) (claim_id user))) ;;
             client_query env
               (UPDATE_daily_focus_hours (prepareValue (field (body req) "dailytime"))
                  (claim_id user)) ;;
             client_query env COMMIT ;;
             respond (Redirect "/dashboard"))).
  walk ltac:(first [apply prompts_respond | apply prompts_client_query]).
Qed.

(** X11. POST /form calls the model exactly once when the session
    verifies and a client is checked out, with the prompt built from the
    form, and never otherwise; nothing that fails later makes it call
    again. *)
Theorem model_is_called_once env req w :
  prompts (after (post_form env req) w) =
  prompts w ++
    match session env req with
    | Some _ => if connect_fails env then [] else [build_prompt (body req)]
    | None => []
    end.
Proof.
  unfold after, post_form. rewrite verifyToken_session.
  destruct (session env req) as [c|].
  - rewrite schedule_form_unfold. destruct (connect_fails env); simpl;
      [rewrite app_nil_r; reflexivity|].
    set (w1 := mkWorld (db w) (client_tx w) (S (connects w)) (releases w)
                 (query_log w) (prompts w) (response w)).
    pose proof (generate_and_save_prompts env req c (prompts w) w1 eq_refl) as G.
    destruct (generate_and_save env req c w1) as [[[]|e] w2]; [exact G|].
    assert (K' : keeps (fun x => prompts x = prompts w ++ [build_prompt (body req)])
                   (rollback_and_report env)) by
      (unfold rollback_and_report;
       walk ltac:(first [apply prompts_respond | apply prompts_client_query])).
    specialize (K' w2 G).
    destruct (rollback_and_report env w2) as [[[]|e'] w3]; exact K'.
  - destruct (token_present (cookie_token req)); simpl; rewrite app_nil_r; reflexivity.
Qed.

(** X12. When the model call fails, POST /form opens no transaction: the
    only statement it sends is ROLLBACK, the committed rows are untouched,
    and if ROLLBACK is accepted the answer is status 500 with the failure
    message. *)
Theorem failed_generation_sends_only_rollback env req w c :
  session env req = Some c ->
  connect_fails env = false ->
  generate env (build_prompt (body req)) = None ->
  let w' := after (post_form env req) w in
  sent_since (query_log w) w' = [ROLLBACK]
  /\ db w' = db w
  /\ (query_fails env (List.length (query_log w)) = false ->
      response w' = response w ++ [Status 500; Send failure_message]).
Proof.
  intros Hs Hc Hg. unfold after, post_form, sent_since.
  rewrite verifyToken_session, Hs, schedule_form_unfold, Hc.
  unfold generate_and_save. rewrite bind_run. unfold generateContent. rewrite Hg.
  cbv zeta.
  match goal with
  | |- context [rollback_and_report env ?x] =>
      pose proof (rollback_and_report_run env x) as R
  end.
  unfold after, outcome in R. simpl in R.
  destruct R as (L & D & _ & _ & R).
  destruct (rollback_and_report env _) as [[[]|e'] w3]; simpl in *;
    rewrite L, D, skipn_app, skipn_all, Nat.sub_diag; simpl;
    (split; [reflexivity | split; [reflexivity |]]);
    intros F; rewrite F in R;
    destruct R as (R1 & R2); try discriminate; destruct R2 as (_ & R2); exact R2.
Qed.

Lemma failed_generation_sends_only_rollback_witness :
  let env := env_of None never in
  let w' := after (post_form env form_request) world0 in
  sent_since (query_log world0) w' = [ROLLBACK]
  /\ db w' = db world0
  /\ response w' = response world0 ++ [Status 500; Send failure_message].
Proof.
  destruct (failed_generation_sends_only_rollback (env_of None never) form_request world0
              alice eq_refl eq_refl eq_refl) as (A & B & C).
  split; [exact A | split; [exact B | apply C; reflexivity]].
Defined.

Lemma anything_goes {A : Type} (P : World -> Prop) (m : M A) :
  triple P m (fun _ _ => True) (fun _ _ => True).
Proof. intros w _. destruct (m w) as [[a|e] w']; exact I. Qed.

Lemma commit_leaves_transaction env :
  triple (fun _ => True) (client_query env COMMIT)
    (fun _ w => client_tx w = NoTx) (fun _ _ => True).
Proof.
  intros w _. unfold client_query.
  destruct (query_fails env (List.length (query_log w))); simpl; [exact I|].
  destruct (client_tx w); reflexivity.
Qed.

Lemma generate_and_save_return_leaves_transaction env req user :
  triple (fun _ => True) (generate_and_save env req user)
    (fun _ w => client_tx w = NoTx) (fun _ _ => True).
Proof.
  unfold generate_and_save.
  do 9 (eapply triple_bind; [apply anything_goes | intros ?; cbv beta]).
  eapply triple_bind; [apply commit_leaves_transaction | intros ?].
  intros w H. exact H.
Qed.

(** X13. POST /form never hands a client back to the pool inside a
    transaction it could have closed: whenever the last statement it sent
    was accepted, the client is outside any transaction at the end. *)
Theorem accepted_last_statement_closes_transaction env req w c :
  session env req = Some c ->
  connect_fails env = false ->
  query_fails env (List.length (query_log (after (post_form env req) w)) - 1) = false ->
  client_tx (after (post_form env req) w) = NoTx.
Proof.
  intros Hs Hc. unfold after, post_form.
  rewrite verifyToken_session, Hs, schedule_form_unfold, Hc. cbv zeta.
  match goal with
  | |- context [generate_and_save env req c ?x] =>
      pose proof (generate_and_save_return_leaves_transaction env req c x I) as G
  end.
  destruct (generate_and_save env req c _) as [[[]|e] w2]; simpl; [intros _; exact G|].
  pose proof (rollback_and_report_run env w2) as R.
  unfold after, outcome in R. simpl in R. destruct R as (L & _ & _ & _ & R).
  destruct (rollback_and_report env w2) as [[[]|e'] w3]; simpl in *;
    rewrite L, length_app; simpl;
    replace (List.length (query_log w2) + 1 - 1) with (List.length (query_log w2)) by lia;
    intros F; rewrite F in R; destruct R as (R1 & R2 & _);
    first [discriminate | exact R2].
Qed.

Lemma accepted_last_statement_closes_transaction_witness :
  client_tx (after (post_form (env_of (Some monday_math) (fun n => Nat.eqb n 2))
                      form_request) world0) = NoTx.
Proof.
  apply (accepted_last_statement_closes_transaction
           (env_of (Some monday_math) (fun n => Nat.eqb n 2)) form_request world0 alice);
    reflexivity.
Defined.

(** *** What a schedule transaction can touch *)

Lemma same_user_but_hours_refl uid l : Forall2 (same_user_but_hours uid) l l.
Proof.
  induction l as [|u l IH]; constructor; [|exact IH].
  unfold same_user_but_hours. auto.
Qed.

Lemma touches_only_refl uid d : touches_only uid d d.
Proof.
  unfold touches_only. repeat split. apply same_user_but_hours_refl.
Qed.

Lemma same_user_but_hours_update uid h l l' :
  Forall2 (same_user_but_hours uid) l l' ->
  Forall2 (same_user_but_hours uid) l
    (map (fun u => if (id u =? uid)%Z
                   then mkUser (id u) (name u) (email u) (password u) h
                   else u) l').
Proof.
  induction 1 as [|u u' l l' H _ IH]; simpl; constructor; [|exact IH].
  destruct H as (H1 & H2 & H3 & H4 & H5).
  destruct (id u' =? uid)%Z eqn:Q; unfold same_user_but_hours; simpl;
    [|auto 6].
  repeat (split; [assumption|]). intros N. apply Z.eqb_eq in Q. congruence.
Qed.

Lemma touches_only_step uid d0 d st :
  is_persistence_step st = true ->
  Sql.written_for st = Some uid ->
  touches_only uid d0 d ->
  touches_only uid d0 (Sql.apply st d).
Proof.
  intros Hst Hw (H1 & H2 & H3 & H4).
  destruct st; try discriminate; simpl in Hw; injection Hw as ->;
    unfold touches_only, schedule_of_others; simpl.
  - rewrite filter_twice_same. auto.
  - rewrite filter_app. simpl. rewrite Z.eqb_refl. simpl. rewrite app_nil_r. auto.
  - repeat (split; [assumption|]). apply same_user_but_hours_update. exact H4.
Qed.

Lemma begin_works_for env uid d0 :
  triple (fun w => db w = d0 /\ client_tx w = NoTx) (client_query env BEGIN)
    (fun _ => working_for uid d0) (fun _ w => db w = d0).
Proof.
  intros w [H T]. unfold client_query. rewrite T. simpl.
  destruct (query_fails env (List.length (query_log w))); simpl; auto.
  split; auto. eexists; split; [reflexivity | rewrite H; apply touches_only_refl].
Qed.

Lemma step_works_for env uid d0 st :
  is_persistence_step st = true ->
  Sql.written_for st = Some uid ->
  holds (working_for uid d0) (fun _ w => db w = d0) (client_query env st).
Proof.
  intros Hst Hw w [H (d & T & K)]. unfold client_query. rewrite T.
  pose proof (touches_only_step uid d0 d st Hst Hw K) as K'.
  destruct st; try discriminate; simpl;
    destruct (query_fails env (List.length (query_log w))); simpl; auto;
    (split; [exact H | eexists; split; [reflexivity | exact K']]).
Qed.

Lemma commit_works_for env uid d0 :
  triple (working_for uid d0) (client_query env COMMIT)
    (fun _ w => touches_only uid d0 (db w)) (fun _ w => db w = d0).
Proof.
  intros w [H (d & T & K)]. unfold client_query. rewrite T. simpl.
  destruct (query_fails env (List.length (query_log w))); simpl; auto.
Qed.

Lemma untouched_generateContent env d0 p :
  holds (fun w => db w = d0 /\ client_tx w = NoTx) (fun _ w => db w = d0)
    (generateContent env p).
Proof. prim; first [exact H | exact (proj1 H)]. Qed.

Lemma insert_item_works_for env uid d0 item :
  holds (working_for uid d0) (fun _ w => db w = d0) (insert_item env uid item).
Proof.
  unfold insert_item, holds.
  chain ltac:(apply holds_or_throw; intros ? [? ?]; assumption).
  apply step_works_for; reflexivity.
Qed.

Lemma generate_and_save_touches_only env req user d0 :
  triple (fun w => db w = d0 /\ client_tx w = NoTx) (generate_and_save env req user)
    (fun _ w => touches_only (claim_id user) d0 (db w)) (fun _ w => db w = d0).
Proof.
  unfold generate_and_save, redirect.
  chain ltac:(first
    [ apply untouched_generateContent
    | apply begin_works_for
    | apply step_works_for; reflexivity
    | apply commit_works_for
    | apply holds_for_each; intros ?; apply insert_item_works_for
    | apply holds_or_throw; intros ? [? ?]; assumption
    | apply holds_unless; intros ? [? ?]; assumption ]).
  intros w H. exact H.
Qed.

(** X14. Whatever the model answers and whichever statements fail, POST
    /form on a client that is outside a transaction changes nothing but
    the schedule rows and the daily hours of the user named by the token:
    every other user's rows and hours, every user's id, name, address and
    password, the streaks and the id sequence stay as they were.  Without
    a session it changes nothing at all. *)
Theorem form_touches_only_its_user env req w :
  client_tx w = NoTx ->
  match session env req with
  | Some c => touches_only (claim_id c) (db w) (db (after (post_form env req) w))
  | None => db (after (post_form env req) w) = db w
  end.
Proof.
  intros T. unfold after, post_form. rewrite verifyToken_session.
  destruct (session env req) as [c|].
  - rewrite schedule_form_unfold.
    destruct (connect_fails env); [apply touches_only_refl|]. cbv zeta.
    match goal with
    | |- context [generate_and_save env req c ?x] =>
        pose proof (generate_and_save_touches_only env req c (db w) x (conj eq_refl T)) as G
    end.
    destruct (generate_and_save env req c _) as [[[]|e] w2]; simpl; [exact G|].
    pose proof (rollback_and_report_run env w2) as R.
    unfold after in R. simpl in R. destruct R as (_ & D & _).
    destruct (rollback_and_report env w2) as [[[]|e'] w3]; simpl in *;
      rewrite D, G; apply touches_only_refl.
  - destruct (token_present (cookie_token req)); reflexivity.
Qed.

Lemma form_touches_only_its_user_witness :
  touches_only 1 (db world0)
    (db (after (post_form (env_of (Some monday_math) never) form_request) world0)).
Proof.
  exact (form_touches_only_its_user (env_of (Some monday_math) never) form_request world0
           eq_refl).
Defined.

(** *** An answer that is JSON text but not an array *)

Lemma rows_of_strings uid l :
  map (row_of uid) (map JString l) = repeat (null_row uid) (List.length l).
Proof. induction l as [|x l IH]; simpl; [|rewrite IH]; reflexivity. Qed.

Lemma strings_are_defined l :
  Forall (fun v => v <> JNull /\ v <> JUndefined) (map JString l).
Proof.
  rewrite Forall_forall. intros v Hv. apply in_map_iff in Hv.
  destruct Hv as (x & <- & _). split; discriminate.
Qed.

(** X15. A model answer that is a JSON string is not refused: a string is
    iterable, so POST /form replaces the user's schedule by one row for
    each code point of the string, with NULL in all four columns, commits
    and redirects to the dashboard. *)
Theorem string_answer_stores_null_rows env req w c text s :
  session env req = Some c ->
  connect_fails env = false ->
  (forall n, query_fails env n = false) ->
  client_tx w = NoTx ->
  generate env (build_prompt (body req)) = Some text ->
  Json.parse (clean text) = Some (JString s) ->
  let w' := after (post_form env req) w in
  schedule_of (claim_id c) (db w')
    = repeat (null_row (claim_id c)) (List.length (Text.chars s))
  /\ schedule_of_others (claim_id c) (db w') = schedule_of_others (claim_id c) (db w)
  /\ response w' = response w ++ [Redirect "/dashboard"].
Proof.
  intros Hs Hc F T G P.
  set (uid := claim_id c).
  set (hours := prepareValue (field (body req) "dailytime")).
  set (items := map JString (Text.chars s)).
  assert (R : schedule_form env req c w =
    (Ret tt,
     mkWorld (replaced uid items hours (db w)) NoTx
       (S (connects w)) (S (releases w))
       (query_log w ++ [BEGIN; DELETE_schedule_items uid]
          ++ map (insert_statement uid) items
          ++ [UPDATE_daily_focus_hours hours uid; COMMIT])
       (prompts w ++ [build_prompt (body req)])
       (response w ++ [Redirect "/dashboard"]))).
  { rewrite schedule_form_unfold, Hc. cbv zeta.
    unfold generate_and_save.
    rewrite bind_run. unfold generateContent. rewrite G.
    rewrite bind_run, P. cbn [or_throw ret].
    rewrite bind_run. cbn [or_throw ret JS.get_length].
    rewrite bind_run. cbn [JS.to_string_throws ret].
    rewrite bind_run, client_query_run; [| apply F | cbn [client_tx]; rewrite T; reflexivity].
    cbn [client_tx db]. rewrite T. cbn [accepted fst snd].
    rewrite bind_run, client_query_run; [| apply F | reflexivity].
    cbn [accepted fst snd set_tx set_db log_statement client_tx db Sql.apply].
    rewrite bind_run. cbn [or_throw ret JS.iterate].
    rewrite bind_run.
    erewrite (insert_loop_run env uid items F (strings_are_defined _)); [| reflexivity].
    rewrite bind_run, client_query_run; [| apply F | reflexivity].
    cbn [accepted fst snd set_tx set_db log_statement client_tx db Sql.apply].
    rewrite bind_run, client_query_run; [| apply F | reflexivity].
    simpl. unfold replaced. rewrite <- !app_assoc. reflexivity. }
  unfold after, post_form. rewrite verifyToken_session, Hs, R. simpl.
  rewrite schedule_of_replaced, schedule_of_others_replaced.
  unfold items. rewrite rows_of_strings. auto.
Qed.

Lemma string_answer_stores_null_rows_witness :
  let w' := after (post_form (env_of (Some abc_answer) never) form_request) world0 in
  schedule_of 1 (db w') = repeat (null_row 1) (List.length (Text.chars "abc"))
  /\ schedule_of_others 1 (db w') = schedule_of_others 1 (db world0)
  /\ response w' = response world0 ++ [Redirect "/dashboard"].
Proof.
  apply (string_answer_stores_null_rows (env_of (Some abc_answer) never) form_request
           world0 alice abc_answer "abc"); reflexivity.
Defined.

(** *** From the form to the dashboard *)



(** *** The statements of a schedule transaction *)

Lemma skipn_exact {A : Type} (l x : list A) : skipn (List.length l) (l ++ x) = x.
Proof. induction l as [|a l IH]; simpl; [reflexivity | exact IH]. Qed.

Lemma none_generateContent l0 env p : holds (sent_none l0) (fun _ => sent_somewhere l0) (generateContent env p).
Proof.
  intros w H. unfold generateContent.
  destruct (generate env p); simpl; [exact H | left; exact H].
Qed.

Lemma begin_sent l0 env :
  triple (sent_none l0) (client_query env BEGIN) (fun _ => sent_steps l0) (fun _ => sent_somewhere l0).
Proof.
  intros w H. unfold sent_none in H. unfold client_query.
  destruct (accepted BEGIN (db w) (client_tx w)) as [d t].
  destruct (query_fails env (List.length (query_log w)) ||
            refused_when_aborted BEGIN (client_tx w)); simpl;
    [right; left |];
    exists []; simpl; rewrite H; split; constructor.
Qed.

Lemma step_sent l0 env st :
  is_persistence_step st = true ->
  holds (sent_steps l0) (fun _ => sent_somewhere l0) (client_query env st).
Proof.
  intros Hst w (ws & L & Hws).
  assert (S : sent_steps l0 (log_statement st w)).
  { exists (ws ++ [st]). simpl. rewrite L, <- app_assoc. split; [reflexivity|].
    apply Forall_app. split; [exact Hws | constructor; [exact Hst | constructor]]. }
  unfold client_query.
  destruct (accepted st (db w) (client_tx w)) as [d t].
  destruct (query_fails env (List.length (query_log w)) ||
            refused_when_aborted st (client_tx w)); simpl;
    [right; left; exact S | exact S].
Qed.

Lemma commit_sent l0 env :
  triple (sent_steps l0) (client_query env COMMIT) (fun _ => sent_commit l0) (fun _ => sent_somewhere l0).
Proof.
  intros w (ws & L & Hws).
  assert (S : sent_commit l0 (log_statement COMMIT w)).
  { exists ws. simpl. rewrite L, <- app_assoc. split; [reflexivity | exact Hws]. }
  unfold client_query.
  destruct (accepted COMMIT (db w) (client_tx w)) as [d t].
  destruct (query_fails env (List.length (query_log w)) ||
            refused_when_aborted COMMIT (client_tx w)); simpl;
    [right; right; exact S | exact S].
Qed.

Lemma insert_item_sent l0 env uid item :
  holds (sent_steps l0) (fun _ => sent_somewhere l0) (insert_item env uid item).
Proof.
  unfold insert_item, holds.
  chain ltac:(apply holds_or_throw; intros ? ?; right; left; assumption).
  apply step_sent. reflexivity.
Qed.

Lemma generate_and_save_sent l0 env req user :
  triple (sent_none l0) (generate_and_save env req user)
    (fun _ => sent_commit l0) (fun _ => sent_somewhere l0).
Proof.
  unfold generate_and_save, redirect.
  chain ltac:(first
    [ apply none_generateContent
    | apply begin_sent
    | apply step_sent; reflexivity
    | apply commit_sent
    | apply holds_for_each; intros ?; apply insert_item_sent
    | apply holds_or_throw; intros ? ?;
      first [left; assumption | right; left; assumption]
    | apply holds_unless; intros ? ?; left; assumption ]).
  intros w H. exact H.
Qed.

(** X17. The statements POST /form sends always form one transaction:
    nothing at all (no session, or no client); a lone ROLLBACK (the answer
    was unusable before BEGIN); or BEGIN, then only the three kinds of
    writing steps, then COMMIT, or ROLLBACK, or COMMIT and then ROLLBACK.
    There is never a second BEGIN, and nothing but one ROLLBACK ever
    follows COMMIT. *)
Theorem form_statements_form_one_transaction env req w :
  transaction_shape (sent_since (query_log w) (after (post_form env req) w)).
Proof.
  unfold after, post_form, sent_since. rewrite verifyToken_session.
  assert (Z0 : forall l : list Statement, skipn (List.length l) l = []).
  { intros l. rewrite <- (app_nil_r l) at 2. apply skipn_exact. }
  destruct (session env req) as [c|].
  - rewrite schedule_form_unfold.
    destruct (connect_fails env); simpl; [left; apply Z0|].
    match goal with
    | |- context [generate_and_save env req c ?x] =>
        pose proof (generate_and_save_sent (query_log w) env req c x eq_refl) as G
    end.
    destruct (generate_and_save env req c _) as [[[]|e] w2]; simpl.
    + destruct G as (ws & L & Hws). rewrite L, skipn_exact.
      right; right. exists ws, [COMMIT]. auto.
    + pose proof (rollback_and_report_run env w2) as R.
      unfold after in R. simpl in R. destruct R as (L & _).
      assert (K : transaction_shape
                (skipn (List.length (query_log w)) (query_log w2 ++ [ROLLBACK]))).
      { destruct G as [G | [(ws & G & Hws) | (ws & G & Hws)]].
        - unfold sent_none in G. simpl in G. rewrite G, skipn_exact.
          right; left; reflexivity.
        - rewrite G, <- app_assoc, skipn_exact. simpl.
          right; right. exists ws, [ROLLBACK]. auto.
        - rewrite G, <- app_assoc, skipn_exact. simpl. rewrite <- app_assoc. simpl.
          right; right. exists ws, [COMMIT; ROLLBACK]. auto. }
      destruct (rollback_and_report env w2) as [[[]|e'] w3]; simpl in *;
        rewrite L; exact K.
  - destruct (token_present (cookie_token req)); simpl; left; apply Z0.
Qed.

(** ** Cleaning the answer of the model *)

Lemma not_backtick c : (Text.code c =? 96)%N = false -> Ascii.eqb "`" c = false.
Proof.
  intros H. destruct (Ascii.eqb "`" c) eqn:E; [|reflexivity].
  apply Ascii.eqb_eq in E. subst c. discriminate.
Qed.

Lemma no_backtick_cons c t :
  no_backtick (String c t) = true ->
  Ascii.eqb "`" c = false /\ no_backtick t = true.
Proof.
  simpl. intros H. apply andb_true_iff in H. destruct H as [H1 H2].
  split; [|exact H2]. apply not_backtick. apply negb_true_iff. exact H1.
Qed.

Lemma remove_json_keeps t tail :
  no_backtick t = true ->
  remove_all_from "```json" 0 (t ++ tail) = (t ++ remove_all_from "```json" 0 tail)%string.
Proof.
  induction t as [|c t IH]; intros H; [reflexivity|].
  apply no_backtick_cons in H. destruct H as [H1 H2].
  change (String c t ++ tail)%string with (String c (t ++ tail)).
  cbn [remove_all_from starts_with]. rewrite H1. cbn [andb].
  rewrite (IH H2). reflexivity.
Qed.

Lemma remove_fence_keeps t tail :
  no_backtick t = true ->
  remove_all_from "```" 0 (t ++ tail) = (t ++ remove_all_from "```" 0 tail)%string.
Proof.
  induction t as [|c t IH]; intros H; [reflexivity|].
  apply no_backtick_cons in H. destruct H as [H1 H2].
  change (String c t ++ tail)%string with (String c (t ++ tail)).
  cbn [remove_all_from starts_with]. rewrite H1. cbn [andb].
  rewrite (IH H2). reflexivity.
Qed.

Lemma append_empty (t : string) : (t ++ EmptyString)%string = t.
Proof. induction t as [|c t IH]; simpl; [|rewrite IH]; reflexivity. Qed.

(** X18. An answer wrapped in a code fence is unwrapped: for text without
    backticks, the text between the opening fence with its [json] tag and
    the closing fence cleans to the trimmed text, exactly as the text does
    on its own. *)
Theorem fenced_answer_is_unwrapped t :
  no_backtick t = true ->
  clean ("```json" ++ t ++ "```") = Text.trim t
  /\ clean t = Text.trim t.
Proof.
  intros H. unfold clean, remove_all.
  assert (J : forall tail, remove_all_from "```json" 0 ("```json" ++ t ++ tail)
                           = (t ++ remove_all_from "```json" 0 tail)%string).
  { intros tail. rewrite <- (remove_json_keeps t tail H). reflexivity. }
  split.
  - rewrite J. change (remove_all_from "```json" 0 "```") with "```"%string.
    rewrite (remove_fence_keeps t _ H).
    change (remove_all_from "```" 0 "```") with EmptyString.
    rewrite append_empty. reflexivity.
  - rewrite <- (append_empty t) at 1 2.
    rewrite (remove_json_keeps t _ H). cbn [remove_all_from].
    rewrite (remove_fence_keeps t _ H). cbn [remove_all_from].
    rewrite !append_empty. reflexivity.
Qed.

Lemma fenced_answer_is_unwrapped_witness :
  clean ("```json" ++ " [1, 2] " ++ "```") = Text.trim " [1, 2] "
  /\ clean " [1, 2] " = Text.trim " [1, 2] ".
Proof. apply (fenced_answer_is_unwrapped " [1, 2] "). reflexivity. Defined.

(** ** The dashboard when a query is rejected *)

Lemma dashboard_rejected env c w :
  query_fails env (List.length (query_log w)) = true
  \/ query_fails env (List.length (query_log w) + 1) = true
  \/ query_fails env (List.length (query_log w) + 2) = true ->
  dashboard env c w =
  (Ret tt,
   mkWorld (db w) (client_tx w) (connects w) (releases w)
     (query_log w ++ [SELECT_user (claim_id c); SELECT_schedule_items (claim_id c);
                      SELECT_user_streak (claim_id c)])
     (prompts w)
     (response w ++ [Status 500; Send "Error loading dashboard."])).
Proof.
  intros H. unfold dashboard, try_catch.
  rewrite bind_run. unfold db_query at 1.
  destruct (query_fails env (List.length (query_log w))) eqn:F0;
    rewrite bind_run; unfold db_query at 1; cbn [query_log log_statement set_db];
    rewrite length_app; cbn [List.length];
    destruct (query_fails env (List.length (query_log w) + 1)) eqn:F1;
    rewrite bind_run; unfold db_query at 1; cbn [query_log log_statement set_db];
    rewrite !length_app; cbn [List.length];
    replace (List.length (query_log w) + 1 + 1) with (List.length (query_log w) + 2) by lia;
    destruct (query_fails env (List.length (query_log w) + 2)) eqn:F2;
    rewrite bind_run; cbn [Promise_all3 ret throw];
    try (exfalso; destruct H as [H|[H|H]]; discriminate);
    unfold bind, respond, log_statement, set_db; simpl;
    rewrite <- ?app_assoc; simpl; rewrite <- ?app_assoc; reflexivity.
Qed.

(** X19. GET /dashboard with a session always sends its three SELECT
    statements, all of them even when the first is rejected, and the
    rejection of any one of them turns the answer into status 500 with
    [Error loading dashboard.], whatever the other two returned. *)
Theorem dashboard_rejection_is_a_500 env req w c :
  session env req = Some c ->
  sent_since (query_log w) (after (get_dashboard env req) w)
    = [SELECT_user (claim_id c); SELECT_schedule_items (claim_id c);
       SELECT_user_streak (claim_id c)]
  /\ (query_fails env (List.length (query_log w)) = true
      \/ query_fails env (List.length (query_log w) + 1) = true
      \/ query_fails env (List.length (query_log w) + 2) = true ->
      response (after (get_dashboard env req) w)
      = response w ++ [Status 500; Send "Error loading dashboard."]).
Proof.
  intros Hs. unfold after, get_dashboard, sent_since.
  rewrite verifyToken_session, Hs. split.
  - destruct (query_fails env (List.length (query_log w))) eqn:F0;
      [rewrite dashboard_rejected by auto; apply skipn_exact|].
    destruct (query_fails env (List.length (query_log w) + 1)) eqn:F1;
      [rewrite dashboard_rejected by auto; apply skipn_exact|].
    destruct (query_fails env (List.length (query_log w) + 2)) eqn:F2;
      [rewrite dashboard_rejected by auto; apply skipn_exact|].
    rewrite dashboard_run; [apply skipn_exact|].
    intros n Hn.
    assert (N : n = List.length (query_log w) \/ n = List.length (query_log w) + 1
                \/ n = List.length (query_log w) + 2) by lia.
    destruct N as [->|[->| ->]]; assumption.
  - intros H. rewrite (dashboard_rejected env c w H). reflexivity.
Qed.

Lemma dashboard_rejection_is_a_500_witness :
  let env := env_of None (fun n => Nat.eqb n 2) in
  let w' := after (get_dashboard env form_request) world0 in
  sent_since (query_log world0) w'
    = [SELECT_user 1; SELECT_schedule_items 1; SELECT_user_streak 1]
  /\ response w' = response world0 ++ [Status 500; Send "Error loading dashboard."].
Proof.
  destruct (dashboard_rejection_is_a_500 (env_of None (fun n => Nat.eqb n 2))
              form_request world0 alice eq_refl) as [A B].
  split; [exact A | apply B; right; right; reflexivity].
Defined.
